(** * ongoku-cli: credential validity, project resolution and the git
      synchronisation engine

    A shallow embedding of [src/utils/common.ts] (helpers, [ApiClient]
    boundary, [GitClient]) and of the [push] and [pull] commands, with the
    properties of the design specification stated over it.

    The program is sequential asynchronous TypeScript.  Every [await] is a
    call to a collaborator (the simple-git driver, the file system, the
    HTTP API, the prompt); exceptions propagate through [try]/[catch].
    The embedding is a state-and-exception monad over a [World] holding the
    chronological event log, the [tokenExpiry] field of the [GitClient]
    and the spinner flag.  What a collaborator answers is fixed by an
    environment that sees the whole log so far, so every sequence of
    successes and failures of the collaborators is covered. *)

From Stdlib Require Import String Ascii List ZArith Lia Bool Arith.
Import ListNotations.
Local Open Scope string_scope.
Local Open Scope list_scope.

(* ================================================================== *)
(** ** JavaScript string built-ins used by the sources *)
(* ================================================================== *)

Module Js.

(** [s.substring(n)]: the text from index [n] on. *)
Fixpoint drop (n : nat) (s : string) : string :=
  match n, s with
  | O, _ => s
  | S _, EmptyString => EmptyString
  | S k, String _ s' => drop k s'
  end.

(** [s.startsWith(p)]. *)
Definition startsWith (p s : string) : bool := String.prefix p s.

(** [s.includes(sub)]: [sub] occurs somewhere in [s]. *)
Fixpoint includes (sub s : string) : bool :=
  String.prefix sub s
  || match s with
     | EmptyString => false
     | String _ s' => includes sub s'
     end.

(** [s.split(sep)] for a non-empty separator: [skip] counts the
    characters of a separator occurrence still to be passed over,
    [cur] is the piece being collected. *)
Fixpoint split_go (sep : string) (skip : nat) (cur s : string) : list string :=
  match s with
  | EmptyString => [cur]
  | String c s' =>
      match skip with
      | S k => split_go sep k cur s'
      | O =>
          if String.prefix sep s
          then cur :: split_go sep (String.length sep - 1) EmptyString s'
          else split_go sep 0 (cur ++ String c EmptyString) s'
      end
  end.

Definition split (sep s : string) : list string := split_go sep 0 EmptyString s.

(** [s.replace(pat, rep)] with a string pattern: the first occurrence
    only.  The replacement text is inserted literally. *)
Fixpoint replace (pat rep s : string) : string :=
  match s with
  | EmptyString => if String.prefix pat EmptyString then rep else EmptyString
  | String c s' =>
      if String.prefix pat s
      then rep ++ drop (String.length pat) s
      else String c (replace pat rep s')
  end.

(** [xs.join(sep)]. *)
Fixpoint join (sep : string) (xs : list string) : string :=
  match xs with
  | [] => EmptyString
  | [x] => x
  | x :: rest => x ++ sep ++ join sep rest
  end.

(** [endsWith]. *)
Definition endsWith (suffix s : string) : bool :=
  let n := String.length s in
  let k := String.length suffix in
  (k <=? n)%nat && String.eqb (drop (n - k) s) suffix.

(** Character class [[0-9a-f]] under the [i] flag. *)
Definition isHexDigit (c : ascii) : bool :=
  let n := nat_of_ascii c in
  ((48 <=? n) && (n <=? 57) || (97 <=? n) && (n <=? 102) || (65 <=? n) && (n <=? 70))%nat.

(** [[0-9a-f]{n}] at the head of [s]; the unmatched rest is returned. *)
Fixpoint hexRun (n : nat) (s : string) : option string :=
  match n with
  | O => Some s
  | S k =>
      match s with
      | String c s' => if isHexDigit c then hexRun k s' else None
      | EmptyString => None
      end
  end.

(** Runs of hex digits of the given lengths, separated by ["-"], up to
    the end of the input. *)
Fixpoint hexGroups (groups : list nat) (s : string) : bool :=
  match groups with
  | [] => false
  | [n] =>
      match hexRun n s with
      | Some EmptyString => true
      | _ => false
      end
  | n :: rest =>
      match hexRun n s with
      | Some (String "-" s') => hexGroups rest s'
      | _ => false
      end
  end.

(** [/^[0-9a-f]{8}-[0-9a-f]{4}-[0-9a-f]{4}-[0-9a-f]{4}-[0-9a-f]{12}$/i]. *)
Definition matchesIdPattern (s : string) : bool := hexGroups [8; 4; 4; 4; 12]%nat s.

(** [path.basename] on POSIX paths: the last non-empty segment. *)
Definition basename (p : string) : string :=
  last (filter (fun seg => negb (String.eqb seg EmptyString)) (split "/" p)) EmptyString.

(** [path.join(a, b)] for a normalised directory [a] and a relative
    name [b]. *)
Definition path_join (a b : string) : string := a ++ "/" ++ b.

End Js.

(* ================================================================== *)
(** ** Data *)
(* ================================================================== *)

(** A thrown JavaScript value.  [exn_response_data] is the
    [error.response.data] some transport errors carry. *)
Record Exn := mkExn {
  exn_name : string;
  exn_message : string;
  exn_response_data : option string
}.

(** [new Error(msg)]. *)
Definition Error (msg : string) : Exn := mkExn "Error" msg None.

(** A [TypeError] raised by the runtime. *)
Definition TypeError (msg : string) : Exn := mkExn "TypeError" msg None.

(** Outcome of a computation that may throw. *)
Inductive Result (A : Type) : Type :=
| Ok (a : A)
| Throw (e : Exn).

Arguments Ok {A} a.
Arguments Throw {A} e.

(** A decoded schema document, or any other JSON-like value. *)
#[local] Unset Elimination Schemes.
Inductive JsVal : Type :=
| JUndefined
| JNull
| JBool (b : bool)
| JNum (n : Z)
| JStr (s : string)
| JArr (items : list JsVal)
| JObj (fields : list (string * JsVal)).
#[local] Set Elimination Schemes.

(** A project record of the listing ([any] in the source; these are the
    properties the code reads, [id] and [name] being strings and
    [github_repo_url] a string when present). *)
Record Project := mkProject {
  project_id : string;
  project_name : string;
  project_status : string;
  project_github_repo_url : option string
}.

(** An entry of [git.getRemotes(true)]: [name] and [refs.fetch]. *)
Record Remote := mkRemote {
  remote_name : string;
  remote_fetch : option string
}.

(** The [StatusResult] of simple-git, as far as it is read. *)
Record StatusResult := mkStatus {
  isClean : bool;
  created : list string;
  modified : list string;
  deleted : list string
}.

(** An object with the three properties that [push] and [pull]
    destructure from [gitCredentials.git_info]. *)
Record NestedGitInfo := mkNestedGitInfo {
  nested_token : string;
  nested_repo_url : string;
  nested_expires_at : option Z
}.

(** [git_info] of the token response.  [ApiClient.getGitToken] declares
    the first four properties.  The reply is JSON from the server and
    the commands hold it as [any]: they also read two properties that
    the declaration does not have, [reused] (of which only the
    truthiness matters; [false] when the object has no such property)
    and [git_info] ([None] when the object has no such property). *)
Record GitInfo := mkGitInfo {
  token : string;
  repo_url : string;
  auth_url : string;
  expires_at : option Z;
  reused_property : bool;
  git_info_property : option NestedGitInfo
}.

Record TokenResponse := mkTokenResponse {
  success : bool;
  git_info : option GitInfo
}.

(** Reply of [ApiClient.pushProjectUpdates], as far as it is read. *)
Record PushResult := mkPushResult {
  warning : option string
}.

(** What [getGitCredentials] resolves to when it is not [null]: the
    literal [{ success: true, valid: true, reused: true }] or the
    [git_info] object of the token response. *)
Inductive Credentials : Type :=
| ReusedCredentials
| IssuedCredentials (info : GitInfo).

(** [gitCredentials.reused]: [true] on the literal; on a [git_info]
    object whatever the server put there, [undefined] for an object of
    the declared shape. *)
Definition credentials_reused (c : Credentials) : bool :=
  match c with
  | ReusedCredentials => true
  | IssuedCredentials info => reused_property info
  end.

(** [gitCredentials.git_info]: the literal has no such property (it has
    [success], [valid], [reused]), and neither has a [git_info] object
    of the declared shape ([token], [repo_url], [auth_url],
    [expires_at]): the read gives [undefined] unless the server put a
    [git_info] property into the [git_info] object. *)
Definition credentials_git_info (c : Credentials) : option NestedGitInfo :=
  match c with
  | ReusedCredentials => None
  | IssuedCredentials info => git_info_property info
  end.

(** A [git_info] object of the declared shape: it has neither a
    [reused] nor a [git_info] property. *)
Definition declared_shape (info : GitInfo) : Prop :=
  reused_property info = false /\ git_info_property info = None.

(** Options of [ongoku push]. *)
Record PushOptions := mkPushOptions {
  push_message : string;
  push_directory : option string;
  schemaOnly : bool;
  codeOnly : bool
}.

(** Options of [ongoku pull]. *)
Record PullOptions := mkPullOptions {
  pull_directory : option string;
  force : bool
}.

(* ================================================================== *)
(** ** Collaborators, events and the world *)
(* ================================================================== *)

(** The calls the code makes to its collaborators. *)
Inductive Call : Type :=
| KeytarGetPassword (service account : string)
| FsExistsSync (path : string)
| FsReadFileSync (path : string)
| FsReaddirSync (path : string)
| FsStatMtime (path : string)
| InquirerConfirm (message : string)
| ApiGetProjects
| ApiGetGitToken (projectId : string)
| ApiPushProjectUpdates (projectId : string) (schema : JsVal) (skipGitCommit : bool)
| GitGetRemotes (verbose : bool)
| GitStatus
| GitInit
| GitClone (repoUrl destination : string)
| GitPull (options : list string)
| GitAdd (files : string)
| GitRaw (args : list string)
| GitPush
| GitStash (options : list string)
| GitRemote (args : list string)
| GitAddConfig (key value : string).

(** What each call resolves to when it does not throw. *)
Definition reply (c : Call) : Type :=
  match c with
  | KeytarGetPassword _ _ => option string
  | FsExistsSync _ => bool
  | FsReadFileSync _ => string
  | FsReaddirSync _ => list string
  | FsStatMtime _ => string
  | InquirerConfirm _ => bool
  | ApiGetProjects => list Project
  | ApiGetGitToken _ => TokenResponse
  | ApiPushProjectUpdates _ _ _ => PushResult
  | GitGetRemotes _ => list Remote
  | GitStatus => StatusResult
  | _ => unit
  end.

(** What the program shows: the spinner and the console. *)
Inductive Output : Type :=
| SpinnerStart (text : string)
| SpinnerText (text : string)
| SpinnerSucceed (text : string)
| SpinnerFail (text : string)
| SpinnerInfo (text : string)
| SpinnerStop
| ConsoleLog (text : string)
| ConsoleError (text : string)
| ConsoleErrorExn (label : string) (error : Exn)
| ConsoleErrorResponse (label : string) (response : TokenResponse).

(** One entry of the log: a call with the error it threw, if any, or
    something shown. *)
Inductive Event : Type :=
| Called (c : Call) (thrown : option Exn)
| Printed (o : Output).

(** The environment: what every collaborator answers given the log so
    far, the clock read by [Date.now()], and the library functions. *)
Record Env := mkEnv {
  oracle : list Event -> forall c : Call, Result (reply c);
  clock : list Event -> Z;
  yaml_load : string -> Result JsVal;
  JSON_parse : string -> Result JsVal;
  toLowerCase : string -> string;
  process_cwd : string;
  path_resolve : string -> string
}.

(** The mutable state: the log, [GitClient.tokenExpiry], and
    [spinner.isSpinning] of the command's spinner. *)
Record World := mkWorld {
  trace : list Event;
  tokenExpiry : option Z;
  isSpinning : bool
}.

Definition log_event (e : Event) (w : World) : World :=
  mkWorld (trace w ++ [e]) (tokenExpiry w) (isSpinning w).

Definition set_tokenExpiry (t : option Z) (w : World) : World :=
  mkWorld (trace w) t (isSpinning w).

Definition set_isSpinning (b : bool) (w : World) : World :=
  mkWorld (trace w) (tokenExpiry w) b.

(** A fresh process: nothing logged, no client yet. *)
Definition initial_world : World := mkWorld [] None false.

(* ================================================================== *)
(** ** The monad *)
(* ================================================================== *)

Definition M (A : Type) : Type := World -> Result A * World.

Definition ret {A} (a : A) : M A := fun w => (Ok a, w).

Definition throw {A} (e : Exn) : M A := fun w => (Throw e, w).

Definition bind {A B} (m : M A) (k : A -> M B) : M B :=
  fun w =>
    match m w with
    | (Ok a, w') => k a w'
    | (Throw e, w') => (Throw e, w')
    end.

(** [try { m } catch (e) { h e }]. *)
Definition try_catch {A} (m : M A) (h : Exn -> M A) : M A :=
  fun w =>
    match m w with
    | (Ok a, w') => (Ok a, w')
    | (Throw e, w') => h e w'
    end.

(** [try { m } finally { f }], for a [finally] block that completes
    normally. *)
Definition try_finally {A} (m : M A) (f : M unit) : M A :=
  fun w =>
    match m w with
    | (r, w') =>
        match f w' with
        | (Ok _, w'') => (r, w'')
        | (Throw e, w'') => (Throw e, w'')
        end
    end.

Declare Scope monad_scope.
Delimit Scope monad_scope with monad.
Notation "x <- m ;; k" := (bind m (fun x => k))
  (at level 61, m at next level, right associativity) : monad_scope.
Notation "m ;; k" := (bind m (fun _ => k))
  (at level 61, right associativity) : monad_scope.
Local Open Scope monad_scope.

Definition thrown_by {A} (r : Result A) : option Exn :=
  match r with
  | Ok _ => None
  | Throw e => Some e
  end.

Definition print (o : Output) : M unit :=
  fun w => (Ok tt, log_event (Printed o) w).

Definition console_log (text : string) : M unit := print (ConsoleLog text).

Definition console_error (text : string) : M unit := print (ConsoleError text).

Definition get_tokenExpiry : M (option Z) := fun w => (Ok (tokenExpiry w), w).

Definition put_tokenExpiry (t : option Z) : M unit :=
  fun w => (Ok tt, set_tokenExpiry t w).

(** Run [body] on each element in turn ([forEach], [for ... of]). *)
Fixpoint for_each {A} (xs : list A) (body : A -> M unit) : M unit :=
  match xs with
  | [] => ret tt
  | x :: rest => body x ;; for_each rest body
  end.

(** [xs.find(pred)]. *)
Definition find_first {A} (pred : A -> bool) (xs : list A) : option A := List.find pred xs.

(** A line feed, for the messages that start with one. *)
Definition nl : string := String (ascii_of_nat 10) EmptyString.

(** A double quote, for the messages that contain one. *)
Definition dquote : string := String (ascii_of_nat 34) EmptyString.

(** JavaScript truthiness of a [string | undefined] and of a
    [number | null]. *)
Definition truthy_string (s : option string) : bool :=
  match s with
  | Some s' => negb (String.eqb s' EmptyString)
  | None => false
  end.

Definition truthy_number (n : option Z) : bool :=
  match n with
  | Some n' => negb (Z.eqb n' 0)
  | None => false
  end.

(** The argument of [includes] after [ToString]: a missing array
    element is [undefined], which reads as the text ["undefined"]. *)
Definition includes_argument (piece : option string) : string :=
  match piece with
  | Some s => s
  | None => "undefined"
  end.

(** Early exit from a block of a command body: fall through to the next
    statement, or [return r]. *)
Inductive Flow (R : Type) : Type :=
| Continue
| Return (r : R).

Arguments Continue {R}.
Arguments Return {R} r.

(* ================================================================== *)
(** ** The program *)
(* ================================================================== *)

Section Model.

Variable env : Env.

(** An awaited call to a collaborator: the environment answers, the
    call and its outcome are logged. *)
Definition perform (c : Call) : M (reply c) :=
  fun w =>
    let r := oracle env (trace w) c in
    (r, log_event (Called c (thrown_by r)) w).

(** [Date.now()]. *)
Definition Date_now : M Z := fun w => (Ok (clock env (trace w)), w).

(** A pure library function that may throw. *)
Definition lift {A} (r : Result A) : M A := fun w => (r, w).

(** *** The command's spinner ([ora]) *)

Definition spinner_start (text : string) : M unit :=
  fun w => (Ok tt, set_isSpinning true (log_event (Printed (SpinnerStart text)) w)).

Definition spinner_text (text : string) : M unit := print (SpinnerText text).

Definition spinner_succeed (text : string) : M unit :=
  fun w => (Ok tt, set_isSpinning false (log_event (Printed (SpinnerSucceed text)) w)).

Definition spinner_fail (text : string) : M unit :=
  fun w => (Ok tt, set_isSpinning false (log_event (Printed (SpinnerFail text)) w)).

Definition spinner_info (text : string) : M unit :=
  fun w => (Ok tt, set_isSpinning false (log_event (Printed (SpinnerInfo text)) w)).

(** [if (spinner.isSpinning) spinner.stop()]. *)
Definition spinner_stop_if_spinning : M unit :=
  fun w =>
    if isSpinning w
    then (Ok tt, set_isSpinning false (log_event (Printed SpinnerStop) w))
    else (Ok tt, w).

(** [if (spinner) ...] for the optional spinner parameter of the
    helpers. *)
Definition when (b : bool) (m : M unit) : M unit := if b then m else ret tt.

(** *** config.ts: the auth token *)

Definition SERVICE_NAME : string := "ongoku-cli".
Definition ACCOUNT_NAME : string := "default".

Definition auth_getToken : M (option string) :=
  try_catch
    (perform (KeytarGetPassword SERVICE_NAME ACCOUNT_NAME))
    (fun error =>
       print (ConsoleErrorExn "Error retrieving auth token:" error) ;;
       ret None).

Definition auth_isAuthenticated : M bool :=
  tok <- auth_getToken ;;
  ret (truthy_string tok).

(** *** git.ts: GitClient *)

Section GitClient.

Variable projectDir : string.

(** [new GitClient(projectDir)]: the field initialiser
    [tokenExpiry = null]. *)
Definition new_GitClient : M unit := put_tokenExpiry None.

Definition getRemotes (verbose : bool) : M (list Remote) :=
  try_catch
    (if verbose then perform (GitGetRemotes true) else perform (GitGetRemotes false))
    (fun error =>
       print (ConsoleErrorExn "Error getting Git remotes:" error) ;;
       ret []).

Definition getStatus : M StatusResult :=
  try_catch
    (perform GitStatus)
    (fun error =>
       print (ConsoleErrorExn "Error getting Git status:" error) ;;
       throw error).

Definition isGitRepository : M bool :=
  try_catch
    (perform (FsExistsSync (Js.path_join projectDir ".git")))
    (fun _ => ret false).

Definition init : M bool :=
  try_catch
    (isRepo <- isGitRepository ;;
     if isRepo then ret true
     else perform GitInit ;; ret true)
    (fun error =>
       print (ConsoleErrorExn "Error initializing git repository:" error) ;;
       ret false).

Definition clone (repoUrl destination : string) : M bool :=
  print (SpinnerStart "Cloning repository...") ;;
  try_catch
    (perform (GitClone repoUrl destination) ;;
     print (SpinnerSucceed "Repository cloned successfully") ;;
     ret true)
    (fun error =>
       print (SpinnerFail "Failed to clone repository") ;;
       print (ConsoleErrorExn "Error details:" error) ;;
       ret false).

Definition pull : M bool :=
  print (SpinnerStart "Pulling latest changes...") ;;
  try_catch
    (isRepo <- isGitRepository ;;
     if negb isRepo
     then print (SpinnerFail "Not a git repository") ;; ret false
     else
       perform (GitPull ["--no-rebase"]) ;;
       print (SpinnerSucceed "Latest changes pulled successfully") ;;
       ret true)
    (fun error =>
       print (SpinnerFail "Failed to pull changes") ;;
       print (ConsoleErrorExn "Error details:" error) ;;
       ret false).

(** The [try] block entered when the first push was rejected: stash,
    fast-forward-only pull, pop, add, commit again, push again. *)
Definition pullAndPushAgain : M unit :=
  perform (GitStash []) ;;
  perform (GitPull ["--ff-only"]) ;;
  perform (GitStash ["pop"]) ;;
  perform (GitAdd ".") ;;
  perform (GitRaw ["commit"; "-m"; "Update from Ongoku CLI"; "--no-gpg-sign"]) ;;
  perform GitPush.

(** The [catch (pushError)] block of [commitAndPush]. *)
Definition onPushError (pushError : Exn) : M unit :=
  console_log "Push failed, trying to pull changes first..." ;;
  try_catch
    pullAndPushAgain
    (fun pullError =>
       try_catch (perform (GitStash ["pop"])) (fun stashError => ret tt) ;;
       throw pushError).

(** The outer [try] block of [commitAndPush]. *)
Definition commitAndPush_try (message : string) : M bool :=
  isRepo <- isGitRepository ;;
  if negb isRepo
  then print (SpinnerFail "Not a git repository") ;; ret false
  else
    status <- perform GitStatus ;;
    if isClean status
    then print (SpinnerInfo "No changes to commit") ;; ret true
    else
      perform (GitAdd ".") ;;
      perform (GitRaw ["commit"; "-m"; message; "--no-gpg-sign"]) ;;
      try_catch (perform GitPush) onPushError ;;
      print (SpinnerSucceed "Changes committed and pushed successfully") ;;
      ret true.

Definition commitAndPush (message : string) : M bool :=
  print (SpinnerStart "Committing and pushing changes...") ;;
  try_catch
    (commitAndPush_try message)
    (fun error =>
       print (SpinnerFail "Failed to commit and push changes") ;;
       print (ConsoleErrorExn "Error details:" error) ;;
       ret false).

(** The [try] block of [configureWithToken].  The owner and name the
    source extracts from [repoUrl.split('/')] are not used afterwards
    and are left out. *)
Definition configureWithToken_try (token repoUrl : string) (expiresAt : option Z) : M bool :=
  let authUrl := Js.replace "https://" ("https://" ++ token ++ "@") repoUrl in
  perform (GitRemote ["set-url"; "origin"; authUrl]) ;;
  perform (GitAddConfig "credential.helper" "cache --timeout=3600") ;;
  (if truthy_number expiresAt
   then put_tokenExpiry expiresAt
   else now <- Date_now ;; put_tokenExpiry (Some (now + 3600 * 1000)%Z)) ;;
  remotes <- perform (GitGetRemotes true) ;;
  match find_first (fun remote => String.eqb (remote_name remote) "origin") remotes with
  | None => console_error "Failed to configure origin remote" ;; ret false
  | Some _ => ret true
  end.

Definition configureWithToken (token repoUrl : string) (expiresAt : option Z) : M bool :=
  try_catch
    (configureWithToken_try token repoUrl expiresAt)
    (fun error =>
       print (ConsoleErrorExn "Error configuring git with token:" error) ;;
       ret false).

Definition bufferMs : Z := 5 * 60 * 1000.

Definition isTokenValid : M bool :=
  expiry <- get_tokenExpiry ;;
  if negb (truthy_number expiry) then ret false
  else
    now <- Date_now ;;
    match expiry with
    | Some e => ret (now <? e - bufferMs)%Z
    | None => ret false
    end.

End GitClient.

(** *** common.ts: helpers *)

Definition checkAuthentication : M bool :=
  isAuthenticated <- auth_isAuthenticated ;;
  if negb isAuthenticated
  then console_log "You are not logged in. Please run `ongoku login` first." ;; ret false
  else ret true.

Definition resolveProjectDir (directory : option string) : string :=
  match directory with
  | Some d => if truthy_string directory then path_resolve env d else process_cwd env
  | None => process_cwd env
  end.

Definition isOngokuProject (projectDir : string) : M bool :=
  let ongokuYamlPath := Js.path_join projectDir "ongoku.yaml" in
  isProject <- perform (FsExistsSync ongokuYamlPath) ;;
  when (negb isProject)
    (console_log ("Directory " ++ projectDir ++ " is not a valid Ongoku project.") ;;
     console_log "An Ongoku project should contain an ongoku.yaml file at the root.") ;;
  ret isProject.

(** Creates the [GitClient]; the client itself is the [projectDir] and
    the [tokenExpiry] field of the world, so only [isRepo] is returned. *)
Definition verifyGitRepository (projectDir : string) : M bool :=
  new_GitClient ;;
  isRepo <- isGitRepository projectDir ;;
  when (negb isRepo)
    (console_log ("Directory " ++ projectDir ++ " is not a git repository.") ;;
     console_log "Use `ongoku clone <project-name>` to clone a project first.") ;;
  ret isRepo.

Definition schemaFiles (projectDir : string) : list string :=
  [ Js.path_join (Js.path_join projectDir "goku_schema") "app.schema.yml";
    Js.path_join (Js.path_join projectDir "goku_schema") "app.schema.yaml";
    Js.path_join (Js.path_join projectDir "goku_schema") "schema.yml";
    Js.path_join (Js.path_join projectDir "goku_schema") "schema.yaml";
    Js.path_join (Js.path_join projectDir ".goku") "schema.yml";
    Js.path_join (Js.path_join projectDir ".goku") "schema.yaml" ].

(** The [for ... of] loop of [findSchemaFile]. *)
Fixpoint firstExisting (files : list string) : M string :=
  match files with
  | [] => ret EmptyString
  | file :: rest =>
      found <- perform (FsExistsSync file) ;;
      if found then ret file else firstExisting rest
  end.

Definition findSchemaFile (projectDir : string) : M string :=
  firstExisting (schemaFiles projectDir).

(** Returns [(projectName, remoteUrl)]. *)
Definition getProjectIdentifiers (projectDir : string) (spinner : bool) : M (string * string) :=
  remoteUrl <-
    try_catch
      (remotes <- getRemotes true ;;
       match find_first (fun remote => String.eqb (remote_name remote) "origin") remotes with
       | Some originRemote =>
           if truthy_string (remote_fetch originRemote)
           then
             let url := match remote_fetch originRemote with Some u => u | None => EmptyString end in
             when spinner (spinner_text ("Found remote: " ++ url)) ;;
             ret url
           else ret EmptyString
       | None => ret EmptyString
       end)
      (fun error => ret EmptyString) ;;
  let projectDirName := Js.basename projectDir in
  let projectName :=
    if Js.startsWith "project-" projectDirName then Js.drop 8 projectDirName else projectDirName in
  ret (projectName, remoteUrl).

(** The predicate of the second [find] of [findProject]:
    [p.github_repo_url &&
     remoteUrl.includes(p.github_repo_url.split('github.com/')[1])]. *)
Definition matchesRemote (remoteUrl : string) (p : Project) : bool :=
  match project_github_repo_url p with
  | Some url =>
      if truthy_string (Some url)
      then Js.includes (includes_argument (nth_error (Js.split "github.com/" url) 1)) remoteUrl
      else false
  | None => false
  end.

(** The three strategies of [findProject] on a fetched listing. *)
Definition selectProject (projects : list Project) (projectName : string)
    (remoteUrl : option string) : option Project :=
  let project : option Project := None in
  let project :=
    if Js.matchesIdPattern projectName
    then find_first (fun p => String.eqb (project_id p) projectName) projects
    else project in
  let project :=
    match project, remoteUrl with
    | None, Some url =>
        if truthy_string remoteUrl then find_first (matchesRemote url) projects else project
    | _, _ => project
    end in
  let project :=
    match project with
    | None =>
        find_first
          (fun p => String.eqb (toLowerCase env (project_name p)) (toLowerCase env projectName))
          projects
    | Some _ => project
    end in
  project.

Definition describeProject (p : Project) : string :=
  "  - " ++ project_name p ++ " (" ++ project_id p ++ ")"
  ++ (if truthy_string (project_github_repo_url p)
      then " - " ++ match project_github_repo_url p with Some u => u | None => EmptyString end
      else EmptyString).

Definition findProject (projectName : string) (remoteUrl : option string) (spinner : bool)
  : M (option Project) :=
  try_catch
    (when spinner (spinner_text "Fetching projects...") ;;
     projects <- perform ApiGetProjects ;;
     let project := selectProject projects projectName remoteUrl in
     when (match project with None => spinner | Some _ => false end)
       (spinner_fail ("Could not identify the project " ++ dquote ++ projectName ++ dquote) ;;
        console_log "Available projects:" ;;
        for_each projects (fun p => console_log (describeProject p))) ;;
     ret project)
    (fun error =>
       when spinner (spinner_fail "Failed to fetch projects:") ;;
       console_error (exn_message error) ;;
       console_log "Ensure the API URL is correct with: `ongoku config get apiUrl`" ;;
       ret None).

(** [git] tells whether a [GitClient] was passed. *)
Definition getGitCredentials (projectId : string) (spinner git : bool) : M (option Credentials) :=
  try_catch
    (valid <- (if git then isTokenValid else ret false) ;;
     if valid
     then
       when spinner (spinner_text "Using existing Git credentials...") ;;
       ret (Some ReusedCredentials)
     else
       when spinner (spinner_text "Generating Git credentials...") ;;
       tokenResponse <- perform (ApiGetGitToken projectId) ;;
       match success tokenResponse, git_info tokenResponse with
       | true, Some info => ret (Some (IssuedCredentials info))
       | _, _ =>
           when spinner (spinner_fail "Failed to generate Git credentials.") ;;
           print (ConsoleErrorResponse "API Response:" tokenResponse) ;;
           ret None
       end)
    (fun error =>
       when spinner (spinner_fail "Failed to generate Git credentials:") ;;
       console_error (exn_message error) ;;
       ret None).

Definition withErrorHandling {T} (fn : M (option T)) (errorMessage initialSpinnerText : string)
  : M (option T) :=
  spinner_start initialSpinnerText ;;
  try_finally
    (try_catch
       fn
       (fun error =>
          spinner_fail errorMessage ;;
          console_error (exn_message error) ;;
          when (truthy_string (exn_response_data error))
            (console_error
               ("API Error: "
                ++ match exn_response_data error with Some d => d | None => EmptyString end)) ;;
          ret None))
    spinner_stop_if_spinning.

(** *** commands/push.ts *)

(** The nested [try]/[catch] that decodes the schema file. *)
Definition decodeSchema (schemaContent : string) : M JsVal :=
  try_catch
    (lift (yaml_load env schemaContent))
    (fun yamlError =>
       try_catch
         (lift (JSON_parse env schemaContent))
         (fun jsonError => throw (Error "Schema file is neither valid YAML nor JSON"))).

(** The [try] block of step 5: read, decode, transmit. *)
Definition updateSchema (options : PushOptions) (schemaPath : string) (project : Project) : M unit :=
  schemaContent <- perform (FsReadFileSync schemaPath) ;;
  schema <- decodeSchema schemaContent ;;
  let skipGitCommit := negb (schemaOnly options) in
  result <- perform (ApiPushProjectUpdates (project_id project) schema skipGitCommit) ;;
  spinner_succeed "Schema updated successfully" ;;
  when (truthy_string (warning result))
    (console_log ("Warning: " ++ match warning result with Some t => t | None => EmptyString end)).

(** The [catch] block of step 5. *)
Definition onSchemaError (options : PushOptions) (error : Exn) : M (Flow (option bool)) :=
  spinner_fail ("Failed to update schema: " ++ exn_message error) ;;
  if schemaOnly options
  then ret (Return None)
  else console_log "Will continue with code changes." ;; ret Continue.

(** Step 5: push the schema if there is one and code-only was not
    asked for. *)
Definition pushSchema (options : PushOptions) (schemaPath : string) (project : Project)
  : M (Flow (option bool)) :=
  if truthy_string (Some schemaPath) && negb (codeOnly options)
  then
    spinner_text "Updating schema..." ;;
    try_catch
      (updateSchema options schemaPath project ;; ret Continue)
      (onSchemaError options)
  else ret Continue.

(** The credential branch shared by push and pull: reuse, or
    destructure [gitCredentials.git_info] and configure the remote. *)
Definition applyCredentials (gitCredentials : Credentials) : M unit :=
  if credentials_reused gitCredentials
  then spinner_succeed "Using existing Git credentials"
  else
    match credentials_git_info gitCredentials with
    | None =>
        throw (TypeError
          "Cannot destructure property 'token' of 'gitCredentials.git_info' as it is undefined.")
    | Some info =>
        spinner_succeed "Git credentials generated successfully" ;;
        configureWithToken (nested_token info) (nested_repo_url info)
          (nested_expires_at info) ;;
        ret tt
    end.

(** Steps 6 to 10: credentials, status, commit and push. *)
Definition pushCode (options : PushOptions) (projectDir : string) (project : Project)
  : M (option bool) :=
  gitCredentials <- getGitCredentials (project_id project) true true ;;
  match gitCredentials with
  | None => ret None
  | Some credentials =>
      applyCredentials credentials ;;
      spinner_text "Checking for changes..." ;;
      status <- getStatus ;;
      if isClean status
      then spinner_info "No changes to commit" ;; ret None
      else
        console_log (nl ++ "Changes to be pushed:") ;;
        when (0 <? List.length (created status))%nat
          (console_log ("  New files: " ++ Js.join ", " (created status))) ;;
        when (0 <? List.length (modified status))%nat
          (console_log ("  Modified: " ++ Js.join ", " (modified status))) ;;
        when (0 <? List.length (deleted status))%nat
          (console_log ("  Deleted: " ++ Js.join ", " (deleted status))) ;;
        spinner_text "Pushing code changes..." ;;
        let commitMessage :=
          if truthy_string (Some (push_message options))
          then push_message options
          else "Update from Ongoku CLI" in
        pushSuccess <- commitAndPush projectDir commitMessage ;;
        (if pushSuccess
         then spinner_succeed "Successfully pushed changes to Ongoku."
         else spinner_fail "Failed to push changes.") ;;
        ret (Some true)
  end.

(** Steps 5 to 10, once the project is known. *)
Definition pushProject (options : PushOptions) (projectDir schemaPath : string)
    (project : Project) : M (option bool) :=
  flow <- pushSchema options schemaPath project ;;
  match flow with
  | Return r => ret r
  | Continue =>
      if schemaOnly options
      then ret None
      else pushCode options projectDir project
  end.

(** Steps 3 and 4, then the rest. *)
Definition pushResolved (options : PushOptions) (projectDir schemaPath : string)
  : M (option bool) :=
  identifiers <- getProjectIdentifiers projectDir true ;;
  let (projectName, remoteUrl) := identifiers in
  project <- findProject projectName (Some remoteUrl) true ;;
  match project with
  | None => ret None
  | Some p =>
      spinner_succeed ("Found project: " ++ project_name p) ;;
      pushProject options projectDir schemaPath p
  end.

(** The function handed to [withErrorHandling] by [push]. *)
Definition pushBody (options : PushOptions) : M (option bool) :=
  let projectDir := resolveProjectDir (push_directory options) in
  isProject <- isOngokuProject projectDir ;;
  if negb isProject
  then
    console_log
      "To push changes, you must be in an Ongoku project directory or specify one with --directory." ;;
    ret None
  else
    isRepo <- verifyGitRepository projectDir ;;
    if negb isRepo then ret None
    else
      schemaPath <- findSchemaFile projectDir ;;
      if negb (truthy_string (Some schemaPath)) && negb (codeOnly options)
      then
        console_log "Could not find a schema file in the project." ;;
        console_log "Will only push code changes without updating the schema." ;;
        if schemaOnly options
        then
          console_log "Cannot push schema: No schema file found." ;;
          console_log "Create a schema file in the goku_schema directory first." ;;
          ret None
        else pushResolved options projectDir schemaPath
      else pushResolved options projectDir schemaPath.

(** The action of [ongoku push]. *)
Definition pushCommand (options : PushOptions) : M unit :=
  authenticated <- checkAuthentication ;;
  if negb authenticated then ret tt
  else
    withErrorHandling (pushBody options) "Push failed" "Preparing to push changes..." ;;
    ret tt.

(** *** commands/pull.ts *)

(** The report printed after a successful pull. *)
Definition reportSchemaFiles (projectDir : string) : M unit :=
  let schemaDir := Js.path_join projectDir "goku_schema" in
  present <- perform (FsExistsSync schemaDir) ;;
  if present
  then
    entries <- perform (FsReaddirSync schemaDir) ;;
    let schemaFiles :=
      filter (fun file => Js.endsWith ".yml" file || Js.endsWith ".yaml" file) entries in
    when (0 <? List.length schemaFiles)%nat
      (console_log (nl ++ "Schema files found:") ;;
       for_each schemaFiles
         (fun file =>
            modified <- perform (FsStatMtime (Js.path_join schemaDir file)) ;;
            console_log ("  - " ++ file ++ " (Last modified: " ++ modified ++ ")")) ;;
       console_log
         (nl ++ "Tip: You can modify these schema files and use `ongoku push --schema-only` to update your project."))
  else
    console_log (nl ++ "No schema directory found. You may want to create one:") ;;
    console_log ("mkdir -p " ++ Js.path_join projectDir "goku_schema").

(** Steps 3 to 7 of pull, after the local-changes check. *)
Definition pullResolved (projectDir : string) : M (option bool) :=
  identifiers <- getProjectIdentifiers projectDir true ;;
  let (projectName, remoteUrl) := identifiers in
  project <- findProject projectName (Some remoteUrl) true ;;
  match project with
  | None => ret None
  | Some p =>
      spinner_succeed ("Found project: " ++ project_name p) ;;
      gitCredentials <- getGitCredentials (project_id p) true true ;;
      match gitCredentials with
      | None => ret None
      | Some credentials =>
          applyCredentials credentials ;;
          spinner_text "Pulling latest changes..." ;;
          pullSuccess <- pull projectDir ;;
          (if pullSuccess
           then
             spinner_succeed "Successfully pulled latest changes." ;;
             reportSchemaFiles projectDir
           else
             spinner_fail "Failed to pull changes." ;;
             console_log (nl ++ "Troubleshooting tips:") ;;
             console_log "1. Check if you have access to the repository" ;;
             console_log "2. Try running `git pull origin main` manually to see detailed errors" ;;
             console_log "3. Ensure your local changes are committed or stashed") ;;
          ret (Some pullSuccess)
      end
  end.

(** The function handed to [withErrorHandling] by [pull]. *)
Definition pullBody (options : PullOptions) : M (option bool) :=
  let projectDir := resolveProjectDir (pull_directory options) in
  isProject <- isOngokuProject projectDir ;;
  if negb isProject
  then
    console_log
      "To pull changes, you must be in an Ongoku project directory or specify one with --directory." ;;
    ret None
  else
    isRepo <- verifyGitRepository projectDir ;;
    if negb isRepo then ret None
    else
      status <- getStatus ;;
      if negb (isClean status) && negb (force options)
      then
        console_log "You have local uncommitted changes that might be overwritten." ;;
        console_log ("Modified files: " ++ Js.join ", " (modified status)) ;;
        proceed <- perform (InquirerConfirm "Do you want to proceed with pull anyway?") ;;
        if negb proceed
        then console_log "Pull canceled. Commit or stash your changes first." ;; ret None
        else pullResolved projectDir
      else pullResolved projectDir.

(** The action of [ongoku pull]. *)
Definition pullCommand (options : PullOptions) : M unit :=
  authenticated <- checkAuthentication ;;
  if negb authenticated then ret tt
  else
    withErrorHandling (pullBody options) "Pull failed" "Preparing to pull changes..." ;;
    ret tt.

End Model.

(* ================================================================== *)
(** ** Reading the log *)
(* ================================================================== *)

Definition is_push (c : Call) : bool :=
  match c with GitPush => true | _ => false end.

Definition is_stash_save (c : Call) : bool :=
  match c with GitStash [] => true | _ => false end.

Definition is_ff_pull (c : Call) : bool :=
  match c with
  | GitPull [o] => String.eqb o "--ff-only"
  | _ => false
  end.

Definition is_commit (c : Call) : bool :=
  match c with GitRaw _ => true | _ => false end.

Definition is_set_url (c : Call) : bool :=
  match c with GitRemote _ => true | _ => false end.

Definition is_any_pull (c : Call) : bool :=
  match c with GitPull _ => true | _ => false end.

Definition is_token_request (c : Call) : bool :=
  match c with ApiGetGitToken _ => true | _ => false end.

(** Number of logged calls that satisfy [p]. *)
Fixpoint count_calls (p : Call -> bool) (events : list Event) : nat :=
  match events with
  | [] => 0
  | Called c _ :: rest => (if p c then 1 else 0) + count_calls p rest
  | Printed _ :: rest => count_calls p rest
  end.

(** Some logged call threw. *)
Definition some_call_failed (events : list Event) : Prop :=
  exists c e, In (Called c (Some e)) events.

(** What a call of [commitAndPush] on a clean working copy appends to
    the log. *)
Definition no_op_events (dir : string) : list Event :=
  [ Printed (SpinnerStart "Committing and pushing changes...");
    Called (FsExistsSync (Js.path_join dir ".git")) None;
    Called GitStatus None;
    Printed (SpinnerInfo "No changes to commit") ].

(** The world once the [catch] block of step 5 has reported [error]. *)
Definition schema_failure_reported (error : Exn) (w : World) : World :=
  set_isSpinning false
    (log_event (Printed (SpinnerFail ("Failed to update schema: " ++ exn_message error))) w).

(** The message of the [TypeError] raised when [undefined] is
    destructured in the credential branch of push and pull. *)
Definition destructure_message : string :=
  "Cannot destructure property 'token' of 'gitCredentials.git_info' as it is undefined.".

(** The log [after] continues the log [before] with the opening of the
    credential step: the reuse of the held token is announced, or a
    token is requested from the service. *)
Definition opens_with_credentials (projectId : string) (before after : list Event) : Prop :=
  exists text rest,
    after = before ++ Printed (SpinnerText text) :: rest /\
    (text = "Using existing Git credentials..." \/
     text = "Generating Git credentials..." /\
     exists outcome rest', rest = Called (ApiGetGitToken projectId) outcome :: rest').

(** The log at the moment [findProject] asks for the listing. *)
Definition listing_trace (spinner : bool) (w : World) : list Event :=
  trace w ++ (if spinner then [Printed (SpinnerText "Fetching projects...")] else []).

(* ================================================================== *)
(** ** The words of the specification *)
(* ================================================================== *)

Module Spec.

(** The text after the first occurrence of [sep], if there is one. *)
Fixpoint afterFirst (sep s : string) : option string :=
  if String.prefix sep s then Some (Js.drop (String.length sep) s)
  else
    match s with
    | EmptyString => None
    | String _ s' => afterFirst sep s'
    end.

(** "The path segment (the part after the host)" of a repository URL:
    what follows the first ["/"] after ["://"]. *)
Definition pathSegment (url : string) : option string :=
  match afterFirst "://" url with
  | Some rest => afterFirst "/" rest
  | None => None
  end.

(** [n] characters, all hexadecimal digits of either case. *)
Definition hexText (n : nat) (s : string) : Prop :=
  String.length s = n /\
  forall c, In c (list_ascii_of_string s) -> Js.isHexDigit c = true.

(** "The canonical identifier shape (8-4-4-4-12 hex,
    case-insensitive)". *)
Definition uuidShape (s : string) : Prop :=
  exists a b c d e : string,
    s = (a ++ "-" ++ b ++ "-" ++ c ++ "-" ++ d ++ "-" ++ e)%string /\
    hexText 8 a /\ hexText 4 b /\ hexText 4 c /\ hexText 4 d /\ hexText 12 e.

(** The safety buffer of the credential, in milliseconds. *)
Definition safetyBuffer : Z := 5 * 60 * 1000.

End Spec.

(* ================================================================== *)
(** ** Concrete environments *)
(* ================================================================== *)

Module Demo.

(** ASCII lower-casing, which is what [toLowerCase] does on the ASCII
    names used below. *)
Definition lowerAscii (c : ascii) : ascii :=
  let n := nat_of_ascii c in
  if ((65 <=? n) && (n <=? 90))%nat then ascii_of_nat (n + 32) else c.

Fixpoint lower (s : string) : string :=
  match s with
  | EmptyString => EmptyString
  | String c s' => String (lowerAscii c) (lower s')
  end.

Definition document : JsVal := JObj [("name", JStr "shop")].

(** The text [{ "name": "shop" }]. *)
Definition json_text : string :=
  "{ " ++ dquote ++ "name" ++ dquote ++ ": " ++ dquote ++ "shop" ++ dquote ++ " }".

Definition dirty : StatusResult := mkStatus false [] ["src/app.ts"] [].

Definition clean : StatusResult := mkStatus true [] [] [].

Definition issued : GitInfo :=
  mkGitInfo "ghs_demo" "https://github.com/build-ongoku/project-example"
    "https://ghs_demo@github.com/build-ongoku/project-example" (Some 1767225600000%Z)
    false None.

Definition example_project : Project :=
  mkProject "123e4567-e89b-12d3-a456-426614174000" "example" "initialized"
    (Some "https://github.com/build-ongoku/project-example").

(** What each collaborator answers when it succeeds. *)
Definition answer (projects : list Project) (status : StatusResult) (c : Call) : reply c :=
  match c as c0 return reply c0 with
  | KeytarGetPassword _ _ => Some "session"
  | FsExistsSync _ => true
  | FsReadFileSync _ => "name: shop"
  | FsReaddirSync _ => ["app.schema.yml"]
  | FsStatMtime _ => "1/1/2026, 12:00:00 AM"
  | InquirerConfirm _ => true
  | ApiGetProjects => projects
  | ApiGetGitToken _ => mkTokenResponse true (Some issued)
  | ApiPushProjectUpdates _ _ _ => mkPushResult None
  | GitGetRemotes _ =>
      [mkRemote "origin" (Some "https://github.com/build-ongoku/project-example")]
  | GitStatus => status
  | GitInit => tt
  | GitClone _ _ => tt
  | GitPull _ => tt
  | GitAdd _ => tt
  | GitRaw _ => tt
  | GitPush => tt
  | GitStash _ => tt
  | GitRemote _ => tt
  | GitAddConfig _ _ => tt
  end.

(** An environment in which the calls selected by [fails] throw and all
    others succeed with [answer]. *)
Definition scripted (fails : list Event -> Call -> option Exn) (projects : list Project)
    (status : StatusResult) (now : Z) (yaml json : string -> Result JsVal) : Env :=
  mkEnv
    (fun history c =>
       match fails history c with
       | Some e => Throw e
       | None => Ok (answer projects status c)
       end)
    (fun _ => now)
    yaml
    json
    lower
    "/home/dev/project-example"
    (fun d => d).

Definition never_fails (history : list Event) (c : Call) : option Exn := None.

Definition yaml_ok (content : string) : Result JsVal := Ok document.

Definition yaml_fails (content : string) : Result JsVal :=
  Throw (mkExn "YAMLException" "bad indentation of a mapping entry" None).

Definition json_ok (content : string) : Result JsVal := Ok document.

Definition json_fails (content : string) : Result JsVal :=
  Throw (mkExn "SyntaxError" "Unexpected token n in JSON at position 0" None).

Definition rejected : Exn :=
  mkExn "GitError" "! [rejected] main -> main (fetch first)" None.

Definition diverged : Exn :=
  mkExn "GitError" "fatal: Not possible to fast-forward, aborting." None.

Definition unreachable : Exn :=
  mkExn "Error" "Network Error: Could not connect to the Ongoku server" None.

(** Everything works; the working copy has changes. *)
Definition healthy : Env :=
  scripted never_fails [example_project] dirty 1767220000000%Z yaml_ok json_ok.

(** The working copy is clean. *)
Definition clean_tree : Env :=
  scripted never_fails [example_project] clean 1767220000000%Z yaml_ok json_ok.

(** Every push is rejected and the fast-forward-only pull fails. *)
Definition divergent_history : Env :=
  scripted
    (fun _ c =>
       if is_push c then Some rejected
       else if is_ff_pull c then Some diverged
       else None)
    [example_project] dirty 1767220000000%Z yaml_ok json_ok.

(** The first push is rejected; everything after it works. *)
Definition remote_moved : Env :=
  scripted
    (fun history c =>
       if is_push c && (count_calls is_push history =? 0)%nat then Some rejected else None)
    [example_project] dirty 1767220000000%Z yaml_ok json_ok.

(** The schema file is JSON that the YAML decoder refuses. *)
Definition json_schema : Env :=
  scripted never_fails [example_project] dirty 1767220000000%Z yaml_fails json_ok.

(** The schema upload fails. *)
Definition schema_upload_down : Env :=
  scripted
    (fun _ c => match c with ApiPushProjectUpdates _ _ _ => Some unreachable | _ => None end)
    [example_project] dirty 1767220000000%Z yaml_ok json_ok.

(** A project on another host, listed under a name that differs from
    the directory name. *)
Definition other_host_project : Project :=
  mkProject "9b2f6c1e-0d4a-4f7b-8a53-5e1c2d3f4a6b" "Project X" "initialized"
    (Some "https://git.example.com/org/proj-x").


(** A project whose name is the text of another project's id, listed
    before that project. *)
Definition name_is_an_id : Project :=
  mkProject "00000000-0000-4000-8000-000000000001" "123e4567-e89b-12d3-a456-426614174000"
    "initialized" None.

Definition ambiguous_listing : Env :=
  scripted never_fails [name_is_an_id; example_project] dirty 1767220000000%Z yaml_ok json_ok.

Definition push_defaults : PushOptions :=
  mkPushOptions "Update from Ongoku CLI" None false false.

Definition pull_defaults : PullOptions := mkPullOptions None false.

Definition push_schema_only : PushOptions :=
  mkPushOptions "Update from Ongoku CLI" None true false.

(** A world whose client holds a token that expires at [expiry]. *)
Definition holding (expiry : Z) : World := mkWorld [] (Some expiry) false.

End Demo.

(* ================================================================== *)
(** ** Reasoning about runs *)
(* ================================================================== *)

(** [wp m w Q]: running [m] from [w] ends in a result and a world that
    satisfy [Q]. *)
Definition wp {A} (m : M A) (w : World) (Q : Result A -> World -> Prop) : Prop :=
  Q (fst (m w)) (snd (m w)).

(** [m] only ever appends to the log. *)
Definition appends {A} (m : M A) : Prop :=
  forall w, exists l, trace (snd (m w)) = trace w ++ l.

(** The world after printing one line per element. *)
Definition logged_lines {A} (line : A -> string) (xs : list A) (w : World) : World :=
  fold_left (fun w' x => log_event (Printed (ConsoleLog (line x))) w') xs w.

(* ================================================================== *)
(** ** More ways of reading the log *)
(* ================================================================== *)

Definition is_stash_pop (c : Call) : bool :=
  match c with
  | GitStash [o] => String.eqb o "pop"
  | _ => false
  end.

Definition is_add (c : Call) : bool :=
  match c with GitAdd _ => true | _ => false end.

Definition is_init (c : Call) : bool :=
  match c with GitInit => true | _ => false end.

(** A call to the git driver. *)
Definition is_git_call (c : Call) : bool :=
  match c with
  | GitGetRemotes _ | GitStatus | GitInit | GitClone _ _ | GitPull _ | GitAdd _
  | GitRaw _ | GitPush | GitStash _ | GitRemote _ | GitAddConfig _ _ => true
  | _ => false
  end.

(** A git call that changes the working copy, its history, its
    configuration or the remote. *)
Definition is_git_write (c : Call) : bool :=
  match c with
  | GitInit | GitClone _ _ | GitPull _ | GitAdd _
  | GitRaw _ | GitPush | GitStash _ | GitRemote _ | GitAddConfig _ _ => true
  | _ => false
  end.

(** A call to the HTTP API. *)
Definition is_api_call (c : Call) : bool :=
  match c with
  | ApiGetProjects | ApiGetGitToken _ | ApiPushProjectUpdates _ _ _ => true
  | _ => false
  end.

Definition is_schema_read (c : Call) : bool :=
  match c with FsReadFileSync _ => true | _ => false end.

Definition is_schema_upload (c : Call) : bool :=
  match c with ApiPushProjectUpdates _ _ _ => true | _ => false end.

Definition is_prompt (c : Call) : bool :=
  match c with InquirerConfirm _ => true | _ => false end.

Definition is_keychain_read (c : Call) : bool :=
  match c with KeytarGetPassword _ _ => true | _ => false end.

(** The argument lists of the raw git commands of a log, in order. *)
Fixpoint raw_commands (events : list Event) : list (list string) :=
  match events with
  | [] => []
  | Called (GitRaw args) _ :: rest => args :: raw_commands rest
  | _ :: rest => raw_commands rest
  end.

(** The calls of a log, in order, without their outcomes. *)
Fixpoint calls_of (events : list Event) : list Call :=
  match events with
  | [] => []
  | Called c _ :: rest => c :: calls_of rest
  | Printed _ :: rest => calls_of rest
  end.

(** [git commit -m message --no-gpg-sign]. *)
Definition commit_command (message : string) : list string :=
  ["commit"; "-m"; message; "--no-gpg-sign"].

(** The two configuration calls of [configureWithToken]. *)
Definition set_url_call (token repoUrl : string) : Call :=
  GitRemote ["set-url"; "origin"; Js.replace "https://" ("https://" ++ token ++ "@") repoUrl].

Definition credential_helper_call : Call :=
  GitAddConfig "credential.helper" "cache --timeout=3600".

(** The expiry [configureWithToken] records, [now] being the clock
    reading at that moment. *)
Definition recorded_expiry (expiresAt : option Z) (now : Z) : option Z :=
  if truthy_number expiresAt then expiresAt else Some (now + 3600 * 1000)%Z.

(* ================================================================== *)
(** ** Calls a run never makes *)
(* ================================================================== *)

(** What is known of the client's [tokenExpiry] field: nothing, or that
    it is unset. *)
Inductive Held : Type :=
| AnyExpiry
| NoExpiry.

Definition holds (i : Held) (w : World) : Prop :=
  match i with
  | AnyExpiry => True
  | NoExpiry => tokenExpiry w = None
  end.

(** [i] tells at least as much as [j]. *)
Definition weaker (i j : Held) : Prop := forall w, holds i w -> holds j w.

(** Started in a world where [i] holds, [m] ends in one where [j] holds
    and has only appended to the log, with no call that [p] accepts. *)
Definition avoiding (p : Call -> bool) (i j : Held) {A} (m : M A) : Prop :=
  forall w,
    holds i w ->
    holds j (snd (m w)) /\
    exists l, trace (snd (m w)) = trace w ++ l /\ count_calls p l = 0%nat.

(** Every token the service issues has the declared shape. *)
Definition issues_declared_shape (env : Env) : Prop :=
  forall history projectId response info,
    oracle env history (ApiGetGitToken projectId) = Ok response ->
    git_info response = Some info ->
    declared_shape info.

(** A call on the repository itself: any git call but the listing of the
    remotes. *)
Definition is_repository_call (c : Call) : bool :=
  match c with
  | GitGetRemotes _ => false
  | _ => is_git_call c
  end.

(** The schema file is read or transmitted. *)
Definition is_schema_transfer (c : Call) : bool := is_schema_read c || is_schema_upload c.

(** A step of the code synchronisation: a call on the repository, or
    the request for a token. *)
Definition is_code_step (c : Call) : bool := is_repository_call c || is_token_request c.

(** The lines [findProject] prints for the listed projects. *)
Definition candidate_lines (projects : list Project) : list Event :=
  map (fun p => Printed (ConsoleLog (describeProject p))) projects.

(** The world in which the function handed to [withErrorHandling]
    starts. *)
Definition spinner_started (text : string) (w : World) : World :=
  set_isSpinning true (log_event (Printed (SpinnerStart text)) w).

(** The name [getProjectIdentifiers] derives from a folder name. *)
Definition derived_name (folder : string) : string :=
  if Js.startsWith "project-" folder then Js.drop 8 folder else folder.

(** A schema upload whose [skipGitCommit] flag is [flag]. *)
Definition is_upload_with (flag : bool) (c : Call) : bool :=
  match c with
  | ApiPushProjectUpdates _ _ skipGitCommit => Bool.eqb skipGitCommit flag
  | _ => false
  end.

(* ================================================================== *)
(** ** api.ts: [ApiClient.request] *)
(* ================================================================== *)

Module Api.

(** [o[key]] on a plain object held as its entries in insertion order. *)
Fixpoint obj_get {V} (key : string) (o : list (string * V)) : option V :=
  match o with
  | [] => None
  | (k, v) :: rest => if String.eqb k key then Some v else obj_get key rest
  end.

(** [o[key] = value]: an existing key keeps its place, a new one is
    added at the end. *)
Fixpoint obj_set {V} (key : string) (value : V) (o : list (string * V)) : list (string * V) :=
  match o with
  | [] => [(key, value)]
  | (k, v) :: rest =>
      if String.eqb k key then (k, value) :: rest else (k, v) :: obj_set key value rest
  end.

(** [{ ...o, ...extra }]. *)
Definition obj_spread {V} (o extra : list (string * V)) : list (string * V) :=
  fold_left (fun acc entry => obj_set (fst entry) (snd entry) acc) extra o.

(** Truthiness of a value. *)
Definition truthy (v : JsVal) : bool :=
  match v with
  | JUndefined | JNull => false
  | JBool b => b
  | JNum n => negb (Z.eqb n 0)
  | JStr s => negb (String.eqb s EmptyString)
  | JArr _ | JObj _ => true
  end.

(** [data.error]: reading a property of [undefined] or [null] throws a
    [TypeError]; a value without the property gives [undefined]. *)
Definition error_property (data : JsVal) : Result JsVal :=
  match data with
  | JUndefined =>
      Throw (TypeError "Cannot read properties of undefined (reading 'error')")
  | JNull =>
      Throw (TypeError "Cannot read properties of null (reading 'error')")
  | JObj fields =>
      match obj_get "error" fields with
      | Some v => Ok v
      | None => Ok JUndefined
      end
  | _ => Ok JUndefined
  end.

Inductive Method : Type := GET | POST | PUT | DELETE.

Record AxiosRequestConfig := mkAxiosRequestConfig {
  config_method : Method;
  config_url : string;
  config_headers : list (string * string);
  config_data : option JsVal
}.

(** What a failed transport call throws: the [response] (status and
    body) when the server answered, whether a [request] was made, and
    the name and message of the error. *)
Record AxiosError := mkAxiosError {
  error_response : option (Z * JsVal);
  error_request : bool;
  error_name : string;
  error_message : string
}.

(** An error with neither [response] nor [request], as the rest of the
    program sees it when it is thrown on. *)
Definition rethrown (error : AxiosError) : Exn :=
  mkExn (error_name error) (error_message error) None.

Section ApiClient.

Variable env : Env.

(** [config.get('apiUrl')], read by the constructor. *)
Variable baseUrl : string.

(** The transport: what [axios(config)] resolves to or throws after the
    given history. *)
Variable axios : list Event -> AxiosRequestConfig -> AxiosError + JsVal.

(** Template-literal conversion of a value to text. *)
Variable toText : JsVal -> string.

Definition request_headers (token : option string) (additionalHeaders : list (string * string))
  : list (string * string) :=
  let headers := obj_spread [("Content-Type", "application/json")] additionalHeaders in
  match token with
  | Some t => if truthy_string token then obj_set "Authorization" ("Bearer " ++ t)%string headers
              else headers
  | None => headers
  end.

Definition request_config (token : option string) (endpoint : string) (method : Method)
    (data : JsVal) (additionalHeaders : list (string * string)) : AxiosRequestConfig :=
  mkAxiosRequestConfig method (baseUrl ++ endpoint)%string
    (request_headers token additionalHeaders)
    (if truthy data then Some data else None).

(** The [catch] block, for an error thrown by the transport. *)
Definition formatError (error : AxiosError) : Exn :=
  match error_response error with
  | Some (status, data) =>
      if Z.eqb status 401
      then Error "Authentication failed. Please run `ongoku login` to re-authenticate."
      else
        match error_property data with
        | Throw typeError => typeError
        | Ok message =>
            if truthy message
            then Error ("API Error (" ++ toText (JNum status) ++ "): " ++ toText message)
            else Error ("API Error: " ++ toText (JNum status) ++ " " ++ toText data)
        end
  | None =>
      if error_request error
      then Error ("Network Error: Could not connect to the Ongoku server at " ++ baseUrl)
      else rethrown error
  end.

(** [request(endpoint, method, data, additionalHeaders)].  The error of
    the missing token is a plain [Error], with neither [response] nor
    [request]: the [catch] block throws it on as it is.  [auth.getToken]
    catches whatever the keychain throws. *)
Definition request (endpoint : string) (method : Method) (data : JsVal)
    (additionalHeaders : list (string * string)) : M JsVal :=
  token <- auth_getToken env ;;
  if negb (truthy_string token) && negb (Js.startsWith "/auth" endpoint)
  then throw (Error "Authentication required. Please run `ongoku login` first.")
  else
    fun w =>
      match axios (trace w) (request_config token endpoint method data additionalHeaders) with
      | inr responseData => (Ok responseData, w)
      | inl error => (Throw (formatError error), w)
      end.

End ApiClient.

End Api.

(* ================================================================== *)
(** ** More environments to run the definitions in *)
(* ================================================================== *)

Module Scenario.

Definition locked : Exn := mkExn "Error" "The keychain is locked" None.

(** The keychain cannot be read. *)
Definition keychain_locked : Env :=
  Demo.scripted (fun _ c => if is_keychain_read c then Some locked else None)
    [Demo.example_project] Demo.dirty 1767220000000%Z Demo.yaml_ok Demo.json_ok.

Definition denied : Exn := mkExn "Error" "EACCES: permission denied" None.

(** The file system refuses every probe. *)
Definition unreadable_directory : Env :=
  Demo.scripted (fun _ c => match c with FsExistsSync _ => Some denied | _ => None end)
    [Demo.example_project] Demo.dirty 1767220000000%Z Demo.yaml_ok Demo.json_ok.

(** A directory without [ongoku.yaml]: every probe of the file system
    answers [false]. *)
Definition empty_directory : Env :=
  mkEnv
    (fun history c =>
       match c as c0 return Result (reply c0) with
       | FsExistsSync _ => Ok false
       | c' => Ok (Demo.answer [Demo.example_project] Demo.dirty c')
       end)
    (fun _ => 1767220000000%Z)
    Demo.yaml_ok
    Demo.json_ok
    Demo.lower
    "/home/dev/elsewhere"
    (fun d => d).

(** A token whose [git_info] object carries a [git_info] property of
    its own, with the three properties the commands destructure. *)
Definition nested : GitInfo :=
  mkGitInfo "ghs_demo" "https://github.com/build-ongoku/project-example"
    "https://ghs_demo@github.com/build-ongoku/project-example" (Some 1767225600000%Z)
    false
    (Some (mkNestedGitInfo "ghs_demo" "https://github.com/build-ongoku/project-example"
             (Some 1767225600000%Z))).

(** Everything works, and the service issues [nested]. *)
Definition nested_reply : Env :=
  mkEnv
    (fun history c =>
       match c as c0 return Result (reply c0) with
       | ApiGetGitToken _ => Ok (mkTokenResponse true (Some nested))
       | c' => Ok (Demo.answer [Demo.example_project] Demo.dirty c')
       end)
    (fun _ => 1767220000000%Z)
    Demo.yaml_ok
    Demo.json_ok
    Demo.lower
    "/home/dev/project-example"
    (fun d => d).

Definition push_code_only : PushOptions :=
  mkPushOptions "Update from Ongoku CLI" None false true.

Definition pull_forced : PullOptions := mkPullOptions None true.

(** The server answers every request with status 500 and a body that
    names the error. *)
Definition server_error : Api.AxiosError :=
  Api.mkAxiosError (Some (500%Z, JObj [("error", JStr "database unavailable")])) true
    "AxiosError" "Request failed with status code 500".

Definition failing_transport (history : list Event) (config : Api.AxiosRequestConfig)
  : Api.AxiosError + JsVal := inl server_error.

(** Template-literal conversion on the values used here. *)
Definition toText (v : JsVal) : string :=
  match v with
  | JStr s => s
  | JNum _ => "500"
  | JUndefined => "undefined"
  | JNull => "null"
  | JBool true => "true"
  | JBool false => "false"
  | JArr _ => EmptyString
  | JObj _ => "[object Object]"
  end.

End Scenario.

(* ================================================================== *)
(** ** Rules for [wp] *)
(* ================================================================== *)

Section Rules.

Variable env : Env.

Lemma wp_ret {A} (a : A) w Q : Q (Ok a) w -> wp (ret a) w Q.
Proof. exact (fun H => H). Qed.

Lemma wp_throw {A} e w (Q : Result A -> World -> Prop) : Q (Throw e) w -> wp (throw e) w Q.
Proof. exact (fun H => H). Qed.

Lemma wp_lift {A} (r : Result A) w Q : Q r w -> wp (lift r) w Q.
Proof. exact (fun H => H). Qed.

Lemma wp_print o w Q : Q (Ok tt) (log_event (Printed o) w) -> wp (print o) w Q.
Proof. exact (fun H => H). Qed.

Lemma wp_bind {A B} (m : M A) (k : A -> M B) w Q :
  wp m w (fun r w' => match r with Ok a => wp (k a) w' Q | Throw e => Q (Throw e) w' end) ->
  wp (bind m k) w Q.
Proof.
  unfold wp, bind. destruct (m w) as [[a|e] w']; simpl; auto.
Qed.

Lemma wp_try_catch {A} (m : M A) (h : Exn -> M A) w Q :
  wp m w (fun r w' => match r with Ok a => Q (Ok a) w' | Throw e => wp (h e) w' Q end) ->
  wp (try_catch m h) w Q.
Proof.
  unfold wp, try_catch. destruct (m w) as [[a|e] w']; simpl; auto.
Qed.

Lemma wp_try_finally {A} (m : M A) (f : M unit) w Q :
  wp m w (fun r w' =>
            wp f w' (fun r' w'' => match r' with Ok _ => Q r w'' | Throw e => Q (Throw e) w'' end)) ->
  wp (try_finally m f) w Q.
Proof.
  unfold wp, try_finally. destruct (m w) as [r w']; simpl.
  destruct (f w') as [[u|e] w'']; simpl; auto.
Qed.

Lemma wp_perform c w (Q : Result (reply c) -> World -> Prop) :
  (forall a, oracle env (trace w) c = Ok a -> Q (Ok a) (log_event (Called c None) w)) ->
  (forall e, oracle env (trace w) c = Throw e -> Q (Throw e) (log_event (Called c (Some e)) w)) ->
  wp (perform env c) w Q.
Proof.
  unfold wp, perform. simpl. destruct (oracle env (trace w) c) as [a|e]; simpl; auto.
Qed.

Lemma wp_Date_now w Q : Q (Ok (clock env (trace w))) w -> wp (Date_now env) w Q.
Proof. exact (fun H => H). Qed.

Lemma wp_get_tokenExpiry w Q : Q (Ok (tokenExpiry w)) w -> wp get_tokenExpiry w Q.
Proof. exact (fun H => H). Qed.

Lemma wp_put_tokenExpiry t w Q : Q (Ok tt) (set_tokenExpiry t w) -> wp (put_tokenExpiry t) w Q.
Proof. exact (fun H => H). Qed.

Lemma wp_spinner_start text w Q :
  Q (Ok tt) (set_isSpinning true (log_event (Printed (SpinnerStart text)) w)) ->
  wp (spinner_start text) w Q.
Proof. exact (fun H => H). Qed.

Lemma wp_spinner_succeed text w Q :
  Q (Ok tt) (set_isSpinning false (log_event (Printed (SpinnerSucceed text)) w)) ->
  wp (spinner_succeed text) w Q.
Proof. exact (fun H => H). Qed.

Lemma wp_spinner_fail text w Q :
  Q (Ok tt) (set_isSpinning false (log_event (Printed (SpinnerFail text)) w)) ->
  wp (spinner_fail text) w Q.
Proof. exact (fun H => H). Qed.

Lemma wp_spinner_info text w Q :
  Q (Ok tt) (set_isSpinning false (log_event (Printed (SpinnerInfo text)) w)) ->
  wp (spinner_info text) w Q.
Proof. exact (fun H => H). Qed.

(** Reading a run off a [wp] fact and back. *)
Lemma wp_run {A} (m : M A) w Q : wp m w Q -> forall r w', m w = (r, w') -> Q r w'.
Proof. unfold wp. intros H r w' E. rewrite E in H. exact H. Qed.

Lemma run_pair {A} (m : M A) w : m w = (fst (m w), snd (m w)).
Proof. destruct (m w); reflexivity. Qed.

End Rules.

(** Name the postcondition before it is copied into two branches. *)
Ltac name_post :=
  lazymatch goal with
  | |- wp _ _ ?Q => tryif is_var Q then idtac else (let q := fresh "Q" in set (q := Q))
  end.

(** The computation is over: look at the postcondition. *)
Ltac enter_post :=
  lazymatch goal with
  | |- ?Q _ _ => is_var Q; unfold Q; cbn beta iota; try clear Q
  end.

(** The function at the head of an application. *)
Ltac head_of t :=
  lazymatch t with
  | ?f _ => head_of f
  | _ => t
  end.

Ltac wp_rule env :=
  lazymatch goal with
  | |- wp (bind _ _) _ _ => name_post; apply wp_bind
  | |- wp (try_catch _ _) _ _ => name_post; apply wp_try_catch
  | |- wp (try_finally _ _) _ _ => name_post; apply wp_try_finally
  | |- wp (ret _) _ _ => apply wp_ret
  | |- wp (throw _) _ _ => apply wp_throw
  | |- wp (lift _) _ _ => apply wp_lift
  | |- wp (print _) _ _ => apply wp_print
  | |- wp (console_log _) _ _ => apply wp_print
  | |- wp (console_error _) _ _ => apply wp_print
  | |- wp (spinner_text _) _ _ => apply wp_print
  | |- wp (spinner_start _) _ _ => apply wp_spinner_start
  | |- wp (spinner_succeed _) _ _ => apply wp_spinner_succeed
  | |- wp (spinner_fail _) _ _ => apply wp_spinner_fail
  | |- wp (spinner_info _) _ _ => apply wp_spinner_info
  | |- wp get_tokenExpiry _ _ => apply wp_get_tokenExpiry
  | |- wp (put_tokenExpiry _) _ _ => apply wp_put_tokenExpiry
  | |- wp (Date_now _) _ _ => apply wp_Date_now
  | |- wp (perform _ ?c) ?w ?Q =>
      apply (wp_perform env c w Q); [intros ? ? | intros ? ?]
  | |- wp (if ?b then _ else _) _ _ =>
      let v := eval hnf in b in
      lazymatch v with
      | true => change b with true
      | false => change b with false
      | _ => destruct b eqn:?
      end
  | |- wp (match ?x with Some _ => _ | None => _ end) _ _ =>
      let v := eval hnf in x in
      lazymatch v with
      | Some _ => change x with v
      | None => change x with v
      | _ => destruct x eqn:?
      end
  | |- wp (match ?x with Continue => _ | Return _ => _ end) _ _ => destruct x eqn:?
  | |- wp (let (_, _) := ?x in _) _ _ => destruct x eqn:?
  end.

(** Any other function of the program runs by its definition. *)
Ltac wp_unfold :=
  lazymatch goal with
  | |- wp ?m _ _ => let h := head_of m in unfold h
  end.

(** A result that is not yet known: take both cases. *)
Ltac split_result :=
  lazymatch goal with
  | |- match ?r with Ok _ => _ | Throw _ => _ end =>
      let E := fresh "E" in destruct r eqn:E
  end.

Ltac wp_step env :=
  first [ wp_rule env | enter_post | split_result | wp_unfold ]; cbn beta iota.

(** Bring [trace w'] into the form [trace w ++ [e1; ...; en]]. *)
Ltac norm_trace :=
  cbn [trace tokenExpiry isSpinning log_event set_tokenExpiry set_isSpinning];
  repeat rewrite <- app_assoc;
  cbn [app].

Ltac norm_trace_in H :=
  cbn [trace tokenExpiry isSpinning log_event set_tokenExpiry set_isSpinning] in H;
  repeat rewrite <- app_assoc in H;
  cbn [app] in H.

(* ================================================================== *)
(** ** The log only grows *)
(* ================================================================== *)

Section Appends.

Variable env : Env.

Lemma appends_ret {A} (a : A) : appends (ret a).
Proof. intros w. exists []. cbn. rewrite app_nil_r. reflexivity. Qed.

Lemma appends_throw {A} e : appends (@throw A e).
Proof. intros w. exists []. cbn. rewrite app_nil_r. reflexivity. Qed.

Lemma appends_lift {A} (r : Result A) : appends (lift r).
Proof. intros w. exists []. cbn. rewrite app_nil_r. reflexivity. Qed.

Lemma appends_print o : appends (print o).
Proof. intros w. exists [Printed o]. reflexivity. Qed.

Lemma appends_perform c : appends (perform env c).
Proof. intros w. eexists. reflexivity. Qed.

Lemma appends_Date_now : appends (Date_now env).
Proof. intros w. exists []. cbn. rewrite app_nil_r. reflexivity. Qed.

Lemma appends_get_tokenExpiry : appends get_tokenExpiry.
Proof. intros w. exists []. cbn. rewrite app_nil_r. reflexivity. Qed.

Lemma appends_put_tokenExpiry t : appends (put_tokenExpiry t).
Proof. intros w. exists []. cbn. rewrite app_nil_r. reflexivity. Qed.

Lemma appends_spinner_succeed text : appends (spinner_succeed text).
Proof. intros w. eexists. reflexivity. Qed.

Lemma appends_spinner_fail text : appends (spinner_fail text).
Proof. intros w. eexists. reflexivity. Qed.

Lemma appends_spinner_info text : appends (spinner_info text).
Proof. intros w. eexists. reflexivity. Qed.

Lemma appends_bind {A B} (m : M A) (k : A -> M B) :
  appends m -> (forall a, appends (k a)) -> appends (bind m k).
Proof.
  intros Hm Hk w. unfold bind. destruct (Hm w) as (l & Hl).
  destruct (m w) as [[a|e] w']; cbn [snd] in *.
  - destruct (Hk a w') as (l' & Hl'). exists (l ++ l'). rewrite Hl', Hl. symmetry; apply app_assoc.
  - exists l. exact Hl.
Qed.

Lemma appends_try_catch {A} (m : M A) (h : Exn -> M A) :
  appends m -> (forall e, appends (h e)) -> appends (try_catch m h).
Proof.
  intros Hm Hh w. unfold try_catch. destruct (Hm w) as (l & Hl).
  destruct (m w) as [[a|e] w']; cbn [snd] in *.
  - exists l. exact Hl.
  - destruct (Hh e w') as (l' & Hl'). exists (l ++ l'). rewrite Hl', Hl. symmetry; apply app_assoc.
Qed.

End Appends.

(** Split a membership [H] in an explicit log into its cases, keeping
    the entries that can be the member. *)
Ltac split_in H :=
  cbn [In] in H;
  repeat (let E := fresh "E" in
          destruct H as [E|H];
          [ first [ discriminate E | injection E; clear E; intros; subst ] | ]);
  try contradiction.

(** Put every recorded answer of the environment over a log of the form
    [trace w ++ [e1; ...; en]]. *)
Ltac norm_answers :=
  repeat match goal with
         | H : oracle _ _ _ = _ |- _ => progress norm_trace_in H
         end.

(** Two recorded answers to the same call over the same log agree. *)
Ltac agree :=
  norm_answers; cbn [app] in *;
  repeat match goal with
         | H1 : oracle ?env ?t ?c = _, H2 : oracle ?env ?t ?c = _ |- _ =>
             rewrite H1 in H2;
             first [ discriminate H2 | injection H2; clear H2; intros; subst ]
         | H1 : yaml_load ?env ?s = _, H2 : yaml_load ?env ?s = _ |- _ =>
             rewrite H1 in H2;
             first [ discriminate H2 | injection H2; clear H2; intros; subst ]
         | H1 : JSON_parse ?env ?s = _, H2 : JSON_parse ?env ?s = _ |- _ =>
             rewrite H1 in H2;
             first [ discriminate H2 | injection H2; clear H2; intros; subst ]
         end;
  cbn [negb] in *;
  try discriminate; try congruence.

(** The events a run appended, given its final log. *)
Ltac appended H :=
  norm_trace_in H; apply app_inv_head in H; subst.


(* ================================================================== *)
(** ** The string built-ins on examples, and what they compute *)
(* ================================================================== *)

Example split_github_url :
  Js.split "github.com/" "https://github.com/build-ongoku/project-example"
  = ["https://"; "build-ongoku/project-example"].
Proof. reflexivity. Qed.

Example split_other_host_url :
  Js.split "github.com/" "https://git.example.com/org/proj-x"
  = ["https://git.example.com/org/proj-x"].
Proof. reflexivity. Qed.

Example split_path : Js.split "/" "a/b//c" = ["a"; "b"; ""; "c"].
Proof. reflexivity. Qed.

Example id_pattern_accepts_mixed_case :
  Js.matchesIdPattern "123E4567-e89b-12d3-a456-426614174000" = true.
Proof. reflexivity. Qed.

Example id_pattern_rejects_name : Js.matchesIdPattern "proj-x" = false.
Proof. reflexivity. Qed.

Example id_pattern_rejects_longer :
  Js.matchesIdPattern "123e4567-e89b-12d3-a456-426614174000x" = false.
Proof. reflexivity. Qed.

Example basename_of_directory : Js.basename "/home/dev/project-shop" = "project-shop".
Proof. reflexivity. Qed.

Example replace_scheme :
  Js.replace "https://" "https://tok@" "https://github.com/o/r" = "https://tok@github.com/o/r".
Proof. reflexivity. Qed.

Example path_segment_of_url :
  Spec.pathSegment "https://git.example.com/org/proj-x" = Some "org/proj-x".
Proof. reflexivity. Qed.

Lemma prefix_app p s : String.prefix p s = true <-> exists r, s = (p ++ r)%string.
Proof.
  revert s. induction p as [|c p IH]; intros s.
  - split; [intros _; exists s; reflexivity|intros _; destruct s; reflexivity].
  - destruct s as [|d s]; cbn.
    + split; [discriminate|intros (r & Hr); discriminate Hr].
    + destruct (Ascii.ascii_dec c d) as [->|Hne].
      * rewrite IH. split; intros (r & Hr); exists r; [rewrite Hr; reflexivity|].
        injection Hr as Hr. exact Hr.
      * split; [discriminate|]. intros (r & Hr). injection Hr as Hc _. congruence.
Qed.

(** [includes sub s] holds exactly when [sub] occurs in [s]. *)
Lemma includes_occurs sub s :
  Js.includes sub s = true <-> exists a b, s = (a ++ sub ++ b)%string.
Proof.
  induction s as [|c s IH]; cbn [Js.includes].
  - rewrite orb_false_r, prefix_app. split.
    + intros (r & Hr). exists EmptyString, r. exact Hr.
    + intros (a & b & Hab). destruct a; [exists b; exact Hab|discriminate Hab].
  - rewrite orb_true_iff, prefix_app, IH. split.
    + intros [(r & Hr)|(a & b & Hab)].
      * exists EmptyString, r. exact Hr.
      * exists (String c a), b. cbn. rewrite Hab. reflexivity.
    + intros (a & b & Hab). destruct a as [|d a].
      * left. exists b. exact Hab.
      * right. injection Hab as _ Hs. exists a, b. exact Hs.
Qed.

Lemma append_assoc_one (cur : string) c s :
  ((cur ++ String c EmptyString) ++ s)%string = (cur ++ String c s)%string.
Proof. induction cur as [|d cur IH]; cbn; congruence. Qed.

Lemma split_go_without_separator sep cur s :
  Js.includes sep s = false -> Js.split_go sep 0 cur s = [(cur ++ s)%string].
Proof.
  revert cur. induction s as [|c s IH]; intros cur Hno; cbn [Js.split_go].
  - f_equal. clear. induction cur as [|d cur IH]; cbn; congruence.
  - cbn [Js.includes] in Hno. apply orb_false_iff in Hno. destruct Hno as [Hprefix Hrest].
    rewrite Hprefix, (IH _ Hrest), append_assoc_one. reflexivity.
Qed.

(** A text in which the separator does not occur splits into itself. *)
Lemma split_without_separator sep s :
  Js.includes sep s = false -> Js.split sep s = [s].
Proof. intros Hno. unfold Js.split. rewrite (split_go_without_separator _ _ _ Hno). reflexivity. Qed.

(** A repository URL without ["github.com/"] has no second piece: the
    URL test of step 2 then looks for the text [undefined] and never for
    the path of the repository. *)
Lemma matchesRemote_without_github url p repo :
  project_github_repo_url p = Some repo ->
  repo <> EmptyString ->
  Js.includes "github.com/" repo = false ->
  matchesRemote url p = Js.includes "undefined" url.
Proof.
  intros Hrepo Hne Hno. unfold matchesRemote. rewrite Hrepo.
  destruct repo as [|c repo]; [contradiction Hne; reflexivity|].
  cbn [truthy_string String.eqb negb].
  rewrite (split_without_separator _ _ Hno). reflexivity.
Qed.


(* ================================================================== *)
(** ** The credential validity check *)
(* ================================================================== *)

(** C4. [isTokenValid] answers [true] exactly when an expiry is held and
    the current instant is strictly before it minus five minutes; it is
    [false] from [expiresAt - 5min] on and [true] one millisecond
    earlier; it returns normally and leaves the world as it was.  The
    instant read from the clock is a time since the epoch, hence not
    negative. *)
Theorem C4_isTokenValid_five_minute_buffer env w :
  (0 <= clock env (trace w))%Z ->
  exists b,
    isTokenValid env w = (Ok b, w) /\
    (b = true <->
     exists expiresAt,
       tokenExpiry w = Some expiresAt /\
       (clock env (trace w) < expiresAt - Spec.safetyBuffer)%Z) /\
    (forall expiresAt,
       tokenExpiry w = Some expiresAt ->
       (clock env (trace w) >= expiresAt - Spec.safetyBuffer)%Z -> b = false) /\
    (forall expiresAt,
       tokenExpiry w = Some expiresAt ->
       clock env (trace w) = (expiresAt - Spec.safetyBuffer - 1)%Z -> b = true).
Proof.
  intros Hnow.
  unfold isTokenValid, bind, get_tokenExpiry, Date_now, ret, Spec.safetyBuffer, bufferMs.
  destruct (tokenExpiry w) as [e|] eqn:He; cbn [truthy_number negb].
  - destruct (Z.eqb_spec e 0) as [->|Hne]; cbn [negb].
    + exists false. repeat split; try discriminate; try reflexivity.
      * intros (e' & He' & Hlt). inversion He'; subst. lia.
      * intros e' He' Hat. inversion He'; subst. lia.
    + exists (clock env (trace w) <? e - 5 * 60 * 1000)%Z.
      split; [reflexivity|]. rewrite Z.ltb_lt. repeat split.
      * intros H. exists e. split; [reflexivity|lia].
      * intros (e' & He' & Hlt). inversion He'; subst. lia.
      * intros e' He' Hge. inversion He'; subst. apply Z.ltb_ge. lia.
      * intros e' He' Hat. inversion He'; subst. lia.
  - exists false. repeat split; try discriminate; try reflexivity.
    intros (e' & He' & _). discriminate.
Qed.

(* ================================================================== *)
(** ** The commit-and-push protocol *)
(* ================================================================== *)

Lemma count_calls_app p l1 l2 :
  count_calls p (l1 ++ l2) = (count_calls p l1 + count_calls p l2)%nat.
Proof.
  induction l1 as [|[c t|o] l1 IH]; simpl; auto. rewrite IH. lia.
Qed.

(** C2. Every call of [commitAndPush] returns; its conflict recovery
    (stash, fast-forward-only pull, pop, commit again, push again) runs
    at most once, so at most two pushes are attempted, one stash and one
    fast-forward-only pull, and no more than sixteen entries are added
    to the log. *)
Theorem C2_recovery_runs_at_most_once env dir message w :
  exists b w' l,
    commitAndPush env dir message w = (Ok b, w') /\
    trace w' = trace w ++ l /\
    (count_calls is_push l <= 2)%nat /\
    (count_calls is_stash_save l <= 1)%nat /\
    (count_calls is_ff_pull l <= 1)%nat /\
    (List.length l <= 16)%nat.
Proof.
  assert (H : wp (commitAndPush env dir message) w
                (fun r w' =>
                   exists b l,
                     r = Ok b /\ trace w' = trace w ++ l /\
                     (count_calls is_push l <= 2)%nat /\
                     (count_calls is_stash_save l <= 1)%nat /\
                     (count_calls is_ff_pull l <= 1)%nat /\
                     (List.length l <= 16)%nat)).
  { repeat wp_step env;
      (eexists; eexists; split; [reflexivity|]; split; [norm_trace; reflexivity|]);
      cbn; repeat split; lia. }
  unfold wp in H. destruct H as (b & l & Hr & Hl & Hc).
  exists b, (snd (commitAndPush env dir message w)), l.
  split; [|split; assumption].
  rewrite (run_pair (commitAndPush env dir message) w) at 1. rewrite Hr. reflexivity.
Qed.

(** Whatever goes wrong during the recovery, the only error that leaves
    the [catch (pushError)] block is the push error it was entered
    with. *)
Lemma onPushError_throws_only_the_push_error env pushError w :
  fst (onPushError env pushError w) = Ok tt \/
  fst (onPushError env pushError w) = Throw pushError.
Proof.
  change (wp (onPushError env pushError) w
            (fun r _ => r = Ok tt \/ r = Throw pushError)).
  repeat wp_step env;
    first [ right; reflexivity
          | left; match goal with |- Ok ?a = Ok tt => destruct a; reflexivity end ].
Qed.

(** C1. In every call of [commitAndPush] whose log shows the first push
    rejected with [pushError] and the fast-forward-only pull of the
    recovery failing with [pullError], the stash pop is attempted next,
    whatever its outcome, the call returns [false], and the error it
    reports is [pushError]: the log of the call is exactly the one
    given, and no report carries another error. *)
Theorem C1_pull_failure_restores_and_reports_push_error
    env dir message w r w' l pushError pullError :
  commitAndPush env dir message w = (r, w') ->
  trace w' = trace w ++ l ->
  In (Called GitPush (Some pushError)) l ->
  In (Called (GitPull ["--ff-only"]) (Some pullError)) l ->
  r = Ok false /\
  (exists popOutcome,
     l = [ Printed (SpinnerStart "Committing and pushing changes...");
           Called (FsExistsSync (Js.path_join dir ".git")) None;
           Called GitStatus None;
           Called (GitAdd ".") None;
           Called (GitRaw ["commit"; "-m"; message; "--no-gpg-sign"]) None;
           Called GitPush (Some pushError);
           Printed (ConsoleLog "Push failed, trying to pull changes first...");
           Called (GitStash []) None;
           Called (GitPull ["--ff-only"]) (Some pullError);
           Called (GitStash ["pop"]) popOutcome;
           Printed (SpinnerFail "Failed to commit and push changes");
           Printed (ConsoleErrorExn "Error details:" pushError) ]) /\
  (forall label error, In (Printed (ConsoleErrorExn label error)) l -> error = pushError).
Proof.
  intros Hrun.
  apply (wp_run (commitAndPush env dir message) w
           (fun r w' =>
              forall l, trace w' = trace w ++ l ->
              In (Called GitPush (Some pushError)) l ->
              In (Called (GitPull ["--ff-only"]) (Some pullError)) l ->
              r = Ok false /\
              (exists popOutcome, l = _) /\
              (forall label error, In (Printed (ConsoleErrorExn label error)) l -> error = pushError)))
    with (2 := Hrun).
  clear Hrun r w' l.
  repeat wp_step env;
    intros l Hl Hpush Hpull; appended Hl; split_in Hpull; split_in Hpush;
    (split; [reflexivity|]; split;
     [ eexists; reflexivity | intros label error Hin; split_in Hin; reflexivity ]).
Qed.

(** C9. On a clean working copy (the directory is a repository and the
    status is clean) [commitAndPush] returns [true] after reporting
    "No changes to commit": it stages, commits and pushes nothing and
    reports no failure.  A call whose push went through ends with the
    report "Changes committed and pushed successfully" instead and never
    shows the no-op report, so the two outcomes are told apart by what
    is reported (the boolean returned is [true] in both). *)
Theorem C9_clean_working_copy_is_a_distinct_no_op env dir message w status :
  oracle env (trace w ++ [Printed (SpinnerStart "Committing and pushing changes...")])
    (FsExistsSync (Js.path_join dir ".git")) = Ok true ->
  oracle env
    (trace w ++ [Printed (SpinnerStart "Committing and pushing changes...");
                 Called (FsExistsSync (Js.path_join dir ".git")) None])
    GitStatus = Ok status ->
  isClean status = true ->
  commitAndPush env dir message w
  = (Ok true, mkWorld (trace w ++ no_op_events dir) (tokenExpiry w) (isSpinning w)) /\
  count_calls is_commit (no_op_events dir) = 0%nat /\
  count_calls is_push (no_op_events dir) = 0%nat /\
  (forall text, ~ In (Printed (SpinnerFail text)) (no_op_events dir)) /\
  (forall env' dir' message' w2 r2 w2' l2,
     commitAndPush env' dir' message' w2 = (r2, w2') ->
     trace w2' = trace w2 ++ l2 ->
     In (Called GitPush None) l2 ->
     r2 = Ok true /\
     last l2 (Printed SpinnerStop)
     = Printed (SpinnerSucceed "Changes committed and pushed successfully") /\
     ~ In (Printed (SpinnerInfo "No changes to commit")) l2).
Proof.
  intros Hrepo Hstatus Hclean.
  split; [|split; [reflexivity|split; [reflexivity|split]]].
  - assert (H : wp (commitAndPush env dir message) w
                  (fun r w' =>
                     r = Ok true /\
                     w' = mkWorld (trace w ++ no_op_events dir) (tokenExpiry w) (isSpinning w))).
    { repeat wp_step env; agree.
      split; [reflexivity|].
      unfold no_op_events, log_event. cbn [trace tokenExpiry isSpinning].
      repeat rewrite <- app_assoc. reflexivity. }
    destruct H as [Hr Hw].
    rewrite (run_pair (commitAndPush env dir message) w). rewrite Hr, Hw. reflexivity.
  - intros text Hin. unfold no_op_events in Hin. split_in Hin.
  - intros env' dir' message' w2 r2 w2' l2 Hrun.
    apply (wp_run (commitAndPush env' dir' message') w2
             (fun r w' =>
                forall l, trace w' = trace w2 ++ l ->
                In (Called GitPush None) l ->
                r = Ok true /\
                last l (Printed SpinnerStop)
                = Printed (SpinnerSucceed "Changes committed and pushed successfully") /\
                ~ In (Printed (SpinnerInfo "No changes to commit")) l))
      with (2 := Hrun).
    clear.
    repeat wp_step env';
      intros l Hl Hpush; appended Hl; split_in Hpush;
      (split; [reflexivity|]; split; [reflexivity|]; intros Hin; split_in Hin).
Qed.

(** C10. [clone], [pull], [commitAndPush] and [configureWithToken]
    never let an exception out: each returns a boolean whatever the
    collaborators do.  [clone], [pull] and [configureWithToken] return
    [false] whenever one of their calls threw.  [commitAndPush] returns
    [false] whenever a call threw, with one exception: a rejected push
    that the recovery made good by a later successful push. *)
Theorem C10_git_operations_return_a_boolean env dir w :
  (forall repoUrl destination,
     exists b w' l,
       clone env repoUrl destination w = (Ok b, w') /\
       trace w' = trace w ++ l /\
       (some_call_failed l -> b = false)) /\
  (exists b w' l,
     pull env dir w = (Ok b, w') /\
     trace w' = trace w ++ l /\
     (some_call_failed l -> b = false)) /\
  (forall token repoUrl expiresAt,
     exists b w' l,
       configureWithToken env token repoUrl expiresAt w = (Ok b, w') /\
       trace w' = trace w ++ l /\
       (some_call_failed l -> b = false)) /\
  (forall message,
     exists b w' l,
       commitAndPush env dir message w = (Ok b, w') /\
       trace w' = trace w ++ l /\
       (b = true ->
        forall c e, In (Called c (Some e)) l -> c = GitPush /\ In (Called GitPush None) l)).
Proof.
  assert (Hread : forall (m : M bool) (P : bool -> list Event -> Prop),
             wp m w (fun r w' => exists b l, r = Ok b /\ trace w' = trace w ++ l /\ P b l) ->
             exists b w' l, m w = (Ok b, w') /\ trace w' = trace w ++ l /\ P b l).
  { intros m P H. unfold wp in H. destruct H as (b & l & Hr & Hl & HP).
    exists b, (snd (m w)), l. split; [|split; assumption].
    rewrite (run_pair m w) at 1. rewrite Hr. reflexivity. }
  split; [|split; [|split]].
  - intros repoUrl destination.
    apply (Hread _ (fun b l => some_call_failed l -> b = false)).
    repeat wp_step env;
      (eexists; eexists; split; [reflexivity|]; split; [norm_trace; reflexivity|]);
      first [ reflexivity | intros (c & e' & Hin); split_in Hin ].
  - apply (Hread _ (fun b l => some_call_failed l -> b = false)).
    repeat wp_step env;
      (eexists; eexists; split; [reflexivity|]; split; [norm_trace; reflexivity|]);
      first [ reflexivity | intros (c & e' & Hin); split_in Hin ].
  - intros token repoUrl expiresAt.
    apply (Hread _ (fun b l => some_call_failed l -> b = false)).
    repeat wp_step env;
      (eexists; eexists; split; [reflexivity|]; split; [norm_trace; reflexivity|]);
      first [ reflexivity | intros (c & e' & Hin); split_in Hin ].
  - intros message.
    apply (Hread _ (fun b l =>
                      b = true ->
                      forall c e, In (Called c (Some e)) l ->
                                  c = GitPush /\ In (Called GitPush None) l)).
    repeat wp_step env;
      (eexists; eexists; split; [reflexivity|]; split; [norm_trace; reflexivity|]);
      first [ intros Hb; discriminate Hb
            | intros _ c e' Hin; split_in Hin;
              (split; [reflexivity|cbn [In]; repeat first [ left; reflexivity | right ]]) ].
Qed.

(* ================================================================== *)
(** ** Project resolution *)
(* ================================================================== *)

Lemma hexRun_app n h r : Spec.hexText n h -> Js.hexRun n (h ++ r)%string = Some r.
Proof.
  revert n. induction h as [|c h IH]; intros n [Hlen Hhex]; cbn in Hlen; subst n.
  - reflexivity.
  - cbn [append Js.hexRun String.length].
    rewrite (Hhex c) by (cbn; auto).
    apply IH. split; [reflexivity|]. intros c' Hc'. apply Hhex. cbn. auto.
Qed.

Lemma hexRun_inv n s r :
  Js.hexRun n s = Some r -> exists h, s = (h ++ r)%string /\ Spec.hexText n h.
Proof.
  revert s. induction n as [|n IH]; intros s H; cbn [Js.hexRun] in H.
  - exists EmptyString. injection H as ->. repeat split. intros c [].
  - destruct s as [|c s]; [discriminate|].
    destruct (Js.isHexDigit c) eqn:Hc; [|discriminate].
    destruct (IH s H) as (h & -> & Hlen & Hhex).
    exists (String c h). repeat split.
    + cbn. rewrite Hlen. reflexivity.
    + intros c' [<-|Hc']; auto.
Qed.

Lemma after_dash (r : string) (k : string -> bool) :
  match r with String "-" s' => k s' | _ => false end = true ->
  exists s', r = String "-" s' /\ k s' = true.
Proof.
  destruct r as [|[[] [] [] [] [] [] [] []] r']; cbn; intros H; try discriminate H.
  exists r'. split; [reflexivity|exact H].
Qed.

Lemma append_empty (s : string) : (s ++ EmptyString)%string = s.
Proof. induction s as [|x s IH]; cbn; congruence. Qed.

(** The pattern of [findProject] accepts exactly the texts of the
    8-4-4-4-12 shape. *)
Lemma matchesIdPattern_uuidShape s :
  Js.matchesIdPattern s = true <-> Spec.uuidShape s.
Proof.
  unfold Js.matchesIdPattern, Spec.uuidShape. split.
  - cbn [Js.hexGroups]. intros H.
    destruct (Js.hexRun 8 s) as [r1|] eqn:E1; [|discriminate H].
    apply after_dash in H. destruct H as (s1 & -> & H).
    destruct (Js.hexRun 4 s1) as [r2|] eqn:E2; [|discriminate H].
    apply after_dash in H. destruct H as (s2 & -> & H).
    destruct (Js.hexRun 4 s2) as [r3|] eqn:E3; [|discriminate H].
    apply after_dash in H. destruct H as (s3 & -> & H).
    destruct (Js.hexRun 4 s3) as [r4|] eqn:E4; [|discriminate H].
    apply after_dash in H. destruct H as (s4 & -> & H).
    destruct (Js.hexRun 12 s4) as [[|x r5]|] eqn:E5; try discriminate H.
    apply hexRun_inv in E1, E2, E3, E4, E5.
    destruct E1 as (a & -> & Ha), E2 as (b & -> & Hb), E3 as (c & -> & Hc),
             E4 as (d & -> & Hd), E5 as (e & -> & He).
    exists a, b, c, d, e. rewrite append_empty.
    split; [reflexivity|]. repeat (split; [assumption|]). assumption.
  - intros (a & b & c & d & e & -> & Ha & Hb & Hc & Hd & He).
    cbn [Js.hexGroups].
    rewrite (hexRun_app 8 a) by assumption. cbn [append].
    rewrite (hexRun_app 4 b) by assumption. cbn [append].
    rewrite (hexRun_app 4 c) by assumption. cbn [append].
    rewrite (hexRun_app 4 d) by assumption. cbn [append].
    rewrite <- (append_empty e) at 1.
    rewrite (hexRun_app 12 e) by assumption. reflexivity.
Qed.

Lemma find_first_some {A} (f : A -> bool) (xs : list A) (x : A) :
  In x xs -> f x = true -> exists y, find_first f xs = Some y /\ f y = true /\ In y xs.
Proof.
  unfold find_first. induction xs as [|z xs IH]; intros Hin Hf; [contradiction|].
  cbn [find]. destruct (f z) eqn:Hz.
  - exists z. cbn. auto.
  - destruct Hin as [->|Hin]; [congruence|].
    destruct (IH Hin Hf) as (y & Hy & Hfy & Hiny). exists y. cbn. auto.
Qed.

Lemma for_each_console_log {A} (line : A -> string) (xs : list A) (w : World) :
  for_each xs (fun x => console_log (line x)) w = (Ok tt, logged_lines line xs w).
Proof.
  revert w. induction xs as [|x xs IH]; intros w; [reflexivity|].
  cbn [for_each]. unfold bind at 1. cbn. apply IH.
Qed.

Lemma wp_for_each_console_log {A} (line : A -> string) (xs : list A) w Q :
  Q (Ok tt) (logged_lines line xs w) -> wp (for_each xs (fun x => console_log (line x))) w Q.
Proof. unfold wp. rewrite for_each_console_log. exact (fun H => H). Qed.

(** With the listing fetched, [findProject] resolves to what the three
    strategies select. *)
Lemma findProject_listing env projectName remoteUrl spinner w projects :
  oracle env (listing_trace spinner w) ApiGetProjects = Ok projects ->
  fst (findProject env projectName remoteUrl spinner w)
  = Ok (selectProject env projects projectName remoteUrl).
Proof.
  intros Hlisting.
  change (wp (findProject env projectName remoteUrl spinner) w
            (fun r _ => r = Ok (selectProject env projects projectName remoteUrl))).
  unfold findProject, listing_trace in *.
  destruct spinner; [|rewrite app_nil_r in Hlisting];
    repeat first [ apply wp_for_each_console_log; cbn beta iota | wp_step env ];
    agree; reflexivity.
Qed.

Lemma selectProject_by_id env projects projectName remoteUrl p :
  Js.matchesIdPattern projectName = true ->
  find_first (fun q => String.eqb (project_id q) projectName) projects = Some p ->
  selectProject env projects projectName remoteUrl = Some p.
Proof.
  intros Hshape Hfind. unfold selectProject. rewrite Hshape, Hfind.
  destruct remoteUrl; reflexivity.
Qed.

(** The strategies are tried in a fixed order and the first that finds
    a project decides: [id], then the remote URL, then the name. *)
Lemma selectProject_first_match env projects projectName remoteUrl :
  selectProject env projects projectName remoteUrl
  = match
      (if Js.matchesIdPattern projectName
       then find_first (fun p => String.eqb (project_id p) projectName) projects
       else None)
    with
    | Some p => Some p
    | None =>
        match
          match remoteUrl with
          | Some url =>
              if truthy_string remoteUrl then find_first (matchesRemote url) projects else None
          | None => None
          end
        with
        | Some p => Some p
        | None =>
            find_first
              (fun p => String.eqb (toLowerCase env (project_name p))
                                   (toLowerCase env projectName))
              projects
        end
    end.
Proof.
  unfold selectProject.
  destruct (Js.matchesIdPattern projectName);
    [destruct (find_first (fun p => String.eqb (project_id p) projectName) projects)|];
    destruct remoteUrl as [url|]; try reflexivity;
    destruct (truthy_string (Some url)); try reflexivity;
    destruct (find_first (matchesRemote url) projects); reflexivity.
Qed.

(** C3. When the derived name has the 8-4-4-4-12 hexadecimal shape and
    a listed project has it as [id], resolution returns the first
    listed project with that [id], whatever the remote URL and the names
    in the listing are; a project that merely carries the text as its
    name, under another [id], is never the one returned. *)
Theorem C3_id_match_wins env projectName remoteUrl spinner w projects p :
  oracle env (listing_trace spinner w) ApiGetProjects = Ok projects ->
  Spec.uuidShape projectName ->
  In p projects ->
  project_id p = projectName ->
  exists q,
    fst (findProject env projectName remoteUrl spinner w) = Ok (Some q) /\
    project_id q = projectName /\
    find_first (fun x => String.eqb (project_id x) projectName) projects = Some q /\
    (forall other,
       project_name other = projectName -> project_id other <> projectName -> q <> other).
Proof.
  intros Hlisting Hshape Hin Hid.
  apply matchesIdPattern_uuidShape in Hshape.
  destruct (find_first_some (fun x => String.eqb (project_id x) projectName) projects p Hin)
    as (q & Hq & Hidq & _).
  { rewrite Hid. apply String.eqb_refl. }
  apply String.eqb_eq in Hidq.
  exists q. split; [|split; [exact Hidq|split; [exact Hq|]]].
  - rewrite (findProject_listing env projectName remoteUrl spinner w projects Hlisting).
    f_equal. apply selectProject_by_id; assumption.
  - intros other _ Hother ->. contradiction.
Qed.

Lemma split_of_empty sep : nth_error (Js.split sep EmptyString) 1 = None.
Proof. reflexivity. Qed.


(* ================================================================== *)
(** ** The push command *)
(* ================================================================== *)

(** C7. The schema content is decoded as YAML first; only when the YAML
    decoder throws is it decoded as JSON; content that YAML refuses and
    JSON accepts decodes to the JSON document, and content both refuse
    raises the error "Schema file is neither valid YAML nor JSON".
    Decoding touches nothing else. *)
Theorem C7_schema_decoding_falls_back_to_json env content w :
  (forall document,
     yaml_load env content = Ok document ->
     decodeSchema env content w = (Ok document, w)) /\
  (forall yamlError document,
     yaml_load env content = Throw yamlError ->
     JSON_parse env content = Ok document ->
     decodeSchema env content w = (Ok document, w)) /\
  (forall yamlError jsonError,
     yaml_load env content = Throw yamlError ->
     JSON_parse env content = Throw jsonError ->
     decodeSchema env content w
     = (Throw (Error "Schema file is neither valid YAML nor JSON"), w)).
Proof.
  unfold decodeSchema, try_catch, lift, throw.
  repeat split.
  - intros document ->. reflexivity.
  - intros yamlError document -> ->. reflexivity.
  - intros yamlError jsonError -> ->. reflexivity.
Qed.

(** During a push, a schema file that only the JSON decoder accepts is
    transmitted as the JSON document; one that neither accepts is
    reported and nothing is transmitted. *)
Lemma updateSchema_after_yaml_failure env options schemaPath project w content yamlError :
  oracle env (trace w) (FsReadFileSync schemaPath) = Ok content ->
  yaml_load env content = Throw yamlError ->
  (forall document,
     JSON_parse env content = Ok document ->
     exists outcome rest,
       trace (snd (updateSchema env options schemaPath project w))
       = trace w ++
         Called (FsReadFileSync schemaPath) None
         :: Called (ApiPushProjectUpdates (project_id project) document
                      (negb (schemaOnly options))) outcome
         :: rest) /\
  (forall jsonError,
     JSON_parse env content = Throw jsonError ->
     updateSchema env options schemaPath project w
     = (Throw (Error "Schema file is neither valid YAML nor JSON"),
        log_event (Called (FsReadFileSync schemaPath) None) w)).
Proof.
  intros Hread Hyaml. split.
  - intros document Hjson.
    change (wp (updateSchema env options schemaPath project) w
              (fun _ w' =>
                 exists outcome rest,
                   trace w' = trace w ++
                     Called (FsReadFileSync schemaPath) None
                     :: Called (ApiPushProjectUpdates (project_id project) document
                                  (negb (schemaOnly options))) outcome
                     :: rest)).
    repeat wp_step env; agree;
      eexists; eexists; norm_trace; reflexivity.
  - intros jsonError Hjson.
    unfold updateSchema, decodeSchema, bind, try_catch, lift, throw, perform.
    rewrite Hread. cbn. rewrite Hyaml, Hjson. reflexivity.
Qed.

Lemma opens_with_credentials_app projectId before after more :
  opens_with_credentials projectId before after ->
  opens_with_credentials projectId before (after ++ more).
Proof.
  intros (text & rest & -> & Htext). exists text, (rest ++ more). split.
  - rewrite <- app_assoc. reflexivity.
  - destruct Htext as [->|(-> & outcome & rest' & ->)]; [left; reflexivity|right].
    split; [reflexivity|]. exists outcome, (rest' ++ more). reflexivity.
Qed.

Lemma getGitCredentials_opens env projectId w :
  opens_with_credentials projectId (trace w)
    (trace (snd (getGitCredentials env projectId true true w))).
Proof.
  change (wp (getGitCredentials env projectId true true) w
            (fun _ w' => opens_with_credentials projectId (trace w) (trace w'))).
  repeat wp_step env;
    (eexists; eexists; split; [norm_trace; reflexivity|]);
    first [ left; reflexivity | right; split; [reflexivity|]; eexists; eexists; reflexivity ].
Qed.

(** What follows the credential step in steps 6 to 10 only appends to
    the log. *)
Lemma appends_after_credentials env options dir (credentials : option Credentials) :
  appends
    (match credentials with
     | None => ret None
     | Some c =>
         applyCredentials env c ;;
         spinner_text "Checking for changes..." ;;
         status <- getStatus env ;;
         if isClean status
         then spinner_info "No changes to commit" ;; ret None
         else
           console_log (nl ++ "Changes to be pushed:") ;;
           when (0 <? List.length (created status))%nat
             (console_log ("  New files: " ++ Js.join ", " (created status))) ;;
           when (0 <? List.length (modified status))%nat
             (console_log ("  Modified: " ++ Js.join ", " (modified status))) ;;
           when (0 <? List.length (deleted status))%nat
             (console_log ("  Deleted: " ++ Js.join ", " (deleted status))) ;;
           spinner_text "Pushing code changes..." ;;
           pushSuccess <-
             commitAndPush env dir
               (if truthy_string (Some (push_message options))
                then push_message options
                else "Update from Ongoku CLI") ;;
           (if pushSuccess
            then spinner_succeed "Successfully pushed changes to Ongoku."
            else spinner_fail "Failed to push changes.") ;;
           ret (Some true)
     end).
Proof.
  repeat lazymatch goal with
         | |- appends (bind _ _) => apply appends_bind; [|intros ?]
         | |- appends (try_catch _ _) => apply appends_try_catch; [|intros ?]
         | |- appends (perform ?e ?c) => exact (appends_perform e c)
         | |- appends (ret _) => apply appends_ret
         | |- appends (throw _) => apply appends_throw
         | |- appends (print _) => apply appends_print
         | |- appends (console_log _) => apply appends_print
         | |- appends (console_error _) => apply appends_print
         | |- appends (spinner_text _) => apply appends_print
         | |- appends (spinner_succeed _) => apply appends_spinner_succeed
         | |- appends (spinner_fail _) => apply appends_spinner_fail
         | |- appends (spinner_info _) => apply appends_spinner_info
         | |- appends (put_tokenExpiry _) => apply appends_put_tokenExpiry
         | |- appends (Date_now _) => apply appends_Date_now
         | |- appends (if ?b then _ else _) => destruct b
         | |- appends (match ?x with Some _ => _ | None => _ end) => destruct x
         | |- appends ?m => let h := head_of m in unfold h
         end.
Qed.

(** Steps 6 to 10 open with the credential step. *)
Lemma pushCode_begins_with_credentials env options dir project w :
  opens_with_credentials (project_id project) (trace w)
    (trace (snd (pushCode env options dir project w))).
Proof.
  pose proof (getGitCredentials_opens env (project_id project) w) as Hopen.
  unfold pushCode. unfold bind at 1.
  destruct (getGitCredentials env (project_id project) true true w) as [[credentials|e] w'];
    cbn [snd] in Hopen |- *; [|exact Hopen].
  destruct (appends_after_credentials env options dir credentials w') as (l & Hl).
  rewrite Hl. apply opens_with_credentials_app. exact Hopen.
Qed.

(** When the schema step of a push fails (reading, decoding or
    transmitting throws), the failure is reported; in schema-only mode
    the push stops there, returning [null] with nothing further logged;
    otherwise "Will continue with code changes." is logged and steps 6
    to 10 are entered from that point, starting with the credential
    step.  Whether a commit and a push follow is decided by that step
    alone. *)
Lemma schema_failure_aborts_only_in_schema_only_mode
    env options dir schemaPath project w error w1 :
  schemaPath <> EmptyString ->
  codeOnly options = false ->
  updateSchema env options schemaPath project
    (log_event (Printed (SpinnerText "Updating schema...")) w) = (Throw error, w1) ->
  (schemaOnly options = true ->
   pushProject env options dir schemaPath project w
   = (Ok None, schema_failure_reported error w1)) /\
  (schemaOnly options = false ->
   pushProject env options dir schemaPath project w
   = pushCode env options dir project
       (log_event (Printed (ConsoleLog "Will continue with code changes."))
          (schema_failure_reported error w1)) /\
   opens_with_credentials (project_id project)
     (trace w1 ++
      [ Printed (SpinnerFail ("Failed to update schema: " ++ exn_message error));
        Printed (ConsoleLog "Will continue with code changes.") ])
     (trace (snd (pushProject env options dir schemaPath project w)))).
Proof.
  intros Hpath HcodeOnly Hfail.
  assert (Hcond : truthy_string (Some schemaPath) && negb (codeOnly options) = true).
  { rewrite HcodeOnly. destruct schemaPath; [contradiction Hpath; reflexivity|reflexivity]. }
  assert (Hrun : forall k : Flow (option bool) -> M (option bool),
             bind (pushSchema env options schemaPath project) k w
             = bind (onSchemaError options error) k w1).
  { intros k. unfold pushSchema. rewrite Hcond.
    unfold bind at 1 2. unfold spinner_text, print. cbn [fst snd].
    unfold try_catch, bind at 1. rewrite Hfail. reflexivity. }
  unfold pushProject. rewrite Hrun. unfold onSchemaError.
  split; intros Hmode; rewrite Hmode.
  - reflexivity.
  - split; [reflexivity|].
    unfold bind at 1 2 3. unfold spinner_fail, console_log, print, ret. cbn [fst snd].
    pose proof (pushCode_begins_with_credentials env options dir project
                  (log_event (Printed (ConsoleLog "Will continue with code changes."))
                     (schema_failure_reported error w1))) as Hopen.
    unfold schema_failure_reported in Hopen. norm_trace_in Hopen. exact Hopen.
Qed.

(** Push and pull: when no valid token is held and the service issues
    one of the declared shape, destructuring [gitCredentials.git_info]
    throws before the remote is configured or any git call is made. *)
Lemma issued_credentials_are_not_applied env info w :
  declared_shape info ->
  applyCredentials env (IssuedCredentials info) w = (Throw (TypeError destructure_message), w).
Proof.
  intros [Hreused Hnested]. unfold applyCredentials.
  cbn [credentials_reused credentials_git_info]. rewrite Hreused, Hnested. reflexivity.
Qed.

Lemma pushCode_with_fresh_token env options dir project w response info :
  fst (isTokenValid env w) = Ok false ->
  oracle env (trace w ++ [Printed (SpinnerText "Generating Git credentials...")])
    (ApiGetGitToken (project_id project)) = Ok response ->
  success response = true ->
  git_info response = Some info ->
  declared_shape info ->
  pushCode env options dir project w
  = (Throw (TypeError destructure_message),
     log_event (Called (ApiGetGitToken (project_id project)) None)
       (log_event (Printed (SpinnerText "Generating Git credentials...")) w)).
Proof.
  intros Hvalid Htoken Hsuccess Hinfo Hshape.
  assert (Hvalid' : isTokenValid env w = (Ok false, w)).
  { revert Hvalid. unfold isTokenValid, bind, get_tokenExpiry, Date_now, ret.
    destruct (negb (truthy_number (tokenExpiry w))); [reflexivity|].
    destruct (tokenExpiry w); cbn; intros H; [|reflexivity].
    injection H as ->. reflexivity. }
  unfold pushCode, getGitCredentials.
  unfold bind at 1. unfold try_catch. unfold bind at 1. rewrite Hvalid'.
  unfold bind at 1. unfold when, spinner_text, print.
  unfold bind at 1. unfold perform. cbn [trace log_event fst snd].
  rewrite Htoken, Hsuccess, Hinfo. cbn [ret thrown_by]. unfold bind at 1.
  rewrite (issued_credentials_are_not_applied env info _ Hshape). reflexivity.
Qed.

(** Pull follows the same credential branch. *)
Lemma pullResolved_fresh_token_is_not_applied :
  fst (pullCommand Demo.healthy Demo.pull_defaults initial_world) = Ok tt /\
  count_calls is_token_request
    (trace (snd (pullCommand Demo.healthy Demo.pull_defaults initial_world))) = 1%nat /\
  count_calls is_set_url
    (trace (snd (pullCommand Demo.healthy Demo.pull_defaults initial_world))) = 0%nat /\
  count_calls is_any_pull
    (trace (snd (pullCommand Demo.healthy Demo.pull_defaults initial_world))) = 0%nat /\
  last (trace (snd (pullCommand Demo.healthy Demo.pull_defaults initial_world)))
    (Printed SpinnerStop)
  = Printed (ConsoleError destructure_message).
Proof. vm_compute. repeat split; reflexivity. Qed.

(** C5. A push with changes to send, no token held (the client has just
    been created) and a service that issues a token as declared: the
    token is requested once, and where [configureWithToken] should set
    the remote URL and the push should follow, the run ends with "Push failed" on the [TypeError] of the destructuring;
    no [remote set-url] and no push are ever called. *)
Theorem C5_push_does_not_apply_the_issued_token :
  (forall history,
     oracle Demo.healthy history (ApiGetGitToken (project_id Demo.example_project))
     = Ok (mkTokenResponse true (Some Demo.issued))) /\
  fst (pushCommand Demo.healthy Demo.push_defaults initial_world) = Ok tt /\
  count_calls is_token_request
    (trace (snd (pushCommand Demo.healthy Demo.push_defaults initial_world))) = 1%nat /\
  count_calls is_set_url
    (trace (snd (pushCommand Demo.healthy Demo.push_defaults initial_world))) = 0%nat /\
  count_calls is_push
    (trace (snd (pushCommand Demo.healthy Demo.push_defaults initial_world))) = 0%nat /\
  In (Printed (SpinnerFail "Push failed"))
    (trace (snd (pushCommand Demo.healthy Demo.push_defaults initial_world))) /\
  last (trace (snd (pushCommand Demo.healthy Demo.push_defaults initial_world)))
    (Printed SpinnerStop)
  = Printed (ConsoleError destructure_message).
Proof.
  split; [intros history; reflexivity|].
  vm_compute. repeat split; try reflexivity.
  repeat first [ left; reflexivity | right ].
Qed.

(** A valid held token is reused: the service is not asked and the
    remote configuration is not touched. *)
Lemma valid_token_is_reused env projectId w w' :
  fst (isTokenValid env w) = Ok true ->
  getGitCredentials env projectId true true w
  = (Ok (Some ReusedCredentials),
     log_event (Printed (SpinnerText "Using existing Git credentials...")) w) /\
  applyCredentials env ReusedCredentials w'
  = (Ok tt,
     set_isSpinning false
       (log_event (Printed (SpinnerSucceed "Using existing Git credentials")) w')).
Proof.
  intros Hvalid. split; [|reflexivity].
  assert (Hvalid' : isTokenValid env w = (Ok true, w)).
  { revert Hvalid. unfold isTokenValid, bind, get_tokenExpiry, Date_now, ret.
    destruct (negb (truthy_number (tokenExpiry w))); [discriminate|].
    destruct (tokenExpiry w); cbn; intros H; [|discriminate].
    injection H as ->. reflexivity. }
  unfold getGitCredentials, try_catch. unfold bind at 1. rewrite Hvalid'. reflexivity.
Qed.


(** In the push command the same no-op is reported before
    [commitAndPush] is reached: with the held token reused and a clean
    status, steps 6 to 10 report "No changes to commit" and return
    [null]. *)
Lemma pushCode_on_clean_tree env options dir project w status :
  fst (isTokenValid env w) = Ok true ->
  oracle env
    (trace w ++ [ Printed (SpinnerText "Using existing Git credentials...");
                  Printed (SpinnerSucceed "Using existing Git credentials");
                  Printed (SpinnerText "Checking for changes...") ])
    GitStatus = Ok status ->
  isClean status = true ->
  pushCode env options dir project w
  = (Ok None,
     mkWorld
       (trace w ++ [ Printed (SpinnerText "Using existing Git credentials...");
                     Printed (SpinnerSucceed "Using existing Git credentials");
                     Printed (SpinnerText "Checking for changes...");
                     Called GitStatus None;
                     Printed (SpinnerInfo "No changes to commit") ])
       (tokenExpiry w) false).
Proof.
  intros Hvalid Hstatus Hclean.
  destruct (valid_token_is_reused env (project_id project) w w Hvalid) as [Hreuse _].
  unfold pushCode. unfold bind at 1. rewrite Hreuse.
  match goal with
  | |- ?m ?w0 = _ =>
      enough (H : wp m w0
                    (fun r w' =>
                       r = Ok None /\
                       w' = mkWorld
                              (trace w ++
                               [ Printed (SpinnerText "Using existing Git credentials...");
                                 Printed (SpinnerSucceed "Using existing Git credentials");
                                 Printed (SpinnerText "Checking for changes...");
                                 Called GitStatus None;
                                 Printed (SpinnerInfo "No changes to commit") ])
                              (tokenExpiry w) false));
      [ destruct H as [Hr Hw]; rewrite (run_pair m w0), Hr, Hw; reflexivity | ]
  end.
  repeat (wp_step env; try solve [agree]); agree.
  split; [reflexivity|].
  unfold log_event, set_isSpinning. cbn [trace tokenExpiry isSpinning].
  repeat rewrite <- app_assoc. reflexivity.
Qed.

(** The whole command on a service whose schema upload is down: in
    schema-only mode the log ends with the failure; otherwise the
    failure is followed by "Will continue with code changes." and the
    request for a token. *)
Example schema_only_push_stops_at_the_failure :
  last (trace (snd (pushCommand Demo.schema_upload_down Demo.push_schema_only initial_world)))
    (Printed SpinnerStop)
  = Printed (SpinnerFail
               "Failed to update schema: Network Error: Could not connect to the Ongoku server") /\
  count_calls is_token_request
    (trace (snd (pushCommand Demo.schema_upload_down Demo.push_schema_only initial_world)))
  = 0%nat.
Proof. vm_compute. split; reflexivity. Qed.

Example push_goes_on_after_the_failure :
  exists before rest,
    trace (snd (pushCommand Demo.schema_upload_down Demo.push_defaults initial_world))
    = before ++
      [ Printed (SpinnerFail
                   "Failed to update schema: Network Error: Could not connect to the Ongoku server");
        Printed (ConsoleLog "Will continue with code changes.");
        Printed (SpinnerText "Generating Git credentials...");
        Called (ApiGetGitToken "123e4567-e89b-12d3-a456-426614174000") None ] ++ rest.
Proof.
  eexists (firstn 13 (trace (snd (pushCommand Demo.schema_upload_down Demo.push_defaults
                                    initial_world)))).
  eexists. vm_compute. reflexivity.
Qed.

(** C8. A push whose schema upload fails, on a service that issues a
    token of the declared shape.  In schema-only mode the failure ends
    the push: no token is requested.  Otherwise the failure is logged,
    "Will continue with code changes." follows and the token is
    requested, once; but where the claim has the commit and the push
    proceed, the run ends with "Push failed" on the [TypeError] of the
    destructuring of [gitCredentials.git_info]: no status, add, commit
    or push is ever called and the remote is not configured. *)
Theorem C8_schema_failure_then_no_commit_and_push :
  (forall history projectId schema skipGitCommit,
     oracle Demo.schema_upload_down history
       (ApiPushProjectUpdates projectId schema skipGitCommit) = Throw Demo.unreachable) /\
  (forall history,
     oracle Demo.schema_upload_down history (ApiGetGitToken (project_id Demo.example_project))
     = Ok (mkTokenResponse true (Some Demo.issued))) /\
  declared_shape Demo.issued /\
  (fst (pushCommand Demo.schema_upload_down Demo.push_schema_only initial_world) = Ok tt /\
   count_calls is_token_request
     (trace (snd (pushCommand Demo.schema_upload_down Demo.push_schema_only initial_world)))
   = 0%nat /\
   last (trace (snd (pushCommand Demo.schema_upload_down Demo.push_schema_only initial_world)))
     (Printed SpinnerStop)
   = Printed (SpinnerFail
                "Failed to update schema: Network Error: Could not connect to the Ongoku server")) /\
  (fst (pushCommand Demo.schema_upload_down Demo.push_defaults initial_world) = Ok tt /\
   In (Printed (SpinnerFail
                  "Failed to update schema: Network Error: Could not connect to the Ongoku server"))
     (trace (snd (pushCommand Demo.schema_upload_down Demo.push_defaults initial_world))) /\
   In (Printed (ConsoleLog "Will continue with code changes."))
     (trace (snd (pushCommand Demo.schema_upload_down Demo.push_defaults initial_world))) /\
   count_calls is_token_request
     (trace (snd (pushCommand Demo.schema_upload_down Demo.push_defaults initial_world)))
   = 1%nat /\
   count_calls is_repository_call
     (trace (snd (pushCommand Demo.schema_upload_down Demo.push_defaults initial_world)))
   = 0%nat /\
   In (Printed (SpinnerFail "Push failed"))
     (trace (snd (pushCommand Demo.schema_upload_down Demo.push_defaults initial_world))) /\
   last (trace (snd (pushCommand Demo.schema_upload_down Demo.push_defaults initial_world)))
     (Printed SpinnerStop)
   = Printed (ConsoleError destructure_message)).
Proof.
  split; [intros history projectId schema skipGitCommit; reflexivity|].
  split; [intros history; reflexivity|].
  split; [split; reflexivity|].
  vm_compute. repeat split; try reflexivity;
    repeat first [ left; reflexivity | right ].
Qed.

(* ================================================================== *)
(** ** The statements at concrete inputs *)
(* ================================================================== *)

Ltac find_member := repeat first [ left; reflexivity | right ].

Lemma C1_witness :
  fst (commitAndPush Demo.divergent_history "/repo" "sync" initial_world) = Ok false /\
  In (Called (GitStash ["pop"]) None)
    (trace (snd (commitAndPush Demo.divergent_history "/repo" "sync" initial_world))) /\
  (forall label error,
     In (Printed (ConsoleErrorExn label error))
       (trace (snd (commitAndPush Demo.divergent_history "/repo" "sync" initial_world))) ->
     error = Demo.rejected).
Proof.
  assert (Hpush : In (Called GitPush (Some Demo.rejected))
                    (trace (snd (commitAndPush Demo.divergent_history "/repo" "sync"
                                   initial_world)))).
  { vm_compute. find_member. }
  assert (Hpull : In (Called (GitPull ["--ff-only"]) (Some Demo.diverged))
                    (trace (snd (commitAndPush Demo.divergent_history "/repo" "sync"
                                   initial_world)))).
  { vm_compute. find_member. }
  destruct (C1_pull_failure_restores_and_reports_push_error
              Demo.divergent_history "/repo" "sync" initial_world
              _ _ _ Demo.rejected Demo.diverged
              (run_pair (commitAndPush Demo.divergent_history "/repo" "sync") initial_world)
              eq_refl Hpush Hpull)
    as (Hr & _ & Herr).
  split; [exact Hr|]. split; [|exact Herr].
  vm_compute. find_member.
Defined.

Lemma C3_witness :
  exists q,
    fst (findProject Demo.ambiguous_listing "123e4567-e89b-12d3-a456-426614174000" None false
           initial_world) = Ok (Some q) /\
    q = Demo.example_project /\
    q <> Demo.name_is_an_id.
Proof.
  assert (Hshape : Spec.uuidShape "123e4567-e89b-12d3-a456-426614174000").
  { exists "123e4567", "e89b", "12d3", "a456", "426614174000".
    split; [reflexivity|].
    repeat split; try reflexivity;
      intros c Hin; cbn in Hin;
      repeat (destruct Hin as [<-|Hin]; [reflexivity|]); contradiction. }
  destruct (C3_id_match_wins Demo.ambiguous_listing
              "123e4567-e89b-12d3-a456-426614174000" None false initial_world
              [Demo.name_is_an_id; Demo.example_project] Demo.example_project
              eq_refl Hshape (or_intror (or_introl eq_refl)) eq_refl)
    as (q & Hq & _ & Hfirst & Hother).
  exists q. split; [exact Hq|]. split.
  - vm_compute in Hfirst. injection Hfirst as <-. reflexivity.
  - apply Hother; [reflexivity|discriminate].
Defined.

Lemma C4_witness :
  isTokenValid Demo.healthy (Demo.holding 1767220301000) = (Ok true, Demo.holding 1767220301000) /\
  isTokenValid Demo.healthy (Demo.holding 1767220299000) = (Ok false, Demo.holding 1767220299000).
Proof.
  split.
  - destruct (C4_isTokenValid_five_minute_buffer Demo.healthy (Demo.holding 1767220301000))
      as (b & Hrun & Hiff & _ & _).
    + vm_compute. discriminate.
    + rewrite Hrun. f_equal. f_equal. apply Hiff.
      exists 1767220301000%Z. split; [reflexivity|]. vm_compute. reflexivity.
  - destruct (C4_isTokenValid_five_minute_buffer Demo.healthy (Demo.holding 1767220299000))
      as (b & Hrun & _ & Hlate & _).
    + vm_compute. discriminate.
    + rewrite Hrun. f_equal. f_equal. apply (Hlate 1767220299000%Z); [reflexivity|].
      vm_compute. discriminate.
Defined.



(** The test of step 2 also accepts a project on another host when the
    remote URL contains the text [undefined]; listed first, that project
    is the one returned although a later project matches by its
    github.com path. *)
Example first_accepted_may_be_on_another_host :
  fst (findProject
         (Demo.scripted Demo.never_fails [Demo.other_host_project; Demo.example_project]
            Demo.dirty 1767220000000%Z Demo.yaml_ok Demo.json_ok)
         "shop" (Some "https://github.com/build-ongoku/project-example/undefined")
         true initial_world)
  = Ok (Some Demo.other_host_project) /\
  matchesRemote "https://github.com/build-ongoku/project-example/undefined"
    Demo.example_project = true.
Proof. vm_compute. split; reflexivity. Qed.

Lemma C7_witness :
  decodeSchema Demo.json_schema Demo.json_text initial_world
  = (Ok Demo.document, initial_world).
Proof.
  apply (proj1 (proj2 (C7_schema_decoding_falls_back_to_json Demo.json_schema
                         Demo.json_text initial_world))
           (mkExn "YAMLException" "bad indentation of a mapping entry" None)).
  - reflexivity.
  - reflexivity.
Defined.

Lemma schema_failure_in_both_modes :
  pushProject Demo.schema_upload_down Demo.push_schema_only "/home/dev/project-example"
    "/home/dev/project-example/goku_schema/app.schema.yml" Demo.example_project initial_world
  = (Ok None,
     schema_failure_reported Demo.unreachable
       (snd (updateSchema Demo.schema_upload_down Demo.push_schema_only
               "/home/dev/project-example/goku_schema/app.schema.yml" Demo.example_project
               (log_event (Printed (SpinnerText "Updating schema...")) initial_world)))) /\
  opens_with_credentials (project_id Demo.example_project)
    (trace (snd (updateSchema Demo.schema_upload_down Demo.push_defaults
                   "/home/dev/project-example/goku_schema/app.schema.yml" Demo.example_project
                   (log_event (Printed (SpinnerText "Updating schema...")) initial_world)))
     ++ [ Printed (SpinnerFail ("Failed to update schema: " ++ exn_message Demo.unreachable));
          Printed (ConsoleLog "Will continue with code changes.") ])
    (trace (snd (pushProject Demo.schema_upload_down Demo.push_defaults
                   "/home/dev/project-example"
                   "/home/dev/project-example/goku_schema/app.schema.yml"
                   Demo.example_project initial_world))).
Proof.
  split.
  - apply (proj1 (schema_failure_aborts_only_in_schema_only_mode
                    Demo.schema_upload_down Demo.push_schema_only "/home/dev/project-example"
                    "/home/dev/project-example/goku_schema/app.schema.yml"
                    Demo.example_project initial_world Demo.unreachable _
                    ltac:(discriminate) eq_refl
                    ltac:(vm_compute; reflexivity))).
    reflexivity.
  - apply (proj2 (schema_failure_aborts_only_in_schema_only_mode
                    Demo.schema_upload_down Demo.push_defaults "/home/dev/project-example"
                    "/home/dev/project-example/goku_schema/app.schema.yml"
                    Demo.example_project initial_world Demo.unreachable _
                    ltac:(discriminate) eq_refl
                    ltac:(vm_compute; reflexivity))).
    reflexivity.
Defined.

Lemma C9_witness :
  commitAndPush Demo.clean_tree "/repo" "sync" initial_world
  = (Ok true, mkWorld (no_op_events "/repo") None false).
Proof.
  apply (proj1 (C9_clean_working_copy_is_a_distinct_no_op
                  Demo.clean_tree "/repo" "sync" initial_world Demo.clean
                  eq_refl eq_refl eq_refl)).
Defined.

(** C10 as stated fails where the recovery succeeds: the first push
    throws, yet [commitAndPush] returns [true]. *)
Lemma C10_counterexample_recovered_push :
  some_call_failed (trace (snd (commitAndPush Demo.remote_moved "/repo" "sync" initial_world))) /\
  In (Called GitPush (Some Demo.rejected))
    (trace (snd (commitAndPush Demo.remote_moved "/repo" "sync" initial_world))) /\
  fst (commitAndPush Demo.remote_moved "/repo" "sync" initial_world) = Ok true /\
  fst (commitAndPush Demo.remote_moved "/repo" "sync" initial_world) <> Ok false.
Proof.
  assert (Hin : In (Called GitPush (Some Demo.rejected))
                  (trace (snd (commitAndPush Demo.remote_moved "/repo" "sync" initial_world)))).
  { vm_compute. find_member. }
  split; [exists GitPush, Demo.rejected; exact Hin|].
  split; [exact Hin|].
  split; [reflexivity|]. vm_compute. discriminate.
Qed.

Lemma C10_witness :
  exists b w' l,
    commitAndPush Demo.divergent_history "/repo" "sync" initial_world = (Ok b, w') /\
    trace w' = trace initial_world ++ l /\
    (b = true ->
     forall c e, In (Called c (Some e)) l -> c = GitPush /\ In (Called GitPush None) l).
Proof.
  exact (proj2 (proj2 (proj2 (C10_git_operations_return_a_boolean
                                Demo.divergent_history "/repo" initial_world))) "sync").
Defined.

(* ================================================================== *)
(** ** Further properties of [GitClient] *)
(* ================================================================== *)

(** From a [wp] fact to the run it describes. *)
Lemma wp_returns {A} (m : M A) w (P : A -> World -> list Event -> Prop) :
  wp m w (fun r w' => exists a l, r = Ok a /\ trace w' = trace w ++ l /\ P a w' l) ->
  exists a w' l, m w = (Ok a, w') /\ trace w' = trace w ++ l /\ P a w' l.
Proof.
  intros H. unfold wp in H. destruct H as (a & l & Hr & Hl & HP).
  exists a, (snd (m w)), l. split; [|split; assumption].
  rewrite (run_pair m w) at 1. rewrite Hr. reflexivity.
Qed.

(** Finish a branch of a run: the value, the appended events, then the
    property of the two. *)
Ltac conclude :=
  eexists; eexists; split; [reflexivity|]; split; [norm_trace; reflexivity|].

(** X1. [commitAndPush] answers [true] exactly when it found nothing to
    commit or one of its pushes went through. *)
Theorem commitAndPush_true_iff_clean_or_pushed env dir message w :
  exists b w' l,
    commitAndPush env dir message w = (Ok b, w') /\
    trace w' = trace w ++ l /\
    (b = true <->
     In (Printed (SpinnerInfo "No changes to commit")) l \/ In (Called GitPush None) l).
Proof.
  apply (wp_returns _ _
           (fun b _ l =>
              b = true <->
              In (Printed (SpinnerInfo "No changes to commit")) l \/ In (Called GitPush None) l)).
  repeat wp_step env; conclude;
    (split;
     [ first [ intros Hb; discriminate Hb
             | intros _; cbn [In]; first [ left; solve [find_member] | right; solve [find_member] ] ]
     | first [ intros _; reflexivity
             | intros [Hin|Hin]; split_in Hin ] ]).
Qed.

(** X2. The raw git commands of a call are commits without GPG
    signing: none, or one with the caller's message, or that one followed
    by a second with the fixed message "Update from Ongoku CLI"; the
    second is only made after a rejected push. *)
Theorem commitAndPush_commit_messages env dir message w :
  exists b w' l,
    commitAndPush env dir message w = (Ok b, w') /\
    trace w' = trace w ++ l /\
    (raw_commands l = [] \/
     raw_commands l = [commit_command message] \/
     raw_commands l = [commit_command message; commit_command "Update from Ongoku CLI"]) /\
    (List.length (raw_commands l) = 2%nat -> exists e, In (Called GitPush (Some e)) l).
Proof.
  apply (wp_returns _ _
           (fun _ _ l =>
              (raw_commands l = [] \/
               raw_commands l = [commit_command message] \/
               raw_commands l
               = [commit_command message; commit_command "Update from Ongoku CLI"]) /\
              (List.length (raw_commands l) = 2%nat ->
               exists e, In (Called GitPush (Some e)) l))).
  repeat wp_step env; conclude;
    (split;
     [ cbn [raw_commands];
       first [ left; reflexivity | right; left; reflexivity | right; right; reflexivity ]
     | cbn [raw_commands List.length];
       first [ intros Hlen; discriminate Hlen
             | intros _; eexists; cbn [In]; solve [find_member] ] ]).
Qed.

(** X3. The stash discipline of [commitAndPush]: without a rejected push
    nothing is stashed or popped; after a rejected push a stash pop is
    attempted once or twice before the call returns, also when the
    stash itself failed; when the second push is rejected too, the pop
    has been called twice. *)
Theorem commitAndPush_stash_pops env dir message w :
  exists b w' l,
    commitAndPush env dir message w = (Ok b, w') /\
    trace w' = trace w ++ l /\
    ((forall e, ~ In (Called GitPush (Some e)) l) ->
     count_calls is_stash_save l = 0%nat /\ count_calls is_stash_pop l = 0%nat) /\
    (forall e,
       In (Called GitPush (Some e)) l ->
       (1 <= count_calls is_stash_pop l <= 2)%nat /\
       (b = true -> count_calls is_stash_pop l = 1%nat)) /\
    (forall e, In (Called (GitStash []) (Some e)) l -> count_calls is_stash_pop l = 1%nat) /\
    (count_calls is_push l = 2%nat -> b = false -> count_calls is_stash_pop l = 2%nat).
Proof.
  apply (wp_returns _ _
           (fun b _ l =>
              ((forall e, ~ In (Called GitPush (Some e)) l) ->
               count_calls is_stash_save l = 0%nat /\ count_calls is_stash_pop l = 0%nat) /\
              (forall e,
                 In (Called GitPush (Some e)) l ->
                 (1 <= count_calls is_stash_pop l <= 2)%nat /\
                 (b = true -> count_calls is_stash_pop l = 1%nat)) /\
              (forall e,
                 In (Called (GitStash []) (Some e)) l -> count_calls is_stash_pop l = 1%nat) /\
              (count_calls is_push l = 2%nat -> b = false ->
               count_calls is_stash_pop l = 2%nat))).
  repeat wp_step env; conclude;
    (split; [|split; [|split]];
     [ first [ intros _; split; reflexivity
             | intros Hno; exfalso; eapply Hno; cbn [In]; solve [find_member] ]
     | intros e' Hin; split_in Hin;
       (cbn; split; [lia|first [ intros _; reflexivity | intros Hb; discriminate Hb ]])
     | intros e' Hin; split_in Hin; reflexivity
     | cbn; first [ intros Hc; discriminate Hc
                  | intros _ Hb; discriminate Hb
                  | intros _ _; reflexivity ] ]).
Qed.

(** X4. Outside a repository (the [.git] test does not answer [true])
    neither [commitAndPush] nor [pull] calls the git driver; both answer
    [false]. *)
Theorem no_git_call_outside_a_repository env dir message w :
  (oracle env (trace w ++ [Printed (SpinnerStart "Committing and pushing changes...")])
     (FsExistsSync (Js.path_join dir ".git")) <> Ok true ->
   exists w' l,
     commitAndPush env dir message w = (Ok false, w') /\
     trace w' = trace w ++ l /\
     count_calls is_git_call l = 0%nat) /\
  (oracle env (trace w ++ [Printed (SpinnerStart "Pulling latest changes...")])
     (FsExistsSync (Js.path_join dir ".git")) <> Ok true ->
   exists w' l,
     pull env dir w = (Ok false, w') /\
     trace w' = trace w ++ l /\
     count_calls is_git_call l = 0%nat).
Proof.
  split; intros Hno.
  - cut (exists b w' l,
            commitAndPush env dir message w = (Ok b, w') /\
            trace w' = trace w ++ l /\ b = false /\ count_calls is_git_call l = 0%nat).
    { intros (b & w' & l & Hrun & Hl & -> & Hc). exists w', l. auto. }
    apply (wp_returns _ _ (fun b _ l => b = false /\ count_calls is_git_call l = 0%nat)).
    destruct (oracle env (trace w ++ [Printed (SpinnerStart "Committing and pushing changes...")])
                (FsExistsSync (Js.path_join dir ".git"))) as [[|]|e] eqn:E;
      [contradiction Hno; reflexivity| |];
      repeat (wp_step env; try solve [agree]); conclude; split; reflexivity.
  - cut (exists b w' l,
            pull env dir w = (Ok b, w') /\
            trace w' = trace w ++ l /\ b = false /\ count_calls is_git_call l = 0%nat).
    { intros (b & w' & l & Hrun & Hl & -> & Hc). exists w', l. auto. }
    apply (wp_returns _ _ (fun b _ l => b = false /\ count_calls is_git_call l = 0%nat)).
    destruct (oracle env (trace w ++ [Printed (SpinnerStart "Pulling latest changes...")])
                (FsExistsSync (Js.path_join dir ".git"))) as [[|]|e] eqn:E;
      [contradiction Hno; reflexivity| |];
      repeat (wp_step env; try solve [agree]); conclude; split; reflexivity.
Qed.

(** X5. [pull] calls the git driver at most once, with
    [pull --no-rebase] and nothing else, and answers [true] exactly when
    that call went through. *)
Theorem pull_merges_and_reports env dir w :
  exists b w' l,
    pull env dir w = (Ok b, w') /\
    trace w' = trace w ++ l /\
    (forall c,
       In c (calls_of l) ->
       c = FsExistsSync (Js.path_join dir ".git") \/ c = GitPull ["--no-rebase"]) /\
    (count_calls is_git_call l <= 1)%nat /\
    (b = true <-> In (Called (GitPull ["--no-rebase"]) None) l).
Proof.
  apply (wp_returns _ _
           (fun b _ l =>
              (forall c,
                 In c (calls_of l) ->
                 c = FsExistsSync (Js.path_join dir ".git") \/ c = GitPull ["--no-rebase"]) /\
              (count_calls is_git_call l <= 1)%nat /\
              (b = true <-> In (Called (GitPull ["--no-rebase"]) None) l))).
  repeat wp_step env; conclude;
    (split; [|split];
     [ intros c Hin; cbn [calls_of In] in Hin;
       repeat (destruct Hin as [<-|Hin]; [auto|]); contradiction
     | cbn; lia
     | split;
       [ first [ intros Hb; discriminate Hb | intros _; cbn [In]; solve [find_member] ]
       | first [ intros _; reflexivity | intros Hin; split_in Hin ] ] ]).
Qed.

(** X6. [init] never throws.  In a directory that already holds a
    repository it answers [true] after the probe alone; otherwise (the
    probe answers [false] or throws) it calls [git init] exactly once,
    right after the probe, and it answers [false] exactly when that call
    threw. *)
Theorem init_is_idempotent env dir w :
  exists b w' l,
    init env dir w = (Ok b, w') /\
    trace w' = trace w ++ l /\
    (oracle env (trace w) (FsExistsSync (Js.path_join dir ".git")) = Ok true ->
     b = true /\ calls_of l = [FsExistsSync (Js.path_join dir ".git")]) /\
    (oracle env (trace w) (FsExistsSync (Js.path_join dir ".git")) <> Ok true ->
     calls_of l = [FsExistsSync (Js.path_join dir ".git"); GitInit] /\
     count_calls is_init l = 1%nat) /\
    (count_calls is_git_call l = count_calls is_init l) /\
    (b = false <-> exists e, In (Called GitInit (Some e)) l).
Proof.
  apply (wp_returns _ _
           (fun b _ l =>
              (oracle env (trace w) (FsExistsSync (Js.path_join dir ".git")) = Ok true ->
               b = true /\ calls_of l = [FsExistsSync (Js.path_join dir ".git")]) /\
              (oracle env (trace w) (FsExistsSync (Js.path_join dir ".git")) <> Ok true ->
               calls_of l = [FsExistsSync (Js.path_join dir ".git"); GitInit] /\
               count_calls is_init l = 1%nat) /\
              (count_calls is_git_call l = count_calls is_init l) /\
              (b = false <-> exists e, In (Called GitInit (Some e)) l))).
  repeat wp_step env; conclude;
    (split; [|split; [|split]];
     [ intros Ho; first [ split; reflexivity | exfalso; agree ]
     | intros Hno; first [ split; reflexivity | exfalso; apply Hno; assumption ]
     | reflexivity
     | split;
       [ first [ intros Hb; discriminate Hb | intros _; eexists; cbn [In]; solve [find_member] ]
       | first [ intros _; reflexivity | intros (e' & Hin); split_in Hin ] ] ]).
Qed.

(** X7. [configureWithToken] records the expiry as soon as the remote
    URL and the credential helper are set, before the remote is read
    back: once both calls went through the field holds the given expiry,
    or one hour from that moment when none was given, even when the
    function then answers [false]; when either call throws the field is
    left as it was and the answer is [false]. *)
Theorem configureWithToken_records_expiry env token repoUrl expiresAt w :
  exists b w' l,
    configureWithToken env token repoUrl expiresAt w = (Ok b, w') /\
    trace w' = trace w ++ l /\
    (In (Called credential_helper_call None) l ->
     tokenExpiry w'
     = recorded_expiry expiresAt
         (clock env (trace w ++ [ Called (set_url_call token repoUrl) None;
                                  Called credential_helper_call None ]))) /\
    (~ In (Called credential_helper_call None) l ->
     tokenExpiry w' = tokenExpiry w /\ b = false) /\
    (b = true ->
     calls_of l = [set_url_call token repoUrl; credential_helper_call; GitGetRemotes true]).
Proof.
  apply (wp_returns _ _
           (fun b w' l =>
              (In (Called credential_helper_call None) l ->
               tokenExpiry w'
               = recorded_expiry expiresAt
                   (clock env (trace w ++ [ Called (set_url_call token repoUrl) None;
                                            Called credential_helper_call None ]))) /\
              (~ In (Called credential_helper_call None) l ->
               tokenExpiry w' = tokenExpiry w /\ b = false) /\
              (b = true ->
               calls_of l
               = [set_url_call token repoUrl; credential_helper_call; GitGetRemotes true]))).
  unfold recorded_expiry.
  repeat wp_step env; conclude;
    (split; [|split];
     [ intros Hin; first [ split_in Hin; fail
                         | norm_trace; reflexivity ]
     | intros Hno;
       first [ split; reflexivity
             | exfalso; apply Hno; cbn [In]; solve [find_member] ]
     | first [ intros Hb; discriminate Hb | intros _; reflexivity ] ]).
Qed.

(** When [configureWithToken] answers [true] the expiry field holds the
    recorded value. *)
Lemma configureWithToken_true_expiry env token repoUrl expiresAt w w' :
  configureWithToken env token repoUrl expiresAt w = (Ok true, w') ->
  tokenExpiry w'
  = recorded_expiry expiresAt
      (clock env (trace w ++ [ Called (set_url_call token repoUrl) None;
                               Called credential_helper_call None ])).
Proof.
  intros Hrun.
  refine (wp_run _ w
            (fun r w' =>
               r = Ok true ->
               tokenExpiry w'
               = recorded_expiry expiresAt
                   (clock env (trace w ++ [ Called (set_url_call token repoUrl) None;
                                            Called credential_helper_call None ])))
            _ _ _ Hrun eq_refl).
  unfold recorded_expiry.
  repeat wp_step env; intros Hr; try discriminate Hr; norm_trace; reflexivity.
Qed.

Lemma isTokenValid_of_expiry env w e :
  tokenExpiry w = Some e ->
  e <> 0%Z ->
  fst (isTokenValid env w) = Ok (clock env (trace w) <? e - bufferMs)%Z.
Proof.
  intros He Hne. unfold isTokenValid, bind, get_tokenExpiry, Date_now, ret. cbn.
  rewrite He. cbn. destruct (Z.eqb_spec e 0); [contradiction|]. reflexivity.
Qed.

(** X8. A token that [configureWithToken] accepted is found valid by
    [isTokenValid] until five minutes before its expiry: before the
    given expiry when there is one, and otherwise for fifty-five minutes
    from the moment the credential helper was set. *)
Theorem configured_token_validity env token repoUrl expiresAt w w' later :
  configureWithToken env token repoUrl expiresAt w = (Ok true, w') ->
  tokenExpiry later = tokenExpiry w' ->
  (forall e,
     expiresAt = Some e -> e <> 0%Z ->
     fst (isTokenValid env later) = Ok (clock env (trace later) <? e - 5 * 60 * 1000)%Z) /\
  (truthy_number expiresAt = false ->
   forall configured,
     configured = clock env (trace w ++ [ Called (set_url_call token repoUrl) None;
                                          Called credential_helper_call None ]) ->
     (0 <= configured)%Z ->
     fst (isTokenValid env later)
     = Ok (clock env (trace later) <? configured + 55 * 60 * 1000)%Z).
Proof.
  intros Hrun Hlater.
  rewrite (configureWithToken_true_expiry _ _ _ _ _ _ Hrun) in Hlater.
  unfold recorded_expiry in Hlater. split.
  - intros e -> Hne. cbn [truthy_number] in Hlater.
    destruct (Z.eqb_spec e 0); [contradiction|]. cbn [negb] in Hlater.
    exact (isTokenValid_of_expiry env later e Hlater Hne).
  - intros Hfalsy configured -> Hpos. rewrite Hfalsy in Hlater.
    rewrite (isTokenValid_of_expiry env later _ Hlater) by lia.
    unfold bufferMs. f_equal. f_equal. lia.
Qed.

Lemma drop_app (p rest : string) : Js.drop (String.length p) (p ++ rest) = rest.
Proof. induction p as [|c p IH]; [destruct rest; reflexivity|exact IH]. Qed.

(** [replace] on a text that begins with the pattern. *)
Lemma replace_prefix pat rep rest : Js.replace pat rep (pat ++ rest) = (rep ++ rest)%string.
Proof.
  assert (Hprefix : String.prefix pat (pat ++ rest) = true)
    by (apply prefix_app; exists rest; reflexivity).
  destruct (pat ++ rest)%string as [|c s] eqn:E.
  - destruct pat; [|discriminate E]. cbn in E. subst rest. cbn.
    symmetry. apply append_empty.
  - cbn [Js.replace]. rewrite Hprefix, <- E, drop_app. reflexivity.
Qed.

(** [replace] on a text in which the pattern does not occur. *)
Lemma replace_absent pat rep s : Js.includes pat s = false -> Js.replace pat rep s = s.
Proof.
  induction s as [|c s IH]; cbn [Js.includes Js.replace]; intros Hno;
    apply orb_false_iff in Hno; destruct Hno as [Hprefix Hrest]; rewrite Hprefix.
  - reflexivity.
  - rewrite (IH Hrest). reflexivity.
Qed.

(** X9. The first call of [configureWithToken] points [origin] at the
    repository URL with the token placed after the scheme, for a URL
    that begins with [https://] and a token without [$] (which
    [String.prototype.replace] would read as a pattern); a URL in which
    [https://] does not occur is set unchanged, without the token. *)
Theorem configureWithToken_remote_url env token repoUrl expiresAt w url :
  (exists rest,
     repoUrl = ("https://" ++ rest)%string /\
     Js.includes "$" token = false /\
     url = ("https://" ++ token ++ "@" ++ rest)%string) \/
  (Js.includes "https://" repoUrl = false /\ url = repoUrl) ->
  exists r w' thrown l,
    configureWithToken env token repoUrl expiresAt w = (r, w') /\
    trace w' = trace w ++ Called (GitRemote ["set-url"; "origin"; url]) thrown :: l.
Proof.
  intros Hurl.
  assert (Hauth : Js.replace "https://" ("https://" ++ token ++ "@") repoUrl = url).
  { destruct Hurl as [(rest & -> & _ & ->)|[Hno ->]].
    - rewrite replace_prefix. cbn [append]. rewrite append_assoc_one. reflexivity.
    - apply replace_absent. exact Hno. }
  assert (H : wp (configureWithToken env token repoUrl expiresAt) w
                (fun _ w' =>
                   exists thrown l,
                     trace w' = trace w
                                ++ Called (GitRemote ["set-url"; "origin"; url]) thrown :: l)).
  { rewrite <- Hauth.
    repeat wp_step env; eexists; eexists; norm_trace; reflexivity. }
  unfold wp in H. destruct H as (thrown & l & Hl).
  eexists; eexists; exists thrown, l. split; [apply run_pair|exact Hl].
Qed.

(* ================================================================== *)
(** ** Rules for [avoiding] *)
(* ================================================================== *)

Section Avoiding.

Variable env : Env.
Variable p : Call -> bool.

Lemma weaker_refl i : weaker i i.
Proof. intros w H. exact H. Qed.

Lemma weaker_any i : weaker i AnyExpiry.
Proof. intros w _. exact I. Qed.

Lemma holds_log_event i e w : holds i w -> holds i (log_event e w).
Proof. destruct i; exact (fun H => H). Qed.

Lemma holds_set_isSpinning i b w : holds i w -> holds i (set_isSpinning b w).
Proof. destruct i; exact (fun H => H). Qed.

Lemma avoiding_silent {A} i j (m : M A) :
  (forall w, snd (m w) = w) -> weaker i j -> avoiding p i j m.
Proof.
  intros Hsame Hij w Hi. rewrite Hsame. split; [exact (Hij w Hi)|].
  exists []. rewrite app_nil_r. split; reflexivity.
Qed.

Lemma avoiding_ret {A} i j (a : A) : weaker i j -> avoiding p i j (ret a).
Proof. apply avoiding_silent. reflexivity. Qed.

Lemma avoiding_throw {A} i j e : weaker i j -> avoiding p i j (@throw A e).
Proof. apply avoiding_silent. reflexivity. Qed.

Lemma avoiding_lift {A} i j (r : Result A) : weaker i j -> avoiding p i j (lift r).
Proof. apply avoiding_silent. reflexivity. Qed.

Lemma avoiding_Date_now i j : weaker i j -> avoiding p i j (Date_now env).
Proof. apply avoiding_silent. reflexivity. Qed.

Lemma avoiding_get_tokenExpiry i j : weaker i j -> avoiding p i j get_tokenExpiry.
Proof. apply avoiding_silent. reflexivity. Qed.

Lemma avoiding_put_tokenExpiry i t : avoiding p i AnyExpiry (put_tokenExpiry t).
Proof. intros w _. split; [exact I|]. exists []. cbn. rewrite app_nil_r. split; reflexivity. Qed.

Lemma avoiding_new_GitClient i j : avoiding p i j new_GitClient.
Proof.
  intros w _. split; [destruct j; [exact I|reflexivity]|].
  exists []. cbn. rewrite app_nil_r. split; reflexivity.
Qed.

Lemma avoiding_print i j o : weaker i j -> avoiding p i j (print o).
Proof.
  intros Hij w Hi. split; [apply Hij, holds_log_event, Hi|].
  exists [Printed o]. split; reflexivity.
Qed.

Lemma avoiding_spinner_start i j text : weaker i j -> avoiding p i j (spinner_start text).
Proof.
  intros Hij w Hi. split; [apply Hij, holds_set_isSpinning, holds_log_event, Hi|].
  eexists. split; reflexivity.
Qed.

Lemma avoiding_spinner_succeed i j text : weaker i j -> avoiding p i j (spinner_succeed text).
Proof.
  intros Hij w Hi. split; [apply Hij, holds_set_isSpinning, holds_log_event, Hi|].
  eexists. split; reflexivity.
Qed.

Lemma avoiding_spinner_fail i j text : weaker i j -> avoiding p i j (spinner_fail text).
Proof.
  intros Hij w Hi. split; [apply Hij, holds_set_isSpinning, holds_log_event, Hi|].
  eexists. split; reflexivity.
Qed.

Lemma avoiding_spinner_info i j text : weaker i j -> avoiding p i j (spinner_info text).
Proof.
  intros Hij w Hi. split; [apply Hij, holds_set_isSpinning, holds_log_event, Hi|].
  eexists. split; reflexivity.
Qed.

Lemma avoiding_spinner_stop i j : weaker i j -> avoiding p i j spinner_stop_if_spinning.
Proof.
  intros Hij w Hi. unfold spinner_stop_if_spinning. destruct (isSpinning w); cbn [snd].
  - split; [apply Hij, holds_set_isSpinning, holds_log_event, Hi|].
    eexists. split; reflexivity.
  - split; [exact (Hij w Hi)|]. exists []. rewrite app_nil_r. split; reflexivity.
Qed.

Lemma avoiding_perform i j c : p c = false -> weaker i j -> avoiding p i j (perform env c).
Proof.
  intros Hc Hij w Hi. split; [apply Hij, holds_log_event, Hi|].
  eexists. split; [reflexivity|]. cbn. rewrite Hc. reflexivity.
Qed.

Lemma avoiding_bind {A B} i r j (m : M A) (k : A -> M B) :
  avoiding p i r m -> weaker r j -> (forall a, avoiding p r j (k a)) ->
  avoiding p i j (bind m k).
Proof.
  intros Hm Hrj Hk w Hi. unfold bind. destruct (Hm w Hi) as (Hr & l & Hl & Hc).
  destruct (m w) as [[a|e] w']; cbn [snd] in *.
  - destruct (Hk a w' Hr) as (Hj & l' & Hl' & Hc'). split; [exact Hj|].
    exists (l ++ l'). rewrite Hl', Hl, count_calls_app, Hc, Hc'.
    split; [symmetry; apply app_assoc|reflexivity].
  - split; [exact (Hrj _ Hr)|]. exists l. split; assumption.
Qed.

Lemma avoiding_try_catch {A} i r j (m : M A) (h : Exn -> M A) :
  avoiding p i r m -> weaker r j -> (forall e, avoiding p r j (h e)) ->
  avoiding p i j (try_catch m h).
Proof.
  intros Hm Hrj Hh w Hi. unfold try_catch. destruct (Hm w Hi) as (Hr & l & Hl & Hc).
  destruct (m w) as [[a|e] w']; cbn [snd] in *.
  - split; [exact (Hrj _ Hr)|]. exists l. split; assumption.
  - destruct (Hh e w' Hr) as (Hj & l' & Hl' & Hc'). split; [exact Hj|].
    exists (l ++ l'). rewrite Hl', Hl, count_calls_app, Hc, Hc'.
    split; [symmetry; apply app_assoc|reflexivity].
Qed.

Lemma avoiding_try_finally {A} i r j (m : M A) (f : M unit) :
  avoiding p i r m -> avoiding p r j f -> avoiding p i j (try_finally m f).
Proof.
  intros Hm Hf w Hi. unfold try_finally. destruct (Hm w Hi) as (Hr & l & Hl & Hc).
  destruct (m w) as [res w']; cbn [snd] in *.
  destruct (Hf w' Hr) as (Hj & l' & Hl' & Hc').
  assert (Hend : holds j (snd (f w')) /\
                 exists l0, trace (snd (f w')) = trace w ++ l0 /\ count_calls p l0 = 0%nat).
  { split; [exact Hj|]. exists (l ++ l'). rewrite Hl', Hl, count_calls_app, Hc, Hc'.
    split; [symmetry; apply app_assoc|reflexivity]. }
  destruct (f w') as [[u|e] w'']; exact Hend.
Qed.

Lemma avoiding_for_each {A} i (xs : list A) (body : A -> M unit) :
  (forall x, avoiding p i i (body x)) -> avoiding p i i (for_each xs body).
Proof.
  intros Hbody. induction xs as [|x xs IH]; cbn [for_each].
  - apply avoiding_ret, weaker_refl.
  - apply (avoiding_bind i i i); [apply Hbody|apply weaker_refl|intros _; exact IH].
Qed.

Lemma avoiding_firstExisting i files :
  (forall file, p (FsExistsSync file) = false) ->
  avoiding p i i (firstExisting env files).
Proof.
  intros Hp. induction files as [|file files IH]; cbn [firstExisting].
  - apply avoiding_ret, weaker_refl.
  - apply (avoiding_bind i i i); [apply avoiding_perform; [apply Hp|apply weaker_refl]
                                 |apply weaker_refl|].
    intros [|]; [apply avoiding_ret, weaker_refl|exact IH].
Qed.

(** Weakening of the final knowledge. *)
Lemma avoiding_weaken {A} i j (m : M A) : avoiding p i j m -> avoiding p i AnyExpiry m.
Proof. intros H w Hi. destruct (H w Hi) as (_ & Hl). split; [exact I|exact Hl]. Qed.

End Avoiding.

(** One step of a proof of [avoiding p i j m], by the shape of [m]; the
    knowledge [i] is carried through unchanged. *)
Ltac avoid_side :=
  first [ apply weaker_refl | apply weaker_any | reflexivity ].

Ltac avoid_step :=
  lazymatch goal with
  | |- avoiding ?p ?i ?j (bind _ _) => apply (avoiding_bind p i i j); [|avoid_side|intros ?]
  | |- avoiding ?p ?i ?j (try_catch _ _) =>
      apply (avoiding_try_catch p i i j); [|avoid_side|intros ?]
  | |- avoiding ?p ?i ?j (try_finally _ _) => apply (avoiding_try_finally p i i j)
  | |- avoiding _ _ _ (perform ?e ?c) => apply (avoiding_perform e); avoid_side
  | |- avoiding _ _ _ (ret _) => apply avoiding_ret; avoid_side
  | |- avoiding _ _ _ (throw _) => apply avoiding_throw; avoid_side
  | |- avoiding _ _ _ (lift _) => apply avoiding_lift; avoid_side
  | |- avoiding _ _ _ (print _) => apply avoiding_print; avoid_side
  | |- avoiding _ _ _ (console_log _) => apply avoiding_print; avoid_side
  | |- avoiding _ _ _ (console_error _) => apply avoiding_print; avoid_side
  | |- avoiding _ _ _ (spinner_text _) => apply avoiding_print; avoid_side
  | |- avoiding _ _ _ (spinner_start _) => apply avoiding_spinner_start; avoid_side
  | |- avoiding _ _ _ (spinner_succeed _) => apply avoiding_spinner_succeed; avoid_side
  | |- avoiding _ _ _ (spinner_fail _) => apply avoiding_spinner_fail; avoid_side
  | |- avoiding _ _ _ (spinner_info _) => apply avoiding_spinner_info; avoid_side
  | |- avoiding _ _ _ spinner_stop_if_spinning => apply avoiding_spinner_stop; avoid_side
  | |- avoiding _ _ _ (Date_now _) => apply avoiding_Date_now; avoid_side
  | |- avoiding _ _ _ get_tokenExpiry => apply avoiding_get_tokenExpiry; avoid_side
  | |- avoiding _ _ AnyExpiry (put_tokenExpiry _) => apply avoiding_put_tokenExpiry
  | |- avoiding _ _ _ (for_each _ _) => apply avoiding_for_each; intros ?
  | |- avoiding _ _ _ (firstExisting _ _) => apply avoiding_firstExisting; intros ?; reflexivity
  | |- avoiding _ _ _ (if ?b then _ else _) => destruct b
  | |- avoiding _ _ _ (match ?x with Some _ => _ | None => _ end) => destruct x
  | |- avoiding _ _ _ (match ?x with Continue => _ | Return _ => _ end) => destruct x
  | |- avoiding _ _ _ (let (_, _) := ?x in _) => destruct x
  | |- avoiding _ _ _ ?m => let h := head_of m in unfold h
  end.

(** X10. A push in schema-only mode never touches the repository and
    never asks for a git token, whatever the environment answers: no
    git call other than reading the remotes (no status either) and no
    token request is made. *)
Theorem schema_only_push_leaves_the_repository env options w :
  schemaOnly options = true ->
  exists l,
    trace (snd (pushCommand env options w)) = trace w ++ l /\
    count_calls is_code_step l = 0%nat.
Proof.
  intros Hmode.
  cut (avoiding is_code_step AnyExpiry AnyExpiry (pushCommand env options)).
  { intros H. exact (proj2 (H w I)). }
  destruct options as [message directory only_schema only_code].
  cbn [schemaOnly] in Hmode. subst only_schema.
  repeat (cbn [schemaOnly codeOnly]; avoid_step).
Qed.

(** X11. A push in code-only mode never reads a schema file and never
    transmits a schema. *)
Theorem code_only_push_leaves_the_schema env options w :
  codeOnly options = true ->
  exists l,
    trace (snd (pushCommand env options w)) = trace w ++ l /\
    count_calls is_schema_transfer l = 0%nat.
Proof.
  intros Hmode.
  cut (avoiding is_schema_transfer AnyExpiry AnyExpiry (pushCommand env options)).
  { intros H. exact (proj2 (H w I)). }
  destruct options as [message directory only_schema only_code].
  cbn [codeOnly] in Hmode. subst only_code.
  repeat (cbn [schemaOnly codeOnly negb]; rewrite ?andb_false_r; avoid_step).
Qed.

(** A token of the declared shape is not applied: the destructuring
    throws. *)
Lemma wp_applyCredentials_declared env info w (Q : Result unit -> World -> Prop) :
  declared_shape info ->
  Q (Throw (TypeError destructure_message)) w ->
  wp (applyCredentials env (IssuedCredentials info)) w Q.
Proof.
  intros Hshape HQ. unfold wp.
  rewrite (issued_credentials_are_not_applied env info w Hshape). exact HQ.
Qed.

(** With no expiry recorded and a service that issues tokens of the
    declared shape, the credential step never gets past
    [applyCredentials]: the token is requested, and whatever the service
    answers, what follows the step is not run. *)
Lemma no_token_stops_at_credentials env p j projectId (k : Credentials -> M (option bool)) :
  issues_declared_shape env ->
  p (ApiGetGitToken projectId) = false ->
  avoiding p NoExpiry j
    (gitCredentials <- getGitCredentials env projectId true true ;;
     match gitCredentials with
     | None => ret None
     | Some credentials => applyCredentials env credentials ;; k credentials
     end).
Proof.
  intros Hshape Hp w Hnone. cbn [holds] in Hnone.
  cut (tokenExpiry
         (snd ((gitCredentials <- getGitCredentials env projectId true true ;;
                match gitCredentials with
                | None => ret None
                | Some credentials => applyCredentials env credentials ;; k credentials
                end) w)) = None /\
       exists l,
         trace
           (snd ((gitCredentials <- getGitCredentials env projectId true true ;;
                  match gitCredentials with
                  | None => ret None
                  | Some credentials => applyCredentials env credentials ;; k credentials
                  end) w)) = trace w ++ l /\
         count_calls p l = 0%nat).
  { intros [Hend Hl]. split; [destruct j; [exact I|exact Hend]|exact Hl]. }
  change (wp (gitCredentials <- getGitCredentials env projectId true true ;;
              match gitCredentials with
              | None => ret None
              | Some credentials => applyCredentials env credentials ;; k credentials
              end) w
            (fun _ w' =>
               tokenExpiry w' = None /\
               exists l, trace w' = trace w ++ l /\ count_calls p l = 0%nat)).
  repeat (lazymatch goal with
          | |- wp (applyCredentials _ (IssuedCredentials _)) _ _ =>
              apply wp_applyCredentials_declared;
              [ eapply Hshape; eassumption | cbn beta iota ]
          | |- _ => wp_step env
          end; rewrite ?Hnone);
    (split; [exact Hnone|]);
    (eexists; split; [norm_trace; reflexivity|]); cbn [count_calls]; rewrite ?Hp; reflexivity.
Qed.

Lemma checkAuthentication_returns env w : exists b, fst (checkAuthentication env w) = Ok b.
Proof.
  change (wp (checkAuthentication env) w (fun r _ => exists b, r = Ok b)).
  repeat wp_step env; eexists; reflexivity.
Qed.

Lemma withErrorHandling_returns {T} (fn : M (option T)) errorMessage text w :
  exists r, fst (withErrorHandling fn errorMessage text w) = Ok r.
Proof.
  unfold withErrorHandling, bind, try_finally, try_catch, spinner_start.
  destruct (fn _) as [[v|e] w1]; cbn.
  - unfold spinner_stop_if_spinning. destruct (isSpinning w1); eexists; reflexivity.
  - destruct (truthy_string (exn_response_data e)); eexists; reflexivity.
Qed.

(** X12. With a service whose tokens have the declared shape (the
    [git_info] object carries neither a [reused] nor a [git_info]
    property), no push reaches the repository.  Every [push] creates its
    client afresh ([verifyGitRepository]), so no expiry is recorded when
    the credential step is entered; a token is requested, and the
    destructuring of its absent [git_info] property throws.  From every
    starting state and whatever else the environment answers, the
    command returns without throwing and makes no git call other than
    reading the remotes: no status, add, commit or push, and no change
    of the remote. *)
Theorem declared_token_push_never_reaches_the_repository env options w :
  issues_declared_shape env ->
  exists w' l,
    pushCommand env options w = (Ok tt, w') /\
    trace w' = trace w ++ l /\
    count_calls is_repository_call l = 0%nat.
Proof.
  intros Hshape.
  assert (Hquiet : avoiding is_repository_call AnyExpiry AnyExpiry (pushCommand env options))
    by (repeat lazymatch goal with
             | |- avoiding ?p AnyExpiry ?j (bind (verifyGitRepository _ _) _) =>
                 apply (avoiding_bind p AnyExpiry NoExpiry j);
                 [ unfold verifyGitRepository;
                   apply (avoiding_bind p AnyExpiry NoExpiry NoExpiry);
                   [ apply avoiding_new_GitClient | apply weaker_refl | intros ? ]
                 | avoid_side
                 | intros ? ]
             | |- avoiding _ NoExpiry _ (bind (getGitCredentials _ _ true true) _) =>
                 apply no_token_stops_at_credentials; [exact Hshape|reflexivity]
             | |- _ => avoid_step
             end).
  destruct (Hquiet w I) as (_ & l & Hl & Hc).
  exists (snd (pushCommand env options w)), l. split; [|split; assumption].
  rewrite (run_pair (pushCommand env options) w) at 1. f_equal.
  unfold pushCommand, bind.
  destruct (checkAuthentication_returns env w) as (b & Hb).
  destruct (checkAuthentication env w) as [r w1]. cbn [fst] in Hb. subst r.
  destruct (negb b); [reflexivity|].
  destruct (withErrorHandling_returns (pushBody env options)
              "Push failed" "Preparing to push changes..." w1) as (r & Hr).
  destruct (withErrorHandling _ _ _ w1) as [r' w2]. cbn [fst] in Hr. subst r'. reflexivity.
Qed.

(** X13. With a service whose tokens have the declared shape, no pull
    changes the working copy, for the same reason: the command reads
    the status and the remotes, and from every starting state and
    whatever else the environment answers it returns without throwing
    and without [git pull] or any other changing git call. *)
Theorem declared_token_pull_never_changes_the_working_copy env options w :
  issues_declared_shape env ->
  exists w' l,
    pullCommand env options w = (Ok tt, w') /\
    trace w' = trace w ++ l /\
    count_calls is_git_write l = 0%nat.
Proof.
  intros Hshape.
  assert (Hquiet : avoiding is_git_write AnyExpiry AnyExpiry (pullCommand env options))
    by (repeat lazymatch goal with
             | |- avoiding ?p AnyExpiry ?j (bind (verifyGitRepository _ _) _) =>
                 apply (avoiding_bind p AnyExpiry NoExpiry j);
                 [ unfold verifyGitRepository;
                   apply (avoiding_bind p AnyExpiry NoExpiry NoExpiry);
                   [ apply avoiding_new_GitClient | apply weaker_refl | intros ? ]
                 | avoid_side
                 | intros ? ]
             | |- avoiding _ NoExpiry _ (bind (getGitCredentials _ _ true true) _) =>
                 apply no_token_stops_at_credentials; [exact Hshape|reflexivity]
             | |- _ => avoid_step
             end).
  destruct (Hquiet w I) as (_ & l & Hl & Hc).
  exists (snd (pullCommand env options w)), l. split; [|split; assumption].
  rewrite (run_pair (pullCommand env options) w) at 1. f_equal.
  unfold pullCommand, bind.
  destruct (checkAuthentication_returns env w) as (b & Hb).
  destruct (checkAuthentication env w) as [r w1]. cbn [fst] in Hb. subst r.
  destruct (negb b); [reflexivity|].
  destruct (withErrorHandling_returns (pullBody env options)
              "Pull failed" "Preparing to pull changes..." w1) as (r & Hr).
  destruct (withErrorHandling _ _ _ w1) as [r' w2]. cbn [fst] in Hr. subst r'. reflexivity.
Qed.

(** X14. A forced pull never asks for confirmation. *)
Theorem forced_pull_never_prompts env options w :
  force options = true ->
  exists l,
    trace (snd (pullCommand env options w)) = trace w ++ l /\
    count_calls is_prompt l = 0%nat.
Proof.
  intros Hmode.
  cut (avoiding is_prompt AnyExpiry AnyExpiry (pullCommand env options)).
  { intros H. exact (proj2 (H w I)). }
  destruct options as [directory forced].
  cbn [force] in Hmode. subst forced.
  repeat (cbn [force negb]; rewrite ?andb_false_r; avoid_step).
Qed.

(* ================================================================== *)
(** ** The helpers of the commands *)
(* ================================================================== *)

Lemma find_first_none_iff {A} (f : A -> bool) (xs : list A) :
  find_first f xs = None <-> forall x, In x xs -> f x = false.
Proof.
  unfold find_first. induction xs as [|z xs IH]; cbn [find].
  - split; [intros _ x []|reflexivity].
  - destruct (f z) eqn:Hz.
    + split; [discriminate|]. intros H. rewrite (H z (or_introl eq_refl)) in Hz. discriminate Hz.
    + rewrite IH. split.
      * intros H x [<-|Hin]; [exact Hz|exact (H x Hin)].
      * intros H x Hin. apply H. right. exact Hin.
Qed.

Lemma find_first_listed {A} (f : A -> bool) (xs : list A) (x : A) :
  find_first f xs = Some x -> In x xs /\ f x = true.
Proof. apply find_some. Qed.

(** X15. A project that resolution selects is one of the listing, and
    one of the three tests accepted it: its [id] is the derived name and
    that name has the id shape, or the remote URL is non-empty and the
    URL test accepts the project, or its name equals the derived name
    up to case. *)
Theorem selectProject_result_is_listed env projects projectName remoteUrl p :
  selectProject env projects projectName remoteUrl = Some p ->
  In p projects /\
  ((Js.matchesIdPattern projectName = true /\ project_id p = projectName) \/
   (exists url, remoteUrl = Some url /\ url <> EmptyString /\ matchesRemote url p = true) \/
   toLowerCase env (project_name p) = toLowerCase env projectName).
Proof.
  rewrite selectProject_first_match.
  destruct (Js.matchesIdPattern projectName) eqn:Hshape.
  1: destruct (find_first (fun q => String.eqb (project_id q) projectName) projects)
       as [q|] eqn:Hid.
  1: { intros H. injection H as ->. apply find_first_listed in Hid.
       destruct Hid as [Hin Heq]. apply String.eqb_eq in Heq. auto. }
  all: destruct remoteUrl as [url|];
    [ destruct (truthy_string (Some url)) eqn:Htruthy;
      [ destruct (find_first (matchesRemote url) projects) as [q|] eqn:Hurl | ] | ].
  all: intros H.
  all: try (injection H as ->; apply find_first_listed in Hurl; destruct Hurl as [Hin Hacc];
            split; [exact Hin|]; right; left; exists url;
            split; [reflexivity|]; split; [|exact Hacc];
            intros ->; discriminate Htruthy).
  all: apply find_first_listed in H; destruct H as [Hin Heq]; apply String.eqb_eq in Heq; auto.
Qed.

(** X16. Resolution finds no project exactly when no listed project
    passes any of the three tests. *)
Theorem selectProject_none_iff env projects projectName remoteUrl :
  selectProject env projects projectName remoteUrl = None <->
  forall p,
    In p projects ->
    (Js.matchesIdPattern projectName = true -> project_id p <> projectName) /\
    (forall url, remoteUrl = Some url -> url <> EmptyString -> matchesRemote url p = false) /\
    toLowerCase env (project_name p) <> toLowerCase env projectName.
Proof.
  rewrite selectProject_first_match. split.
  - intros H p Hin.
    assert (Hname : find_first
                      (fun q => String.eqb (toLowerCase env (project_name q))
                                  (toLowerCase env projectName)) projects = None).
    { destruct (if Js.matchesIdPattern projectName then _ else _); [discriminate H|].
      destruct (match remoteUrl with Some _ => _ | None => _ end); [discriminate H|exact H]. }
    split; [|split].
    + intros Hshape. rewrite Hshape in H.
      destruct (find_first _ projects) as [q|] eqn:Hid in H; [discriminate H|].
      apply (proj1 (find_first_none_iff _ _)) with (x := p) in Hid; [|exact Hin].
      apply String.eqb_neq. exact Hid.
    + intros url -> Hne.
      destruct (if Js.matchesIdPattern projectName then _ else _); [discriminate H|].
      assert (Htruthy : truthy_string (Some url) = true).
      { cbn. destruct (String.eqb_spec url EmptyString); [contradiction|reflexivity]. }
      rewrite Htruthy in H.
      destruct (find_first (matchesRemote url) projects) as [q|] eqn:Hurl; [discriminate H|].
      exact (proj1 (find_first_none_iff _ _) Hurl p Hin).
    + apply String.eqb_neq. exact (proj1 (find_first_none_iff _ _) Hname p Hin).
  - intros H.
    assert (Hid : (if Js.matchesIdPattern projectName
                   then find_first (fun q => String.eqb (project_id q) projectName) projects
                   else None) = None).
    { destruct (Js.matchesIdPattern projectName) eqn:Hshape; [|reflexivity].
      apply find_first_none_iff. intros p Hin. apply String.eqb_neq.
      exact (proj1 (H p Hin) eq_refl). }
    rewrite Hid.
    assert (Hurl : match remoteUrl with
                   | Some url =>
                       if truthy_string remoteUrl
                       then find_first (matchesRemote url) projects
                       else None
                   | None => None
                   end = None).
    { destruct remoteUrl as [url|]; [|reflexivity].
      destruct (truthy_string (Some url)) eqn:Htruthy; [|reflexivity].
      apply find_first_none_iff. intros p Hin.
      apply (proj1 (proj2 (H p Hin)) url eq_refl).
      intros ->. discriminate Htruthy. }
    rewrite Hurl.
    apply find_first_none_iff. intros p Hin. apply String.eqb_neq.
    exact (proj2 (proj2 (H p Hin))).
Qed.

Lemma trace_logged_lines {A} (line : A -> string) (xs : list A) w :
  trace (logged_lines line xs w)
  = trace w ++ map (fun x => Printed (ConsoleLog (line x))) xs.
Proof.
  unfold logged_lines. revert w. induction xs as [|x xs IH]; intros w; cbn [fold_left map].
  - symmetry. apply app_nil_r.
  - rewrite IH. cbn [trace log_event]. rewrite <- app_assoc. reflexivity.
Qed.

Lemma calls_of_app l1 l2 : calls_of (l1 ++ l2) = calls_of l1 ++ calls_of l2.
Proof. induction l1 as [|[c t|o] l1 IH]; cbn; [reflexivity|f_equal; exact IH|exact IH]. Qed.

Lemma calls_of_printed {A} (line : A -> Output) (xs : list A) :
  calls_of (map (fun x => Printed (line x)) xs) = [].
Proof. induction xs as [|x xs IH]; [reflexivity|exact IH]. Qed.

(** X17. [findProject] never throws and asks for the listing exactly
    once.  When the request fails it resolves to [null] and prints the
    error's message.  When the listing arrives it resolves to what the
    three tests select; if that is nothing and a spinner was given, the
    failure is shown and every listed project is printed, in the order
    of the listing; without a spinner nothing at all is printed. *)
Theorem findProject_reports env projectName remoteUrl spinner w :
  exists r w' l,
    findProject env projectName remoteUrl spinner w = (Ok r, w') /\
    trace w' = trace w ++ l /\
    calls_of l = [ApiGetProjects] /\
    (forall e,
       oracle env (listing_trace spinner w) ApiGetProjects = Throw e ->
       r = None /\ In (Printed (ConsoleError (exn_message e))) l) /\
    (forall projects,
       oracle env (listing_trace spinner w) ApiGetProjects = Ok projects ->
       r = selectProject env projects projectName remoteUrl /\
       (r = None ->
        l = (if spinner then [Printed (SpinnerText "Fetching projects...")] else [])
            ++ Called ApiGetProjects None
            :: (if spinner
                then Printed (SpinnerFail ("Could not identify the project "
                                           ++ dquote ++ projectName ++ dquote))
                     :: Printed (ConsoleLog "Available projects:")
                     :: candidate_lines projects
                else []))).
Proof.
  apply (wp_returns _ _
           (fun r _ l =>
              calls_of l = [ApiGetProjects] /\
              (forall e,
                 oracle env (listing_trace spinner w) ApiGetProjects = Throw e ->
                 r = None /\ In (Printed (ConsoleError (exn_message e))) l) /\
              (forall projects,
                 oracle env (listing_trace spinner w) ApiGetProjects = Ok projects ->
                 r = selectProject env projects projectName remoteUrl /\
                 (r = None ->
                  l = (if spinner then [Printed (SpinnerText "Fetching projects...")] else [])
                      ++ Called ApiGetProjects None
                      :: (if spinner
                          then Printed (SpinnerFail ("Could not identify the project "
                                                     ++ dquote ++ projectName ++ dquote))
                               :: Printed (ConsoleLog "Available projects:")
                               :: candidate_lines projects
                          else []))))).
  unfold findProject, listing_trace.
  destruct spinner; rewrite ?app_nil_r;
    repeat lazymatch goal with
           | |- wp (for_each _ _) _ _ => apply wp_for_each_console_log; cbn beta iota
           | |- _ => wp_step env
           end;
    (eexists; eexists; split; [reflexivity|]);
    (split; [rewrite ?trace_logged_lines; norm_trace; reflexivity|]);
    (split; [cbn [calls_of];
             rewrite ?(calls_of_printed (fun x => ConsoleLog (describeProject x)));
             reflexivity|]);
    (split; [intros e' He'; agree; (split; [reflexivity|cbn [In]; solve [find_member]])|]);
    intros projects Hprojects; agree;
    (split; [congruence|]);
    intros Hnone;
    first [ reflexivity
          | match goal with
            | Hb : match selectProject _ _ _ _ with Some _ => _ | None => _ end = _ |- _ =>
                rewrite Hnone in Hb; discriminate Hb
            end ].
Qed.

(** The last piece of a path that ends in [/folder]. *)
Lemma split_go_last_piece parent folder :
  Js.includes "/" folder = false ->
  forall cur,
  exists pieces, Js.split_go "/" 0 cur (parent ++ String "/" folder) = pieces ++ [folder].
Proof.
  intros Hno. induction parent as [|c parent IH]; intros cur.
  - exists [cur]. cbn [append Js.split_go].
    replace (String.prefix "/" (String "/" folder)) with true
      by (cbn; destruct folder; reflexivity).
    cbn [String.length Nat.sub].
    rewrite (split_go_without_separator _ _ _ Hno). reflexivity.
  - cbn [append Js.split_go].
    destruct (String.prefix "/" (String c (parent ++ String "/" folder))).
    + cbn [String.length Nat.sub]. destruct (IH EmptyString) as (pieces & Hp).
      exists (cur :: pieces). rewrite Hp. reflexivity.
    + destruct (IH (cur ++ String c EmptyString)%string) as (pieces & Hp).
      exists pieces. exact Hp.
Qed.

Lemma basename_path_join parent folder :
  folder <> EmptyString ->
  Js.includes "/" folder = false ->
  Js.basename (Js.path_join parent folder) = folder.
Proof.
  intros Hne Hno. unfold Js.basename, Js.path_join, Js.split.
  change (parent ++ "/" ++ folder)%string with (parent ++ String "/" folder)%string.
  destruct (split_go_last_piece parent folder Hno EmptyString) as (pieces & ->).
  rewrite filter_app. cbn [filter].
  destruct (String.eqb_spec folder EmptyString) as [|_]; [contradiction|].
  cbn [negb]. apply last_last.
Qed.

(** X18. [getProjectIdentifiers] never throws and makes one call, the
    listing of the remotes.  For a project directory [parent/folder] the
    derived name is the folder name, less one leading [project-].  The
    remote URL is the fetch URL of the remote named [origin]; it is the
    empty text when listing the remotes fails, when no remote is named
    [origin], or when that remote has no fetch URL. *)
Theorem getProjectIdentifiers_derives env projectDir spinner w :
  exists projectName remoteUrl w' l,
    getProjectIdentifiers env projectDir spinner w = (Ok (projectName, remoteUrl), w') /\
    trace w' = trace w ++ l /\
    calls_of l = [GitGetRemotes true] /\
    (forall parent folder,
       projectDir = Js.path_join parent folder ->
       folder <> EmptyString ->
       Js.includes "/" folder = false ->
       projectName = derived_name folder) /\
    (remoteUrl <> EmptyString ->
     exists remotes origin,
       oracle env (trace w) (GitGetRemotes true) = Ok remotes /\
       find_first (fun remote => String.eqb (remote_name remote) "origin") remotes
       = Some origin /\
       remote_fetch origin = Some remoteUrl).
Proof.
  cut (exists ids w' l,
         getProjectIdentifiers env projectDir spinner w = (Ok ids, w') /\
         trace w' = trace w ++ l /\
         calls_of l = [GitGetRemotes true] /\
         (forall parent folder,
            projectDir = Js.path_join parent folder ->
            folder <> EmptyString ->
            Js.includes "/" folder = false ->
            fst ids = derived_name folder) /\
         (snd ids <> EmptyString ->
          exists remotes origin,
            oracle env (trace w) (GitGetRemotes true) = Ok remotes /\
            find_first (fun remote => String.eqb (remote_name remote) "origin") remotes
            = Some origin /\
            remote_fetch origin = Some (snd ids))).
  { intros ([projectName remoteUrl] & w' & l & H). exists projectName, remoteUrl, w', l. exact H. }
  apply (wp_returns _ _
           (fun ids _ l =>
              calls_of l = [GitGetRemotes true] /\
              (forall parent folder,
                 projectDir = Js.path_join parent folder ->
                 folder <> EmptyString ->
                 Js.includes "/" folder = false ->
                 fst ids = derived_name folder) /\
              (snd ids <> EmptyString ->
               exists remotes origin,
                 oracle env (trace w) (GitGetRemotes true) = Ok remotes /\
                 find_first (fun remote => String.eqb (remote_name remote) "origin") remotes
                 = Some origin /\
                 remote_fetch origin = Some (snd ids)))).
  repeat wp_step env; conclude;
    (split; [reflexivity|]);
    (split;
     [ intros parent folder -> Hne Hno; cbn [fst];
       rewrite (basename_path_join parent folder Hne Hno); reflexivity
     | cbn [snd]; intros Hurl;
       first [ contradiction Hurl; reflexivity
             | eexists; eexists; split; [eassumption|]; split; [eassumption|];
               match goal with
               | |- remote_fetch ?r = _ => destruct (remote_fetch r); [reflexivity|discriminate]
               end ]]).
Qed.

Lemma firstExisting_probes_in_order env files w path w' :
  firstExisting env files w = (Ok path, w') ->
  exists l,
    trace w' = trace w ++ l /\
    ((path = EmptyString /\ calls_of l = map FsExistsSync files) \/
     (exists earlier later,
        files = earlier ++ path :: later /\
        calls_of l = map FsExistsSync (earlier ++ [path]))).
Proof.
  revert w. induction files as [|file files IH]; intros w; cbn [firstExisting].
  - intros H. injection H as <- <-. exists []. rewrite app_nil_r. auto.
  - unfold bind at 1. unfold perform at 1.
    destruct (oracle env (trace w) (FsExistsSync file)) as [[|]|e]; cbn [thrown_by].
    + intros H. injection H as <- <-. eexists. split; [reflexivity|].
      right. exists [], files. split; reflexivity.
    + intros H. destruct (IH _ H) as (l & Hl & Hcases).
      exists (Called (FsExistsSync file) None :: l). split; [rewrite Hl; norm_trace; reflexivity|].
      cbn [calls_of map]. destruct Hcases as [[-> ->]|(earlier & later & -> & ->)].
      * left. split; reflexivity.
      * right. exists (file :: earlier), later. split; reflexivity.
    + discriminate.
Qed.

(** X19. [findSchemaFile] probes the six candidate paths in their
    priority order and stops at the first that exists: when it returns
    a path, the probes made are exactly the candidates up to and
    including that path; when it returns the empty text, all six were
    probed. *)
Theorem findSchemaFile_probes_in_order env projectDir w path w' :
  findSchemaFile env projectDir w = (Ok path, w') ->
  exists l,
    trace w' = trace w ++ l /\
    ((path = EmptyString /\ calls_of l = map FsExistsSync (schemaFiles projectDir)) \/
     (exists earlier later,
        schemaFiles projectDir = earlier ++ path :: later /\
        calls_of l = map FsExistsSync (earlier ++ [path]))).
Proof. apply firstExisting_probes_in_order. Qed.

(** X20. [withErrorHandling] never throws and never leaves the spinner
    spinning.  It returns what the function returns; when the function
    throws it returns [null] after showing the given failure message
    and the error's message, followed by the response data when the
    error carries some. *)
Theorem withErrorHandling_contains_failures {T} (fn : M (option T))
    errorMessage initialSpinnerText w :
  exists r w',
    withErrorHandling fn errorMessage initialSpinnerText w = (Ok r, w') /\
    isSpinning w' = false /\
    (forall v w1,
       fn (spinner_started initialSpinnerText w) = (Ok v, w1) ->
       r = v /\
       trace w' = trace w1 ++ (if isSpinning w1 then [Printed SpinnerStop] else [])) /\
    (forall e w1,
       fn (spinner_started initialSpinnerText w) = (Throw e, w1) ->
       r = None /\
       trace w'
       = trace w1
         ++ Printed (SpinnerFail errorMessage)
         :: Printed (ConsoleError (exn_message e))
         :: match exn_response_data e with
            | Some data =>
                if String.eqb data EmptyString then []
                else [Printed (ConsoleError ("API Error: " ++ data))]
            | None => []
            end).
Proof.
  unfold withErrorHandling, bind, try_finally, try_catch, spinner_start, spinner_started.
  destruct (fn _) as [[v|e] w1]; cbn.
  - unfold spinner_stop_if_spinning. destruct (isSpinning w1) eqn:Hspin.
    + eexists; eexists. split; [reflexivity|]. split; [reflexivity|]. split.
      * intros v' w1' H. injection H as <- <-. rewrite Hspin. split; reflexivity.
      * intros e w1' H. discriminate H.
    + eexists; eexists. split; [reflexivity|]. split; [exact Hspin|]. split.
      * intros v' w1' H. injection H as <- <-. rewrite Hspin, app_nil_r. split; reflexivity.
      * intros e w1' H. discriminate H.
  - destruct (exn_response_data e) as [data|] eqn:Hdata; cbn;
      [destruct (String.eqb data EmptyString) eqn:Hempty; cbn|];
      (eexists; eexists; split; [reflexivity|]; split; [reflexivity|]; split;
       [ intros v' w1' H; discriminate H
       | intros e' w1' H; injection H as <- <-; rewrite Hdata, ?Hempty; split;
         [reflexivity|cbn; rewrite <- ?app_assoc; reflexivity] ]).
Qed.

(** X21. [checkAuthentication] never throws and reads the keychain
    entry of the CLI once.  It answers [true] exactly when the keychain
    returned a non-empty token; otherwise (no entry, an empty one, or a
    keychain that fails) it tells the user to log in. *)
Theorem checkAuthentication_reads_the_keychain env w :
  exists b w' l,
    checkAuthentication env w = (Ok b, w') /\
    trace w' = trace w ++ l /\
    calls_of l = [KeytarGetPassword "ongoku-cli" "default"] /\
    (b = true <->
     exists token,
       token <> EmptyString /\
       oracle env (trace w) (KeytarGetPassword "ongoku-cli" "default") = Ok (Some token)) /\
    (b = false ->
     In (Printed (ConsoleLog "You are not logged in. Please run `ongoku login` first.")) l).
Proof.
  apply (wp_returns _ _
           (fun b _ l =>
              calls_of l = [KeytarGetPassword "ongoku-cli" "default"] /\
              (b = true <->
               exists token,
                 token <> EmptyString /\
                 oracle env (trace w) (KeytarGetPassword "ongoku-cli" "default")
                 = Ok (Some token)) /\
              (b = false ->
               In (Printed
                     (ConsoleLog "You are not logged in. Please run `ongoku login` first.")) l))).
  repeat wp_step env; conclude;
    (split; [reflexivity|]);
    unfold SERVICE_NAME, ACCOUNT_NAME in *.
  - split; [split|intros _; cbn [In]; solve [find_member]].
    + intros Hb. discriminate Hb.
    + intros (token & Hne & Htoken). rewrite Htoken in H. injection H as <-.
      cbn in Heqb. destruct (String.eqb_spec token EmptyString); [contradiction|discriminate Heqb].
  - split; [split|intros Hb; discriminate Hb].
    + intros _. destruct a as [token|]; [|discriminate Heqb].
      exists token. split; [intros ->; discriminate Heqb|exact H].
    + intros _. reflexivity.
  - split; [split|intros _; cbn [In]; solve [find_member]].
    + intros Hb. discriminate Hb.
    + intros (token & Hne & Htoken). rewrite Htoken in H. discriminate H.
Qed.

(** X22. Logged out, [push] and [pull] stop after the keychain read:
    the run of the command is the run of [checkAuthentication]. *)
Theorem commands_stop_when_logged_out env w w1 :
  checkAuthentication env w = (Ok false, w1) ->
  (forall options, pushCommand env options w = (Ok tt, w1)) /\
  (forall options, pullCommand env options w = (Ok tt, w1)).
Proof.
  intros Hout. split; intros options; [unfold pushCommand|unfold pullCommand];
    unfold bind at 1; rewrite Hout; reflexivity.
Qed.

Lemma isTokenValid_reads env w : exists b, isTokenValid env w = (Ok b, w).
Proof.
  unfold isTokenValid, bind, get_tokenExpiry, Date_now, ret.
  destruct (negb (truthy_number (tokenExpiry w))); [eexists; reflexivity|].
  destruct (tokenExpiry w); eexists; reflexivity.
Qed.

(** X23. [getGitCredentials] never throws and leaves the recorded
    expiry alone.  It answers with the reuse marker exactly when a
    client was passed and its token is still valid, and then makes no
    call at all; in every other case it asks the service for a token
    exactly once, and it hands out the [git_info] of the response only
    if that request went through. *)
Theorem getGitCredentials_reuses_or_requests env projectId spinner git w :
  exists r w' l,
    getGitCredentials env projectId spinner git w = (Ok r, w') /\
    trace w' = trace w ++ l /\
    tokenExpiry w' = tokenExpiry w /\
    (r = Some ReusedCredentials <-> git = true /\ fst (isTokenValid env w) = Ok true) /\
    (r = Some ReusedCredentials -> calls_of l = []) /\
    (r <> Some ReusedCredentials -> calls_of l = [ApiGetGitToken projectId]) /\
    (forall info,
       r = Some (IssuedCredentials info) -> In (Called (ApiGetGitToken projectId) None) l).
Proof.
  destruct (isTokenValid_reads env w) as (valid & Hvalid).
  assert (Hrun : forall b,
             (if git then isTokenValid env else ret false) w = (Ok b, w) ->
             (b = true <-> git = true /\ fst (isTokenValid env w) = Ok true)).
  { intros b. destruct git.
    - rewrite Hvalid. intros H. injection H as <-. cbn [fst]. split.
      + intros ->. split; reflexivity.
      + intros [_ H]. injection H as ->. reflexivity.
    - intros H. injection H as <-. split; [discriminate|intros [H _]; discriminate H]. }
  assert (Hstep : exists b, (if git then isTokenValid env else ret false) w = (Ok b, w)).
  { destruct git; [exact (isTokenValid_reads env w)|exists false; reflexivity]. }
  destruct Hstep as (b & Hb). specialize (Hrun b Hb).
  unfold getGitCredentials, try_catch. unfold bind at 1. rewrite Hb.
  destruct b.
  - destruct spinner; (eexists; eexists; eexists; split; [reflexivity|]);
      (split; [first [norm_trace; reflexivity | symmetry; apply app_nil_r]|]); (split; [reflexivity|]);
      (split; [split; [intros _; apply Hrun; reflexivity|reflexivity]|]);
      (split; [reflexivity|]);
      (split; [intros Hne; contradiction Hne; reflexivity|intros info H; discriminate H]).
  - assert (Hnot : forall c, c = Some ReusedCredentials ->
                             git = true /\ fst (isTokenValid env w) = Ok true -> False).
    { intros c _ Hyes. apply Hrun in Hyes. discriminate Hyes. }
    clear Hrun Hb Hvalid.
    match goal with
    | |- exists r w' l, ?run = _ /\ _ =>
        cut (wp (fun _ : World => run) w
               (fun r w' =>
                  exists a l,
                    r = Ok a /\ trace w' = trace w ++ l /\
                    tokenExpiry w' = tokenExpiry w /\
                    a <> Some ReusedCredentials /\
                    calls_of l = [ApiGetGitToken projectId] /\
                    (forall info,
                       a = Some (IssuedCredentials info) ->
                       In (Called (ApiGetGitToken projectId) None) l)))
    end.
    { unfold wp. intros (a & l & Hr & Hl & He & Ha & Hc & Hi).
      match goal with
      | |- exists r w' l, ?run = _ /\ _ => destruct run as [r0 w0]
      end.
      cbn [fst snd] in *. subst r0. exists a, w0, l.
      split; [reflexivity|]. split; [exact Hl|]. split; [exact He|].
      split; [split; [intros ->; contradiction Ha; reflexivity
                     |intros Hyes; exfalso; exact (Hnot _ eq_refl Hyes)]|].
      split; [intros ->; contradiction Ha; reflexivity|]. split; [intros _; exact Hc|exact Hi]. }
    unfold wp. cbn beta.
    unfold bind, when, console_error, spinner_text, spinner_fail, print, perform, ret.
    destruct spinner; cbn [fst snd trace log_event];
      destruct (oracle env _ (ApiGetGitToken projectId)) as [[ok [info|]]|e];
      cbn [thrown_by success git_info fst snd]; try destruct ok; cbn [fst snd];
      (eexists; eexists; split; [reflexivity|]);
      (split; [first [norm_trace; reflexivity | symmetry; apply app_nil_r]|]); (split; [reflexivity|]);
      (split; [discriminate|]); (split; [reflexivity|]);
      intros info' Hinfo; first [ discriminate Hinfo | cbn [In]; solve [find_member] ].
Qed.

(* ================================================================== *)
(** ** [ApiClient.request] *)
(* ================================================================== *)

Lemma auth_getToken_returns env w :
  exists token w',
    auth_getToken env w = (Ok token, w') /\
    (forall t, token = Some t ->
       oracle env (trace w) (KeytarGetPassword "ongoku-cli" "default") = Ok (Some t) /\
       w' = log_event (Called (KeytarGetPassword "ongoku-cli" "default") None) w).
Proof.
  unfold auth_getToken, try_catch, perform, bind, print, ret, SERVICE_NAME, ACCOUNT_NAME.
  destruct (oracle env (trace w) (KeytarGetPassword "ongoku-cli" "default")) as [token|e];
    cbn [thrown_by].
  - exists token. eexists. split; [reflexivity|]. intros t ->. split; reflexivity.
  - exists None. eexists. split; [reflexivity|]. discriminate.
Qed.

Lemma obj_get_set {V} key (value : V) o : Api.obj_get key (Api.obj_set key value o) = Some value.
Proof.
  induction o as [|[k v] o IH]; cbn [Api.obj_set Api.obj_get].
  - rewrite String.eqb_refl. reflexivity.
  - destruct (String.eqb k key) eqn:Hk; cbn [Api.obj_get]; rewrite Hk; [reflexivity|exact IH].
Qed.

Lemma formatError_carries_no_response baseUrl toText error :
  exn_response_data (Api.formatError baseUrl toText error) = None.
Proof.
  unfold Api.formatError.
  destruct (Api.error_response error) as [[status data]|].
  - destruct (Z.eqb status 401); [reflexivity|].
    destruct data as [| |b|n|s|items|fields]; cbn [Api.error_property Api.truthy];
      try reflexivity.
    destruct (Api.obj_get "error" fields) as [message|]; [|reflexivity].
    destruct (Api.truthy message); reflexivity.
  - destruct (Api.error_request error); reflexivity.
Qed.

(** X24. Without a stored token, [request] refuses every endpoint
    outside [/auth] with the error that asks the user to log in, and
    the transport is not consulted: the outcome is the same for every
    transport. *)
Theorem request_requires_a_token env baseUrl axios toText endpoint method data headers w :
  Js.startsWith "/auth" endpoint = false ->
  (forall token,
     oracle env (trace w) (KeytarGetPassword "ongoku-cli" "default") = Ok (Some token) ->
     token = EmptyString) ->
  Api.request env baseUrl axios toText endpoint method data headers w
  = (Throw (Error "Authentication required. Please run `ongoku login` first."),
     snd (auth_getToken env w)).
Proof.
  intros Hendpoint Hnone. unfold Api.request. unfold bind at 1.
  destruct (auth_getToken_returns env w) as (token & w' & Hrun & Htoken).
  rewrite Hrun. cbn [snd]. rewrite Hendpoint.
  assert (Hfalsy : truthy_string token = false).
  { destruct token as [t|]; [|reflexivity].
    rewrite (Hnone t (proj1 (Htoken t eq_refl))). reflexivity. }
  rewrite Hfalsy. reflexivity.
Qed.

(** X25. With a stored token, [request] sends one request to
    [baseUrl + endpoint] whose [Authorization] header is [Bearer] and
    the token, whatever the additional headers say; it returns the body
    the transport resolves to and otherwise throws what the [catch]
    block makes of the transport's error. *)
Theorem request_sends_the_bearer_token env baseUrl axios toText endpoint method data headers
    w token :
  oracle env (trace w) (KeytarGetPassword "ongoku-cli" "default") = Ok (Some token) ->
  token <> EmptyString ->
  exists config w',
    w' = log_event (Called (KeytarGetPassword "ongoku-cli" "default") None) w /\
    Api.request env baseUrl axios toText endpoint method data headers w
    = (match axios (trace w') config with
       | inr body => Ok body
       | inl error => Throw (Api.formatError baseUrl toText error)
       end, w') /\
    Api.config_url config = (baseUrl ++ endpoint)%string /\
    Api.config_method config = method /\
    Api.obj_get "Authorization" (Api.config_headers config) = Some ("Bearer " ++ token)%string.
Proof.
  intros Hstored Hne.
  destruct (auth_getToken_returns env w) as (stored & w' & Hrun & Htoken).
  assert (Hsame : stored = Some token /\
                  w' = log_event (Called (KeytarGetPassword "ongoku-cli" "default") None) w).
  { revert Hrun. unfold auth_getToken, try_catch, perform, bind, SERVICE_NAME, ACCOUNT_NAME.
    rewrite Hstored. cbn [thrown_by]. intros H. injection H as <- <-. split; reflexivity. }
  destruct Hsame as [-> ->].
  assert (Htruthy : truthy_string (Some token) = true).
  { cbn. destruct (String.eqb_spec token EmptyString); [contradiction|reflexivity]. }
  exists (Api.request_config baseUrl (Some token) endpoint method data headers).
  eexists. split; [reflexivity|]. split; [|split; [reflexivity|split; [reflexivity|]]].
  - unfold Api.request. unfold bind at 1. rewrite Hrun, Htruthy. cbn [negb andb].
    destruct (axios _ _); reflexivity.
  - cbn [Api.request_config Api.config_headers]. unfold Api.request_headers.
    rewrite Htruthy. apply obj_get_set.
Qed.

(** X26. What [request] makes of a response with an error status: 401
    gives the error that asks to log in again, whatever the body; for
    any other status a body that is [undefined] or [null] makes the
    [catch] block itself throw a [TypeError], and any other body gives
    an error whose message starts with [API Error]. *)
Theorem formatError_of_a_response baseUrl toText error status body :
  Api.error_response error = Some (status, body) ->
  (status = 401%Z ->
   Api.formatError baseUrl toText error
   = Error "Authentication failed. Please run `ongoku login` to re-authenticate.") /\
  (status <> 401%Z ->
   (body = JUndefined \/ body = JNull ->
    exn_name (Api.formatError baseUrl toText error) = "TypeError") /\
   (body <> JUndefined -> body <> JNull ->
    exn_name (Api.formatError baseUrl toText error) = "Error" /\
    Js.startsWith "API Error" (exn_message (Api.formatError baseUrl toText error)) = true)).
Proof.
  intros Hresponse. unfold Api.formatError. rewrite Hresponse. split.
  - intros ->. reflexivity.
  - intros Hstatus. destruct (Z.eqb_spec status 401) as [|_]; [contradiction|]. split.
    + intros [-> | ->]; reflexivity.
    + intros Hu Hn.
      destruct body as [| |b|n|s|items|fields]; try contradiction; cbn [Api.error_property].
      5: destruct (Api.obj_get "error" fields).
      all: match goal with
           | |- context [if ?c then _ else _] => destruct c
           end; split; reflexivity.
Qed.

(** X27. No error thrown by [request] carries response data, so when a
    failing request is run under [withErrorHandling] the report is the
    failure message and the error's message, and the [API Error:] line
    is never printed. *)
Theorem request_failure_report env baseUrl axios toText endpoint method data headers
    errorMessage text w e w1 :
  Api.request env baseUrl axios toText endpoint method data headers (spinner_started text w)
  = (Throw e, w1) ->
  exn_response_data e = None /\
  exists w',
    withErrorHandling
      (body <- Api.request env baseUrl axios toText endpoint method data headers ;;
       ret (Some body))
      errorMessage text w
    = (Ok None, w') /\
    trace w' = trace w1 ++ [ Printed (SpinnerFail errorMessage);
                             Printed (ConsoleError (exn_message e)) ].
Proof.
  intros Hrun.
  assert (Hdata : exn_response_data e = None).
  { revert Hrun. unfold Api.request. unfold bind at 1.
    destruct (auth_getToken_returns env (spinner_started text w)) as (token & w0 & Hget & _).
    rewrite Hget.
    destruct (negb (truthy_string token) && negb (Js.startsWith "/auth" endpoint)).
    - intros H. injection H as <- _. reflexivity.
    - destruct (axios _ _); intros H; [|discriminate H].
      injection H as <- _. apply formatError_carries_no_response. }
  split; [exact Hdata|].
  unfold withErrorHandling, try_finally, try_catch, spinner_start.
  unfold bind at 1. fold (spinner_started text w).
  unfold bind at 1. rewrite Hrun. unfold bind, spinner_fail, console_error, print, when.
  rewrite Hdata. cbn.
  eexists. split; [reflexivity|]. cbn. rewrite <- app_assoc. reflexivity.
Qed.

(* ================================================================== *)
(** ** Error policy of the readers, and the upload flag *)
(* ================================================================== *)

(** X28. The two readers of the git client treat a failing driver
    differently: [getRemotes] never throws and answers with no remotes
    after logging the error, while [getStatus] logs the error and
    throws the very same error on; both make exactly one call. *)
Theorem git_readers_error_policy env verbose w :
  (exists remotes w' l,
     getRemotes env verbose w = (Ok remotes, w') /\
     trace w' = trace w ++ l /\
     calls_of l = [GitGetRemotes verbose] /\
     (forall e,
        oracle env (trace w) (GitGetRemotes verbose) = Throw e ->
        remotes = [] /\ In (Printed (ConsoleErrorExn "Error getting Git remotes:" e)) l)) /\
  (forall e,
     oracle env (trace w) GitStatus = Throw e ->
     getStatus env w
     = (Throw e,
        log_event (Printed (ConsoleErrorExn "Error getting Git status:" e))
          (log_event (Called GitStatus (Some e)) w))) /\
  (forall status,
     oracle env (trace w) GitStatus = Ok status ->
     getStatus env w = (Ok status, log_event (Called GitStatus None) w)).
Proof.
  split; [|split].
  - apply (wp_returns _ _
             (fun remotes _ l =>
                calls_of l = [GitGetRemotes verbose] /\
                (forall e,
                   oracle env (trace w) (GitGetRemotes verbose) = Throw e ->
                   remotes = [] /\
                   In (Printed (ConsoleErrorExn "Error getting Git remotes:" e)) l))).
    destruct verbose; repeat wp_step env; conclude;
      (split; [reflexivity|]); intros e' He'; agree;
      (split; [reflexivity|cbn [In]; solve [find_member]]).
  - intros e He. unfold getStatus, try_catch, perform, bind, print, throw.
    rewrite He. reflexivity.
  - intros status Hs. unfold getStatus, try_catch, perform.
    rewrite Hs. reflexivity.
Qed.

(** X29. Every schema upload of a push tells the server to skip its own
    commit exactly when the push is not schema-only: no upload carries a
    [skipGitCommit] flag equal to [schemaOnly]. *)
Theorem push_upload_flag env options w :
  exists l,
    trace (snd (pushCommand env options w)) = trace w ++ l /\
    count_calls (is_upload_with (schemaOnly options)) l = 0%nat.
Proof.
  cut (avoiding (is_upload_with (schemaOnly options)) AnyExpiry AnyExpiry
         (pushCommand env options)).
  { intros H. exact (proj2 (H w I)). }
  destruct options as [message directory only_schema only_code].
  destruct only_schema; repeat (cbn [schemaOnly codeOnly negb]; avoid_step).
Qed.

(** X30. Outside an Ongoku project nothing is attempted: when the
    project directory (the [--directory] option resolved, or the working
    directory) holds no [ongoku.yaml], the bodies of [push] and [pull]
    return [null] after that one probe, having called neither git nor
    the API. *)
Theorem commands_need_a_project_file env w :
  (forall options,
     oracle env (trace w)
       (FsExistsSync
          (Js.path_join (resolveProjectDir env (push_directory options)) "ongoku.yaml"))
     = Ok false ->
     exists w' l,
       pushBody env options w = (Ok None, w') /\
       trace w' = trace w ++ l /\
       calls_of l
       = [FsExistsSync
            (Js.path_join (resolveProjectDir env (push_directory options)) "ongoku.yaml")]) /\
  (forall options,
     oracle env (trace w)
       (FsExistsSync
          (Js.path_join (resolveProjectDir env (pull_directory options)) "ongoku.yaml"))
     = Ok false ->
     exists w' l,
       pullBody env options w = (Ok None, w') /\
       trace w' = trace w ++ l /\
       calls_of l
       = [FsExistsSync
            (Js.path_join (resolveProjectDir env (pull_directory options)) "ongoku.yaml")]).
Proof.
  split; intros options Hmissing.
  - destruct (wp_returns (pushBody env options) w
                (fun r _ l =>
                   r = None /\
                   calls_of l
                   = [FsExistsSync
                        (Js.path_join (resolveProjectDir env (push_directory options))
                           "ongoku.yaml")]))
      as (r & w' & l & Hrun & Hl & -> & Hcalls).
    + unfold pushBody, isOngokuProject.
      repeat (wp_step env; try solve [agree]); conclude; split; reflexivity.
    + exists w', l. auto.
  - destruct (wp_returns (pullBody env options) w
                (fun r _ l =>
                   r = None /\
                   calls_of l
                   = [FsExistsSync
                        (Js.path_join (resolveProjectDir env (pull_directory options))
                           "ongoku.yaml")]))
      as (r & w' & l & Hrun & Hl & -> & Hcalls).
    + unfold pullBody, isOngokuProject.
      repeat (wp_step env; try solve [agree]); conclude; split; reflexivity.
    + exists w', l. auto.
Qed.

(* ================================================================== *)
(** ** The conditions of the further properties are met *)
(* ================================================================== *)

Lemma X4_witness :
  (exists w' l,
     commitAndPush Scenario.unreadable_directory "/repo" "sync" initial_world = (Ok false, w') /\
     trace w' = trace initial_world ++ l /\
     count_calls is_git_call l = 0%nat) /\
  (exists w' l,
     pull Scenario.unreadable_directory "/repo" initial_world = (Ok false, w') /\
     trace w' = trace initial_world ++ l /\
     count_calls is_git_call l = 0%nat).
Proof.
  destruct (no_git_call_outside_a_repository Scenario.unreadable_directory "/repo" "sync"
              initial_world) as [Hpush Hpull].
  split; [apply Hpush|apply Hpull]; vm_compute; discriminate.
Defined.

Lemma X8_witness :
  fst (isTokenValid Demo.healthy
         (snd (configureWithToken Demo.healthy "ghs_demo"
                 "https://github.com/build-ongoku/project-example" (Some 1767225600000%Z)
                 initial_world)))
  = Ok true.
Proof.
  apply (proj1 (configured_token_validity Demo.healthy "ghs_demo"
                  "https://github.com/build-ongoku/project-example" (Some 1767225600000%Z)
                  initial_world _ _ eq_refl eq_refl) 1767225600000%Z eq_refl).
  discriminate.
Defined.

Lemma X9_witness :
  exists r w' thrown l,
    configureWithToken Demo.healthy "ghs_demo"
      "https://github.com/build-ongoku/project-example" None initial_world = (r, w') /\
    trace w'
    = trace initial_world
      ++ Called (GitRemote ["set-url"; "origin";
                            "https://ghs_demo@github.com/build-ongoku/project-example"]) thrown
      :: l.
Proof.
  apply (configureWithToken_remote_url Demo.healthy "ghs_demo"
           "https://github.com/build-ongoku/project-example" None initial_world).
  left. exists "github.com/build-ongoku/project-example".
  split; [reflexivity|]. split; reflexivity.
Defined.

Lemma X10_witness :
  exists l,
    trace (snd (pushCommand Demo.healthy Demo.push_schema_only initial_world))
    = trace initial_world ++ l /\
    count_calls is_code_step l = 0%nat.
Proof.
  apply (schema_only_push_leaves_the_repository Demo.healthy Demo.push_schema_only
           initial_world).
  reflexivity.
Defined.

Lemma X11_witness :
  exists l,
    trace (snd (pushCommand Demo.healthy Scenario.push_code_only initial_world))
    = trace initial_world ++ l /\
    count_calls is_schema_transfer l = 0%nat.
Proof.
  apply (code_only_push_leaves_the_schema Demo.healthy Scenario.push_code_only initial_world).
  reflexivity.
Defined.

Lemma X12_witness :
  exists w' l,
    pushCommand Demo.healthy Demo.push_defaults initial_world = (Ok tt, w') /\
    trace w' = trace initial_world ++ l /\
    count_calls is_repository_call l = 0%nat.
Proof.
  apply (declared_token_push_never_reaches_the_repository Demo.healthy Demo.push_defaults
           initial_world).
  intros history projectId response info Hreply Hinfo.
  injection Hreply as <-. injection Hinfo as <-. split; reflexivity.
Defined.

Lemma X13_witness :
  exists w' l,
    pullCommand Demo.healthy Demo.pull_defaults initial_world = (Ok tt, w') /\
    trace w' = trace initial_world ++ l /\
    count_calls is_git_write l = 0%nat.
Proof.
  apply (declared_token_pull_never_changes_the_working_copy Demo.healthy Demo.pull_defaults
           initial_world).
  intros history projectId response info Hreply Hinfo.
  injection Hreply as <-. injection Hinfo as <-. split; reflexivity.
Defined.

(** The condition on the tokens is needed: when the [git_info] object
    of the reply carries a [git_info] property, the destructuring goes
    through, the remote is pointed at the authenticated URL and the
    changes are committed and pushed. *)
Example nested_git_info_is_applied :
  ~ issues_declared_shape Scenario.nested_reply /\
  count_calls is_set_url
    (trace (snd (pushCommand Scenario.nested_reply Demo.push_defaults initial_world))) = 1%nat /\
  count_calls is_commit
    (trace (snd (pushCommand Scenario.nested_reply Demo.push_defaults initial_world))) = 1%nat /\
  count_calls is_push
    (trace (snd (pushCommand Scenario.nested_reply Demo.push_defaults initial_world))) = 1%nat /\
  In (Printed (SpinnerSucceed "Successfully pushed changes to Ongoku."))
    (trace (snd (pushCommand Scenario.nested_reply Demo.push_defaults initial_world))).
Proof.
  split.
  - intros Hshape.
    destruct (Hshape [] EmptyString (mkTokenResponse true (Some Scenario.nested))
                Scenario.nested eq_refl eq_refl) as [_ Hnone].
    discriminate Hnone.
  - vm_compute. repeat split; repeat first [ left; reflexivity | right ].
Qed.

Lemma X14_witness :
  exists l,
    trace (snd (pullCommand Demo.healthy Scenario.pull_forced initial_world))
    = trace initial_world ++ l /\
    count_calls is_prompt l = 0%nat.
Proof.
  apply (forced_pull_never_prompts Demo.healthy Scenario.pull_forced initial_world).
  reflexivity.
Defined.

Lemma X15_witness :
  In Demo.example_project [Demo.other_host_project; Demo.example_project] /\
  ((Js.matchesIdPattern "EXAMPLE" = true /\ project_id Demo.example_project = "EXAMPLE") \/
   (exists url,
      None = Some url /\ url <> EmptyString /\ matchesRemote url Demo.example_project = true) \/
   toLowerCase Demo.healthy (project_name Demo.example_project)
   = toLowerCase Demo.healthy "EXAMPLE").
Proof.
  apply (selectProject_result_is_listed Demo.healthy
           [Demo.other_host_project; Demo.example_project] "EXAMPLE" None Demo.example_project).
  reflexivity.
Defined.

Lemma X19_witness :
  exists l,
    trace (snd (findSchemaFile Demo.healthy "/repo" initial_world)) = trace initial_world ++ l /\
    (("/repo/goku_schema/app.schema.yml" = EmptyString /\
      calls_of l = map FsExistsSync (schemaFiles "/repo")) \/
     (exists earlier later,
        schemaFiles "/repo" = earlier ++ "/repo/goku_schema/app.schema.yml" :: later /\
        calls_of l = map FsExistsSync (earlier ++ ["/repo/goku_schema/app.schema.yml"]))).
Proof.
  apply (findSchemaFile_probes_in_order Demo.healthy "/repo" initial_world
           "/repo/goku_schema/app.schema.yml").
  reflexivity.
Defined.

Lemma X22_witness :
  pushCommand Scenario.keychain_locked Demo.push_defaults initial_world
  = (Ok tt, snd (checkAuthentication Scenario.keychain_locked initial_world)) /\
  pullCommand Scenario.keychain_locked Demo.pull_defaults initial_world
  = (Ok tt, snd (checkAuthentication Scenario.keychain_locked initial_world)).
Proof.
  destruct (commands_stop_when_logged_out Scenario.keychain_locked initial_world _ eq_refl)
    as [Hpush Hpull].
  split; [apply Hpush|apply Hpull].
Defined.

Lemma X24_witness :
  Api.request Scenario.keychain_locked "https://api.ongoku.dev" Scenario.failing_transport
    Scenario.toText "/projects" Api.GET JUndefined [] initial_world
  = (Throw (Error "Authentication required. Please run `ongoku login` first."),
     snd (auth_getToken Scenario.keychain_locked initial_world)).
Proof.
  apply (request_requires_a_token Scenario.keychain_locked "https://api.ongoku.dev"
           Scenario.failing_transport Scenario.toText "/projects" Api.GET JUndefined []
           initial_world).
  - reflexivity.
  - intros token H. vm_compute in H. discriminate H.
Defined.

Lemma X25_witness :
  exists config w',
    w' = log_event (Called (KeytarGetPassword "ongoku-cli" "default") None) initial_world /\
    Api.request Demo.healthy "https://api.ongoku.dev" Scenario.failing_transport
      Scenario.toText "/projects" Api.GET JUndefined [("Authorization", "Basic abc")]
      initial_world
    = (match Scenario.failing_transport (trace w') config with
       | inr body => Ok body
       | inl error => Throw (Api.formatError "https://api.ongoku.dev" Scenario.toText error)
       end, w') /\
    Api.config_url config = "https://api.ongoku.dev/projects" /\
    Api.config_method config = Api.GET /\
    Api.obj_get "Authorization" (Api.config_headers config) = Some "Bearer session".
Proof.
  apply (request_sends_the_bearer_token Demo.healthy "https://api.ongoku.dev"
           Scenario.failing_transport Scenario.toText "/projects" Api.GET JUndefined
           [("Authorization", "Basic abc")] initial_world "session").
  - reflexivity.
  - discriminate.
Defined.

Lemma X26_witness :
  exn_name (Api.formatError "https://api.ongoku.dev" Scenario.toText Scenario.server_error)
  = "Error" /\
  Js.startsWith "API Error"
    (exn_message
       (Api.formatError "https://api.ongoku.dev" Scenario.toText Scenario.server_error))
  = true.
Proof.
  apply (proj2 (formatError_of_a_response "https://api.ongoku.dev" Scenario.toText
                  Scenario.server_error 500%Z
                  (JObj [("error", JStr "database unavailable")]) eq_refl)).
  - discriminate.
  - discriminate.
  - discriminate.
Defined.

Lemma X27_witness :
  exists w',
    withErrorHandling
      (body <- Api.request Demo.healthy "https://api.ongoku.dev" Scenario.failing_transport
                 Scenario.toText "/projects" Api.GET JUndefined [] ;;
       ret (Some body))
      "Failed to list projects" "Fetching projects..." initial_world
    = (Ok None, w') /\
    In (Printed (ConsoleError "API Error (500): database unavailable")) (trace w').
Proof.
  destruct (request_failure_report Demo.healthy "https://api.ongoku.dev"
              Scenario.failing_transport Scenario.toText "/projects" Api.GET JUndefined []
              "Failed to list projects" "Fetching projects..." initial_world _ _ eq_refl)
    as (_ & w' & Hrun & Htrace).
  exists w'. split; [exact Hrun|]. rewrite Htrace. apply in_or_app. right.
  right. left. reflexivity.
Defined.

Lemma X30_witness :
  (exists w' l,
     pushBody Scenario.empty_directory Demo.push_defaults initial_world = (Ok None, w') /\
     trace w' = trace initial_world ++ l /\
     calls_of l = [FsExistsSync "/home/dev/elsewhere/ongoku.yaml"]) /\
  (exists w' l,
     pullBody Scenario.empty_directory Demo.pull_defaults initial_world = (Ok None, w') /\
     trace w' = trace initial_world ++ l /\
     calls_of l = [FsExistsSync "/home/dev/elsewhere/ongoku.yaml"]).
Proof.
  destruct (commands_need_a_project_file Scenario.empty_directory initial_world)
    as [Hpush Hpull].
  split; [apply (Hpush Demo.push_defaults)|apply (Hpull Demo.pull_defaults)]; reflexivity.
Defined.
